(** * noa-news: the three news aggregation scripts

    A shallow embedding of [fetch_nalco_news.py], [fetch_local_news.py] and
    [fetch_psu_news.py].  Every script fetches candidates from its sources,
    removes duplicates by URL, sorts by timestamp (most recent first), keeps
    a bounded prefix and writes one JSON snapshot.

    Python strings are sequences of Unicode code points; they are modelled
    as lists of code points ([N]).  What the external libraries return
    (the HTTP client, the feed parser, the HTML parser, the date parsers) is
    an input of the model. *)

From Stdlib Require Import ZArith NArith Lia List Bool Ascii String Sorted.
From stdpp Require Import base decidable option list gmap sets.


(** ** Python strings *)

Module PyStr.
Local Open Scope N_scope.

Abbreviation pystr := (list N).

(** A literal: the code points of an ASCII (Latin-1) string. *)
Fixpoint lit (s : string) : pystr :=
  match s with
  | EmptyString => []
  | String c s' => N_of_ascii c :: lit s'
  end.

(** [str.isspace] on one code point: the characters [str.strip()]
    removes when called without argument. *)
Definition isspace (c : N) : bool :=
  ((9 <=? c) && (c <=? 13)) || ((28 <=? c) && (c <=? 32))
  || (c =? 133) || (c =? 160) || (c =? 5760)
  || ((8192 <=? c) && (c <=? 8202))
  || (c =? 8232) || (c =? 8233) || (c =? 8239) || (c =? 8287)
  || (c =? 12288).

Fixpoint lstrip (s : pystr) : pystr :=
  match s with
  | [] => []
  | c :: s' => if isspace c then lstrip s' else s
  end.

Definition rstrip (s : pystr) : pystr := reverse (lstrip (reverse s)).

(** [s.strip()] *)
Definition strip (s : pystr) : pystr := rstrip (lstrip s).

(** Truthiness of a string: [not s] is [is_empty s]. *)
Definition is_empty (s : pystr) : bool :=
  match s with [] => true | _ => false end.

(** [s[:n]] *)
Definition slice_to (n : nat) (s : pystr) : pystr := take n s.

(** [s.replace(a, b)] for one-character [a] and [b]. *)
Definition replace_char (a b : N) (s : pystr) : pystr :=
  map (fun c => if c =? a then b else c) s.

(** Comparison of two strings, as [<], [==], [>] of Python decide it:
    code point by code point, a proper prefix being smaller. *)
Fixpoint compare (a b : pystr) : comparison :=
  match a, b with
  | [], [] => Eq
  | [], _ :: _ => Lt
  | _ :: _, [] => Gt
  | x :: a', y :: b' =>
      match N.compare x y with
      | Eq => compare a' b'
      | c => c
      end
  end.

(** [a <= b] *)
Definition leb (a b : pystr) : bool :=
  match compare a b with Gt => false | _ => true end.

(** [a >= b] *)
Definition geb (a b : pystr) : bool := leb b a.

(** No leading and no trailing whitespace. *)
Definition trimmed (s : pystr) : Prop :=
  (forall c, head s = Some c -> isspace c = false) /\
  (forall c, last s = Some c -> isspace c = false).

#[global] Arguments slice_to : simpl never.
#[global] Arguments lit : simpl never.

End PyStr.

Import PyStr.

(** ** [sorted(xs, key=k, reverse=True)] and [xs.sort(key=k, reverse=True)]

    Python's sort is stable, also with [reverse=True]: elements with equal
    keys keep the order they had.  A stable sort has one possible result,
    so the model is the stable insertion sort: every element is placed in
    front of the first element whose key is not greater than its own. *)

Section Sorting.
Context {A : Type} (key : A -> pystr).

Fixpoint insert_desc (x : A) (l : list A) : list A :=
  match l with
  | [] => [x]
  | y :: l' =>
      if PyStr.geb (key x) (key y) then x :: y :: l'
      else y :: insert_desc x l'
  end.

Definition sorted_desc (l : list A) : list A := foldr insert_desc [] l.

(** Descending by key: every element's key is [>=] the keys after it. *)
Definition desc (a b : A) : Prop := PyStr.geb (key a) (key b) = true.

End Sorting.

(** ** [datetime] values and their ISO-8601 rendering *)

Module PyDate.
Local Open Scope N_scope.

(** A [datetime.datetime].  [tzoffset] is the UTC offset in minutes of an
    aware value ([timezone.utc] is [Some 0]); [None] is a naive value. *)
Record datetime : Type := mk_datetime {
  year : N; month : N; day : N;
  hour : N; minute : N; second : N; microsecond : N;
  tzoffset : option Z
}.

Definition is_leap (y : N) : bool :=
  (y mod 4 =? 0) && (negb (y mod 100 =? 0) || (y mod 400 =? 0)).

Definition days_in_month (y m : N) : N :=
  match m with
  | 1 | 3 | 5 | 7 | 8 | 10 | 12 => 31
  | 4 | 6 | 9 | 11 => 30
  | 2 => if is_leap y then 29 else 28
  | _ => 0
  end.

(** The range checks of the [datetime] constructor. *)
Definition valid (d : datetime) : bool :=
  (1 <=? year d) && (year d <=? 9999)
  && (1 <=? month d) && (month d <=? 12)
  && (1 <=? day d) && (day d <=? days_in_month (year d) (month d))
  && (hour d <? 24) && (minute d <? 60) && (second d <? 60)
  && (microsecond d <? 1000000)
  && match tzoffset d with
     | None => true
     | Some o => ((-1440 <? o) && (o <? 1440))%Z
     end.

(** A [time.struct_time]; the scripts read its first six fields. *)
Record struct_time : Type := mk_struct_time {
  tm_year : Z; tm_mon : Z; tm_mday : Z;
  tm_hour : Z; tm_min : Z; tm_sec : Z
}.

(** The [datetime] built from the first six fields of [t] with
    [tzinfo=timezone.utc]; [None] is the [ValueError] of a field out of
    range. *)
Definition datetime_utc (t : struct_time) : option datetime :=
  let d := {| year := Z.to_N (tm_year t); month := Z.to_N (tm_mon t);
              day := Z.to_N (tm_mday t); hour := Z.to_N (tm_hour t);
              minute := Z.to_N (tm_min t); second := Z.to_N (tm_sec t);
              microsecond := 0; tzoffset := Some 0%Z |} in
  if ((0 <=? tm_year t) && (0 <=? tm_mon t) && (0 <=? tm_mday t)
      && (0 <=? tm_hour t) && (0 <=? tm_min t) && (0 <=? tm_sec t))%Z
     && valid d
  then Some d else None.

(** [w] decimal digits of [n], most significant first: ["%0wd" % n] for
    [n < 10^w], which the range checks guarantee wherever it is used. *)
Fixpoint digits (w : nat) (n : N) : pystr :=
  match w with
  | O => []
  | S w' => digits w' (n / 10) ++ [48 + n mod 10]
  end.

(** [d.date().isoformat()]: [YYYY-MM-DD] *)
Definition date_isoformat (d : datetime) : pystr :=
  digits 4 (year d) ++ [45] ++ digits 2 (month d) ++ [45] ++ digits 2 (day d).

Definition frac_str (us : N) : pystr :=
  if us =? 0 then [] else 46 :: digits 6 us.

Definition tz_str (tz : option Z) : pystr :=
  match tz with
  | None => []
  | Some o =>
      let a := Z.to_N (Z.abs o) in
      (if (o <? 0)%Z then 45 else 43) :: digits 2 (a / 60) ++ [58] ++ digits 2 (a mod 60)
  end.

(** [d.isoformat()]: [YYYY-MM-DDTHH:MM:SS[.ffffff][+HH:MM]] *)
Definition isoformat (d : datetime) : pystr :=
  date_isoformat d ++ [84]
    ++ digits 2 (hour d) ++ [58] ++ digits 2 (minute d) ++ [58]
    ++ digits 2 (second d) ++ frac_str (microsecond d) ++ tz_str (tzoffset d).

(** *** The instant a value denotes *)

Definition days_before_year (y : Z) : Z :=
  let p := (y - 1)%Z in (p * 365 + p / 4 - p / 100 + p / 400)%Z.

Definition days_before_month (y m : N) : Z :=
  let l := if is_leap y then 1%Z else 0%Z in
  match m with
  | 1 => 0%Z | 2 => 31%Z | 3 => (59 + l)%Z | 4 => (90 + l)%Z
  | 5 => (120 + l)%Z | 6 => (151 + l)%Z | 7 => (181 + l)%Z
  | 8 => (212 + l)%Z | 9 => (243 + l)%Z | 10 => (273 + l)%Z
  | 11 => (304 + l)%Z | _ => (334 + l)%Z
  end.

(** [d.toordinal()]: day number, 0001-01-01 being day 1. *)
Definition toordinal (d : datetime) : Z :=
  (days_before_year (Z.of_N (year d)) + days_before_month (year d) (month d)
   + Z.of_N (day d))%Z.

(** Microseconds from 0001-01-01T00:00:00 read with UTC offset [o]. *)
Definition micros_at (o : Z) (d : datetime) : Z :=
  ((((toordinal d * 24 + Z.of_N (hour d)) * 60 + Z.of_N (minute d) - o) * 60
    + Z.of_N (second d)) * 1000000 + Z.of_N (microsecond d))%Z.

(** The instant of an aware value; a naive value denotes none. *)
Definition instant (d : datetime) : option Z :=
  match tzoffset d with
  | Some o => Some (micros_at o d)
  | None => None
  end.

(** Field by field comparison, as [datetime.__lt__] compares two values
    of one time zone. *)
Definition lex (c1 c2 : comparison) : comparison :=
  match c1 with Eq => c2 | _ => c1 end.

Definition fields_compare (a b : datetime) : comparison :=
  lex (N.compare (year a) (year b))
   (lex (N.compare (month a) (month b))
    (lex (N.compare (day a) (day b))
     (lex (N.compare (hour a) (hour b))
      (lex (N.compare (minute a) (minute b))
       (lex (N.compare (second a) (second b))
            (N.compare (microsecond a) (microsecond b))))))).

(** The ranges of the fields, as propositions. *)
Record in_range (d : datetime) : Prop := mk_in_range {
  range_year : 1 <= year d <= 9999;
  range_month : 1 <= month d <= 12;
  range_day : 1 <= day d <= days_in_month (year d) (month d);
  range_hour : hour d < 24;
  range_minute : minute d < 60;
  range_second : second d < 60;
  range_microsecond : microsecond d < 1000000
}.

(** [a] denotes an earlier instant than [b]. *)
Definition earlier (a b : datetime) : Prop :=
  match instant a, instant b with
  | Some x, Some y => (x < y)%Z
  | _, _ => False
  end.

(** [s] is the ISO string of the UTC value [d]. *)
Definition utc_stamp (s : pystr) (d : datetime) : Prop :=
  valid d = true /\ tzoffset d = Some 0%Z /\ s = isoformat d.

End PyDate.


(** ** Results, printed lines, files, dictionaries *)

(** The exceptions a script can die of. *)
Inductive exn : Type :=
| AttributeError (attr : pystr)   (* a feed entry has no such attribute *)
| TypeError                       (* subscripting [None] *)
| ValueError                      (* a [datetime] field out of range,
                                     a URL [urljoin] cannot split *)
| OSError                         (* the directory or the file *)
| InvalidURL                      (* [http.client]: a URL with a space *)
| UnicodeEncodeError.             (* [print]: a character the terminal
                                     cannot encode *)

(** A computation that returns or raises. *)
Inductive result (A : Type) : Type :=
| Ok (a : A)
| Raise (e : exn).
Arguments Ok {A} a.
Arguments Raise {A} e.

#[global] Instance exn_eq_dec : EqDecision exn.
Proof. solve_decision. Defined.

#[global] Instance result_eq_dec {A} `{EqDecision A} : EqDecision (result A).
Proof. solve_decision. Defined.

#[global] Instance result_ret : MRet result := fun _ a => Ok a.
#[global] Instance result_bind : MBind result := fun _ _ k m =>
  match m with
  | Ok a => k a
  | Raise e => Raise e
  end.

(** A [for] loop whose body can raise: the first exception ends it. *)
Fixpoint for_each {S X} (body : S -> X -> result S) (xs : list X) (s : S)
  : result S :=
  match xs with
  | [] => Ok s
  | x :: xs' => body s x ≫= for_each body xs'
  end.

(** What the scripts print, one constructor per [print] statement. *)
Inductive line : Type :=
| INFO_fetching_press
| INFO_press_found (n : nat)
| INFO_fetching_google
| INFO_google_found (n : nat)
| WARN_failed_to_fetch (url e : pystr)
| WARN_failed_to_parse_xml (e : pystr)
| OK_wrote (n : nat) (path : pystr)
| Local_news_updated (n : nat)
| PSU_news_updated (n : nat).

(** A computation that prints: its value and the lines printed. *)
Definition printing (A : Type) : Type := A * list line.

#[global] Instance printing_ret : MRet printing := fun _ a => (a, []).
#[global] Instance printing_bind : MBind printing := fun _ _ k m =>
  let r := k (fst m) in (fst r, snd m ++ snd r).

Definition print (l : line) : printing unit := (tt, [l]).

(** The destination file: what a run leaves there. *)
Inductive file (F : Type) : Type :=
| Untouched                (* the run never opened it *)
| Truncated                (* opened for writing, [json.dump] failed *)
| Written (doc : F).       (* the whole document *)
Arguments Untouched {F}.
Arguments Truncated {F}.
Arguments Written {F} doc.

(** What the file system and the terminal do to the last steps of a
    run. *)
Record fs_behaviour : Type := mk_fs {
  makedirs_ok : bool;            (* creating the parent directory *)
  open_ok : bool;                (* [open(path, "w")] *)
  dump_ok : bool;                (* [json.dump] into the open file *)
  print_raises : option exn      (* the last [print], after the file is
                                    closed: the exception it raises *)
}.

(** The outcome of a run: the lines printed, the destination file, and
    the exception that ended the run, if one did. *)
Record outcome (F : Type) : Type := mk_outcome {
  stdout : list line;
  snapshot : file F;
  raised : option exn
}.
Arguments mk_outcome {F}.
Arguments stdout {F}.
Arguments snapshot {F}.
Arguments raised {F}.

(** [with open(path, "w") as f: json.dump(doc, f)], then the last
    [print]: when it raises, the document is already complete. *)
Definition write_file {F} (fs : fs_behaviour) (before : list line)
    (doc : F) (last : line) : outcome F :=
  if negb (open_ok fs) then mk_outcome before Untouched (Some OSError)
  else if negb (dump_ok fs) then mk_outcome before Truncated (Some OSError)
  else
    match print_raises fs with
    | Some e => mk_outcome before (Written doc) (Some e)
    | None => mk_outcome (before ++ [last]) (Written doc) None
    end.

(** The entries a loop over feeds visits, each with its feed: those of
    the feeds fetched before the first call that raises. *)
Fixpoint visited {C X} (fetch : C -> result (list X)) (calls : list C)
  : list (C * X) :=
  match calls with
  | [] => []
  | c :: calls' =>
      match fetch c with
      | Ok xs => map (pair c) xs ++ visited fetch calls'
      | Raise _ => []
      end
  end.

(** A fetch that returns what [f] gives: no call raises. *)
Definition returning {C X} (f : C -> list X) : C -> result (list X) :=
  fun c => Ok (f c).

(** What a call returned, nothing when it raised. *)
Definition returned {C X} (fetch : C -> result (list X)) (c : C) : list X :=
  match fetch c with
  | Ok xs => xs
  | Raise _ => []
  end.

(** A Python [dict] with string keys: the keys in insertion order. *)
Section Dict.
Context {V : Type}.

Definition dict : Type := list (pystr * V).

(** [k in d] *)
Definition dict_has (k : pystr) (d : dict) : bool :=
  bool_decide (k ∈ d.*1).

(** [d[k] = v]: a new key goes last, a present key keeps its place. *)
Fixpoint dict_set (k : pystr) (v : V) (d : dict) : dict :=
  match d with
  | [] => [(k, v)]
  | (k', v') :: d' =>
      if bool_decide (k' = k) then (k, v) :: d'
      else (k', v') :: dict_set k v d'
  end.

(** [d.values()] *)
Definition dict_values (d : dict) : list V := d.*2.

End Dict.
Arguments dict V : clear implicits.

(** The shape of the loops that fill a dictionary in the feed scripts:
    the key of a candidate is computed, a key already present skips the
    candidate, a new key stores what is built from it. *)
Section FirstWins.
Context {X V : Type}
        (keyof : X -> result pystr)
        (build : pystr -> X -> result V).

Definition first_wins_step (d : dict V) (x : X) : result (dict V) :=
  k ← keyof x;
  if dict_has k d then Ok d
  else v ← build k x; Ok (dict_set k v d).

(** [x] is the first candidate of key [k] in [xs], and [v] is built
    from it. *)
Definition first_of (xs : list X) (k : pystr) (v : V) : Prop :=
  exists pre x post,
    xs = pre ++ x :: post /\ keyof x = Ok k /\
    (forall y, y ∈ pre -> keyof y <> Ok k) /\ build k x = Ok v.


(** [vs], the values stored, hold exactly one value per key of a
    candidate, the one built from the first candidate of that key;
    [url] reads the key back from a value. *)
Definition first_wins_result (url : V -> pystr) (xs : list X) (vs : list V)
  : Prop :=
  NoDup (map url vs) /\
  (forall v, v ∈ vs -> first_of xs (url v) v) /\
  (forall x k, x ∈ xs -> keyof x = Ok k -> k ∈ map url vs).

End FirstWins.

(** ** [fetch_nalco_news.py] *)

Module Nalco.

(** *** Text helpers the script calls *)

(** [needle in hay] *)
Fixpoint contains (needle hay : pystr) : bool :=
  match hay with
  | [] => PyStr.is_empty needle
  | _ :: hay' =>
      bool_decide (needle `prefix_of` hay) || contains needle hay'
  end.

(** [sep.join(parts)] *)
Fixpoint join (sep : pystr) (parts : list pystr) : pystr :=
  match parts with
  | [] => []
  | [p] => p
  | p :: rest => p ++ sep ++ join sep rest
  end.

(** [tag.get_text(sep, strip=True)] over the text nodes below a tag:
    every node is stripped, the empty ones are dropped. *)
Definition get_text_strip (sep : pystr) (nodes : list pystr) : pystr :=
  join sep (List.filter (fun s => negb (PyStr.is_empty s)) (map PyStr.strip nodes)).

(** The regular expression [<[^<]+?>], tried on what follows a [<]: one
    character other than [<], then as few more of them as possible up to
    a [>].  [Some rest] is what is left behind the match. *)
Fixpoint tag_close (s : pystr) : option pystr :=
  match s with
  | [] => None
  | c :: s' =>
      if (c =? 62)%N then Some s'
      else if (c =? 60)%N then None
      else tag_close s'
  end.

Definition tag_match (s : pystr) : option pystr :=
  match s with
  | [] => None
  | c :: s' => if (c =? 60)%N then None else tag_close s'
  end.

(** [re.sub("<[^<]+?>", "", s)]: the matches, found from left to right
    without overlap, are deleted.  The fuel is the length of [s]. *)
Fixpoint strip_tags_from (fuel : nat) (s : pystr) : pystr :=
  match fuel, s with
  | _, [] => []
  | O, _ => s
  | S fuel', c :: s' =>
      if (c =? 60)%N then
        match tag_match s' with
        | Some rest => strip_tags_from fuel' rest
        | None => c :: strip_tags_from fuel' s'
        end
      else c :: strip_tags_from fuel' s'
  end.

Definition strip_tags (s : pystr) : pystr := strip_tags_from (length s) s.

(** [re.search("<[^<]+?>", s) is not None]: [s] holds a tag. *)
Fixpoint has_tag (s : pystr) : bool :=
  match s with
  | [] => false
  | c :: s' =>
      ((c =? 60)%N && bool_decide (is_Some (tag_match s'))) || has_tag s'
  end.

(** Every [<] of [s] opens a tag. *)
Definition well_tagged (s : pystr) : Prop :=
  forall pre post, s = pre ++ 60%N :: post -> is_Some (tag_match post).

(** [s or ""] for an optional string. *)
Definition or_empty (s : option pystr) : pystr := default [] s.

(** *** Configuration *)

Definition OUTPUT_PATH : pystr := lit "json/nalco_news.json".
Definition NALCO_PRESS_URL : pystr :=
  lit "https://nalcoindia.com/news-media/press-releases/".
Definition GOOGLE_NEWS_RSS : pystr :=
  lit "https://news.google.com/rss/search?q=National+Aluminium+Company+Limited+NALCO&hl=en-IN&gl=IN&ceid=IN:en".

(** *** Data *)

(** One entry of the output: the dictionary both adapters build. *)
Record item : Type := mk_item {
  source : pystr;
  title : pystr;
  url : pystr;
  date : option pystr;
  timestamp : option pystr;
  summary : pystr
}.

(** The written document. *)
Record document : Type := mk_document {
  updated_at : pystr;
  count : nat;
  items : list item
}.

(** An [<a href=...>]: the attribute and the text nodes below it. *)
Record anchor : Type := mk_anchor {
  href : pystr;
  a_strings : list pystr
}.

(** An [<h3>] of the listing: its first link with an [href], if any, and
    the text nodes of its parent. *)
Record h3 : Type := mk_h3 {
  h3_a : option anchor;
  container_strings : list pystr
}.

(** An [<item>] of the feed, by [findtext]: [None] is a missing child. *)
Record rss_item : Type := mk_rss_item {
  rss_title : option pystr;
  rss_link : option pystr;
  rss_pubDate : option pystr;
  rss_description : option pystr
}.

(** [ET.fromstring]: a parse error, or the items of the root's
    [channel] child ([None] when the root has none). *)
Inductive xml : Type :=
| XmlError (e : pystr)
| XmlRoot (channel : option (list rss_item)).

(** [requests.get] followed by [raise_for_status]. *)
Inductive response : Type :=
| Body (text : pystr)
| Failed (e : pystr).

(** What the libraries answer during one run.  [urljoin] is a partial
    function: [None] stands for its [ValueError], as on the reference
    [//[/pre-rel/x], which has no valid host. *)
Record libraries : Type := mk_libraries {
  requests_get : pystr -> response;
  select_h3 : pystr -> list h3;
  urljoin : pystr -> pystr -> option pystr;
  re_search_date : pystr -> option pystr;
  strptime : pystr -> option PyDate.datetime;
  find_p : pystr -> option (list pystr);
  fromstring : pystr -> xml;
  parsedate_to_datetime : pystr -> option PyDate.datetime;
  utcnow : PyDate.datetime
}.

Section Run.

Context (L : libraries) (fs : fs_behaviour).

(** [safe_request]: the response, or [None] after a warning. *)
Definition safe_request (u : pystr) : printing (option pystr) :=
  match requests_get L u with
  | Body text => mret (Some text)
  | Failed e => print (WARN_failed_to_fetch u e);; mret None
  end.

(** The date and timestamp of a press release: a [dd/mm/yyyy] near
    the heading, parsed with [strptime]. *)
Definition press_dates (text_block : pystr) : option pystr * option pystr :=
  match re_search_date L text_block with
  | Some date_str =>
      match strptime L date_str with
      | Some dt => (Some (PyDate.date_isoformat dt), Some (PyDate.isoformat dt))
      | None => (None, None)
      end
  | None => (None, None)
  end.

(** The body of the loop over the headings.  The call of [urljoin]
    stands outside every [try]: its [ValueError] ends the loop and the
    function. *)
Definition press_item (items : list item) (h : h3)
  : printing (result (list item)) :=
  match h3_a h with
  | None => mret (Ok items)
  | Some a =>
      if negb (contains (lit "/pre-rel/") (href a)) then mret (Ok items)
      else
        let title := get_text_strip [] (a_strings a) in
        match urljoin L NALCO_PRESS_URL (href a) with
        | None => mret (Raise ValueError)
        | Some url =>
            let text_block := get_text_strip (lit " ") (container_strings h) in
            let '(date_iso, ts_iso) := press_dates text_block in
            detail ← safe_request url;
            let summary :=
              match detail with
              | Some text =>
                  match find_p L text with
                  | Some p => PyStr.slice_to 300 (get_text_strip (lit " ") p)
                  | None => []
                  end
              | None => []
              end in
            mret (Ok (items ++ [ {| source := lit "NALCO Press Release";
                                    title := title; url := url;
                                    date := date_iso; timestamp := ts_iso;
                                    summary := summary |} ]))
        end
  end.

Fixpoint press_loop (items : list item) (hs : list h3)
  : printing (result (list item)) :=
  match hs with
  | [] => mret (Ok items)
  | h :: hs' =>
      r ← press_item items h;
      match r with
      | Ok items' => press_loop items' hs'
      | Raise e => mret (Raise e)
      end
  end.

(** [fetch_nalco_press]: the items, or the exception that left the
    function, and the lines printed until then. *)
Definition fetch_nalco_press : printing (result (list item)) :=
  print INFO_fetching_press;;
  resp ← safe_request NALCO_PRESS_URL;
  match resp with
  | None => mret (Ok [])
  | Some text =>
      r ← press_loop [] (select_h3 L text);
      match r with
      | Ok items =>
          print (INFO_press_found (length items));;
          mret (Ok items)
      | Raise e => mret (Raise e)
      end
  end.

(** The date and timestamp of a feed item. *)
Definition google_dates (pub_date_raw : option pystr)
  : option pystr * option pystr :=
  match pub_date_raw with
  | Some raw =>
      if PyStr.is_empty raw then (None, None)
      else
        match parsedate_to_datetime L raw with
        | Some dt => (Some (PyDate.date_isoformat dt), Some (PyDate.isoformat dt))
        | None => (None, None)
        end
  | None => (None, None)
  end.

(** The body of the loop over the feed items. *)
Definition google_item (it : rss_item) : item :=
  let title := PyStr.strip (or_empty (rss_title it)) in
  let link := PyStr.strip (or_empty (rss_link it)) in
  let desc_raw := or_empty (rss_description it) in
  let desc_clean := strip_tags desc_raw in
  let desc_clean := PyStr.strip (PyStr.replace_char 160 32 desc_clean) in
  let '(date_iso, ts_iso) := google_dates (rss_pubDate it) in
  {| source := lit "Google News"; title := title; url := link;
     date := date_iso; timestamp := ts_iso;
     summary := PyStr.slice_to 300 desc_clean |}.

Definition fetch_google_news : printing (list item) :=
  print INFO_fetching_google;;
  resp ← safe_request GOOGLE_NEWS_RSS;
  match resp with
  | None => mret []
  | Some content =>
      match fromstring L content with
      | XmlError e => print (WARN_failed_to_parse_xml e);; mret []
      | XmlRoot None => mret []
      | XmlRoot (Some channel) =>
          let items := foldl (fun items it => items ++ [google_item it]) [] channel in
          print (INFO_google_found (length items));;
          mret items
      end
  end.

(** [dedupe_items]: the loop over the items with its two variables. *)
Definition dedupe_step (st : gset pystr * list item) (it : item)
  : gset pystr * list item :=
  let '(seen, unique) := st in
  let key := PyStr.strip (url it) in
  if PyStr.is_empty key then (seen, unique ++ [it])
  else if bool_decide (key ∈ seen) then (seen, unique)
  else ({[ key ]} ∪ seen, unique ++ [it]).

Definition dedupe_items (items : list item) : list item :=
  snd (foldl dedupe_step (∅, []) items).

(** The identity key of an item, as [dedupe_items] computes it. *)
Definition url_key (it : item) : pystr := PyStr.strip (url it).

(** The same loop as a recursion on the items still to come. *)
Fixpoint dedupe_from (seen : gset pystr) (items : list item) : list item :=
  match items with
  | [] => []
  | it :: rest =>
      if PyStr.is_empty (url_key it) then it :: dedupe_from seen rest
      else if bool_decide (url_key it ∈ seen) then dedupe_from seen rest
      else it :: dedupe_from ({[ url_key it ]} ∪ seen) rest
  end.

Definition sort_key (it : item) : pystr := or_empty (timestamp it).

Definition max_items : nat := 40.

Definition main : outcome document :=
  let '(press, printed) := fetch_nalco_press in
  match press with
  | Raise e => mk_outcome printed Untouched (Some e)
  | Ok a =>
      let '(b, printed') := fetch_google_news in
      let printed := printed ++ printed' in
      let all_items := [] ++ a ++ b in
      let all_items := dedupe_items all_items in
      let all_items := sorted_desc sort_key all_items in
      let all_items := take max_items all_items in
      let data := {| updated_at := PyDate.isoformat (utcnow L) ++ lit "Z";
                     count := length all_items;
                     items := all_items |} in
      if negb (makedirs_ok fs) then mk_outcome printed Untouched (Some OSError)
      else write_file fs printed data (OK_wrote (length all_items) OUTPUT_PATH)
  end.

(** The candidates of a run, in arrival order: the press releases,
    then the feed items; none when the press adapter raised, which ends
    the run before the feed is fetched. *)
Definition fetched : list item :=
  match fetch_nalco_press.1 with
  | Ok a => a ++ fetch_google_news.1
  | Raise _ => []
  end.

(** The ranked items: what [main] hands to the writer. *)
Definition ranked : list item :=
  take max_items (sorted_desc sort_key (dedupe_items fetched)).

End Run.

(** A feed item without a usable date: no [pubDate], an empty one, or
    one that [parsedate_to_datetime] rejects. *)
Definition rss_undated (L : libraries) (it : rss_item) : Prop :=
  rss_pubDate it = None \/ rss_pubDate it = Some []
  \/ exists raw, rss_pubDate it = Some raw /\ parsedate_to_datetime L raw = None.

(** A press release without a usable date: no [dd/mm/yyyy] near the
    heading, or one that [strptime] rejects. *)
Definition press_undated (L : libraries) (text_block : pystr) : Prop :=
  re_search_date L text_block = None
  \/ exists s, re_search_date L text_block = Some s /\ strptime L s = None.

(** An item of key [k]. *)
Definition has_key (k : pystr) (it : item) : bool :=
  bool_decide (url_key it = k).

End Nalco.

(** ** Feed entries, as [feedparser] hands them out *)

(** An attribute of an entry that may be missing, present and [None], or
    present with a value. *)
Inductive attr (A : Type) : Type :=
| Missing
| IsNone
| Has (a : A).
Arguments Missing {A}.
Arguments IsNone {A}.
Arguments Has {A} a.

(** [entry.link] and [entry.title] raise [AttributeError] when the entry
    has no such attribute: [None] here. *)
Record entry : Type := mk_entry {
  link : option pystr;
  e_title : option pystr;
  published_parsed : attr PyDate.struct_time
}.

(** [entry.name] *)
Definition getattr (name : string) (a : option pystr) : result pystr :=
  match a with
  | Some v => Ok v
  | None => Raise (AttributeError (lit name))
  end.

(** The [datetime] constructor, raising [ValueError]. *)
Definition datetime_utc (t : PyDate.struct_time) : result PyDate.datetime :=
  match PyDate.datetime_utc t with
  | Some d => Ok d
  | None => Raise ValueError
  end.

(** ** [fetch_local_news.py] *)

Module Local.

Definition KEYWORDS : list pystr :=
  map lit [ "Damanjodi"; "Similiguda"; "Sunabeda"; "Koraput"; "Jeypore";
            "Pottangi"; "NALCO Damanjodi"; "HAL Sunabeda"; "LIC Koraput";
            "Laxmipur Koraput"; "Rayagada Odisha" ]%string.

Definition MAX_ITEMS : nat := 25.

Record item : Type := mk_item {
  title : pystr;
  url : pystr;
  date : pystr
}.

Record document : Type := mk_document {
  items : list item;
  last_updated_utc : pystr
}.

(** The keyword goes into the URL as it is. *)
Definition search_url (key : pystr) : pystr :=
  lit "https://news.google.com/rss/search?" ++ lit "q=" ++ key
    ++ lit "&hl=en-IN&gl=IN&ceid=IN:en".

(** *** The script *)

Section Script.

(** [feedparser.parse] returns the entries of a feed (none for a feed
    it could not fetch) or raises, as the HTTP layer does on a URL with a
    space before it connects; the clock, the file system and the
    terminal. *)
Context (feedparser_parse : pystr -> result (list entry))
        (now : PyDate.datetime)
        (fs : fs_behaviour).

(** [hasattr(entry, "published_parsed")] decides alone. *)
Definition published (e : entry) : result PyDate.datetime :=
  match published_parsed e with
  | Missing => Ok now
  | IsNone => Raise TypeError
  | Has t => datetime_utc t
  end.

(** The body of the loop over the entries of one feed. *)
Definition entry_step (all_items : dict item) (e : entry)
  : result (dict item) :=
  l ← getattr "link" (link e);
  if dict_has l all_items then Ok all_items
  else
    p ← published e;
    t ← getattr "title" (e_title e);
    Ok (dict_set l {| title := t; url := l; date := PyDate.isoformat p |}
                 all_items).

(** The body of the loop over the keywords: nothing catches what
    [feedparser.parse] raises. *)
Definition fetch_step (all_items : dict item) (key : pystr)
  : result (dict item) :=
  feed ← feedparser_parse (search_url key);
  for_each entry_step feed all_items.

Definition gather : result (dict item) :=
  for_each fetch_step KEYWORDS [].

Definition rank (all_items : dict item) : list item :=
  take MAX_ITEMS (sorted_desc date (dict_values all_items)).

Definition run : outcome document :=
  match gather with
  | Raise e => mk_outcome [] Untouched (Some e)
  | Ok all_items =>
      let items := rank all_items in
      let output := {| items := items;
                       last_updated_utc := PyDate.isoformat now |} in
      write_file fs [] output (Local_news_updated (length items))
  end.

(** The entries the loops visit, in order: those of the feeds fetched
    before the first call that raises. *)
Definition visited_entries : list entry :=
  (visited (fun key => feedparser_parse (search_url key)) KEYWORDS).*2.

(** The key under which an entry is stored, and the item stored. *)
Definition entry_key (e : entry) : result pystr := getattr "link" (link e).

Definition entry_item (l : pystr) (e : entry) : result item :=
  p ← published e;
  t ← getattr "title" (e_title e);
  Ok {| title := t; url := l; date := PyDate.isoformat p |}.

End Script.

(** *** The script when every call of [feedparser.parse] returns *)

Section Run.

(** [parse u] is what [feedparser.parse] returned for the URL [u]. *)
Context (parse : pystr -> list entry)
        (now : PyDate.datetime)
        (fs : fs_behaviour).

Definition keyword_step (all_items : dict item) (key : pystr)
  : result (dict item) :=
  fetch_step (returning parse) now all_items key.

Definition collect : result (dict item) := gather (returning parse) now.

Definition main : outcome document := run (returning parse) now fs.

(** The entries of the run, in the order the loops visit them. *)
Definition entries : list entry :=
  concat (map (fun key => parse (search_url key)) KEYWORDS).

End Run.

(** An entry the loop body accepts: link and title are there, and
    [published_parsed] is missing or holds a date in range. *)
Definition well_formed (e : entry) : Prop :=
  is_Some (link e) /\ is_Some (e_title e)
  /\ match published_parsed e with
     | Missing => True
     | IsNone => False
     | Has t => is_Some (PyDate.datetime_utc t)
     end.

End Local.

(** ** [fetch_psu_news.py] *)

Module Psu.

Definition GOOGLE_FEEDS : list (pystr * list pystr) :=
  [ (lit "PSU", map lit ["NALCO PSU"; "NTPC PSU"; "SAIL PSU"; "ONGC PSU"]%string);
    (lit "TECH", map lit ["renewable energy technology"; "AI in power sector";
                          "EV battery technology"]%string);
    (lit "SAFETY", map lit ["industrial safety India";
                            "electrical safety industry"]%string);
    (lit "INDUSTRY", map lit ["mining industry India";
                              "aluminium industry India"]%string) ].

Definition OFFICIAL_RSS : list (pystr * list (pystr * pystr)) :=
  [ (lit "PSU", [ (lit "PIB", lit "https://pib.gov.in/RssMain.aspx") ]);
    (lit "INDUSTRY", [ (lit "Ministry of Mines", lit "https://mines.gov.in/rss.xml");
                       (lit "Ministry of Power", lit "https://powermin.gov.in/rss.xml") ]) ].

Definition MAX_ITEMS : nat := 40.

Record item : Type := mk_item {
  title : pystr;
  url : pystr;
  date : pystr;
  category : pystr;
  source : pystr;
  source_type : pystr
}.

Record document : Type := mk_document {
  items : list item;
  last_updated_utc : pystr
}.

(** An entry together with what its loop knows about it. *)
Record candidate : Type := mk_candidate {
  c_category : pystr;
  c_source : pystr;
  c_source_type : pystr;
  c_entry : entry
}.

(** A call of [feedparser.parse]: the URL, and the provenance the loop
    around it writes. *)
Record call : Type := mk_call {
  call_category : pystr;
  call_source : pystr;
  call_source_type : pystr;
  call_url : pystr
}.

(** *** The script *)

Section Script.

(** [feedparser.parse] returns the entries of a feed or raises, and
    nothing in the script catches it. *)
Context (quote_plus : pystr -> pystr)
        (feedparser_parse : pystr -> result (list entry))
        (now : PyDate.datetime)
        (fs : fs_behaviour).

Definition search_url (key : pystr) : pystr :=
  lit "https://news.google.com/rss/search?" ++ lit "q=" ++ quote_plus key
    ++ lit "&hl=en-IN&gl=IN&ceid=IN:en".

(** [hasattr(entry, "published_parsed") and entry.published_parsed] *)
Definition published (e : entry) : result PyDate.datetime :=
  match published_parsed e with
  | Missing => Ok now
  | IsNone => Ok now
  | Has t => datetime_utc t
  end.

(** The body both entry loops share, up to the provenance written. *)
Definition entry_step (cat src src_type : pystr)
    (all_items : dict item) (e : entry) : result (dict item) :=
  l ← getattr "link" (link e);
  let l := PyStr.strip l in
  if dict_has l all_items then Ok all_items
  else
    p ← published e;
    t ← getattr "title" (e_title e);
    Ok (dict_set l {| title := PyStr.strip t; url := l;
                      date := PyDate.isoformat p; category := cat;
                      source := src; source_type := src_type |}
                 all_items).

(** The Google loops: categories, then keywords, then entries. *)
Definition google_fetch_step (cat : pystr) (all_items : dict item)
    (key : pystr) : result (dict item) :=
  feed ← feedparser_parse (search_url key);
  for_each (entry_step cat (lit "Google News") (lit "google"))
           feed all_items.

Definition google_fetch_category (all_items : dict item)
    (c : pystr * list pystr) : result (dict item) :=
  for_each (google_fetch_step c.1) c.2 all_items.

(** The official loops: categories, then feeds, then entries. *)
Definition official_fetch_step (cat : pystr) (all_items : dict item)
    (f : pystr * pystr) : result (dict item) :=
  feed ← feedparser_parse f.2;
  for_each (entry_step cat f.1 (lit "official")) feed all_items.

Definition official_fetch_category (all_items : dict item)
    (c : pystr * list (pystr * pystr)) : result (dict item) :=
  for_each (official_fetch_step c.1) c.2 all_items.

Definition gather : result (dict item) :=
  g ← for_each google_fetch_category GOOGLE_FEEDS [];
  for_each official_fetch_category OFFICIAL_RSS g.

Definition rank (all_items : dict item) : list item :=
  take MAX_ITEMS (sorted_desc date (dict_values all_items)).

Definition run : outcome document :=
  match gather with
  | Raise e => mk_outcome [] Untouched (Some e)
  | Ok all_items =>
      let items := rank all_items in
      let output := {| items := items;
                       last_updated_utc := PyDate.isoformat now |} in
      if negb (makedirs_ok fs) then mk_outcome [] Untouched (Some OSError)
      else write_file fs [] output (PSU_news_updated (length items))
  end.

(** The calls of [feedparser.parse] in the order the loops make them. *)
Definition google_calls : list call :=
  concat (map (fun c : pystr * list pystr =>
    map (fun key => mk_call c.1 (lit "Google News") (lit "google")
                            (search_url key)) c.2)
    GOOGLE_FEEDS).

Definition official_calls : list call :=
  concat (map (fun c : pystr * list (pystr * pystr) =>
    map (fun f : pystr * pystr => mk_call c.1 f.1 (lit "official") f.2) c.2)
    OFFICIAL_RSS).

Definition calls : list call := google_calls ++ official_calls.

(** What the loops do with one call. *)
Definition call_step (all_items : dict item) (c : call) : result (dict item) :=
  feed ← feedparser_parse (call_url c);
  for_each (entry_step (call_category c) (call_source c)
                       (call_source_type c))
           feed all_items.

(** The candidates the loops visit, in order: the entries of the feeds
    fetched before the first call that raises. *)
Definition visited_candidates : list candidate :=
  map (fun v : call * entry =>
         mk_candidate (call_category v.1) (call_source v.1)
                      (call_source_type v.1) v.2)
      (visited (fun c => feedparser_parse (call_url c)) calls).

(** The key under which a candidate is stored, and the item stored. *)
Definition candidate_key (c : candidate) : result pystr :=
  l ← getattr "link" (link (c_entry c)); Ok (PyStr.strip l).

Definition candidate_item (l : pystr) (c : candidate) : result item :=
  p ← published (c_entry c);
  t ← getattr "title" (e_title (c_entry c));
  Ok {| title := PyStr.strip t; url := l;
        date := PyDate.isoformat p; category := c_category c;
        source := c_source c; source_type := c_source_type c |}.

End Script.

(** *** The script when every call of [feedparser.parse] returns *)

Section Run.

(** [parse u] is what [feedparser.parse] returned for the URL [u]. *)
Context (quote_plus : pystr -> pystr)
        (parse : pystr -> list entry)
        (now : PyDate.datetime)
        (fs : fs_behaviour).

Definition google_key_step (cat : pystr) (all_items : dict item)
    (key : pystr) : result (dict item) :=
  google_fetch_step quote_plus (returning parse) now cat all_items key.

Definition google_category_step (all_items : dict item)
    (c : pystr * list pystr) : result (dict item) :=
  google_fetch_category quote_plus (returning parse) now all_items c.

Definition official_feed_step (cat : pystr) (all_items : dict item)
    (f : pystr * pystr) : result (dict item) :=
  official_fetch_step (returning parse) now cat all_items f.

Definition official_category_step (all_items : dict item)
    (c : pystr * list (pystr * pystr)) : result (dict item) :=
  official_fetch_category (returning parse) now all_items c.

Definition collect_google : result (dict item) :=
  for_each google_category_step GOOGLE_FEEDS [].

Definition collect : result (dict item) :=
  gather quote_plus (returning parse) now.

Definition main : outcome document :=
  run quote_plus (returning parse) now fs.

(** The entries of the run in the order the loops visit them, each
    with the provenance its loop writes. *)
Definition google_candidates : list candidate :=
  concat (map (fun c : pystr * list pystr =>
    concat (map (fun key =>
      map (mk_candidate c.1 (lit "Google News") (lit "google"))
          (parse (search_url quote_plus key))) c.2)) GOOGLE_FEEDS).

Definition official_candidates : list candidate :=
  concat (map (fun c : pystr * list (pystr * pystr) =>
    concat (map (fun f : pystr * pystr =>
      map (mk_candidate c.1 f.1 (lit "official")) (parse f.2)) c.2))
    OFFICIAL_RSS).

Definition candidates : list candidate :=
  google_candidates ++ official_candidates.

End Run.

(** An entry the loop bodies accept: link and title are there, and
    [published_parsed] is missing, [None], or holds a date in range. *)
Definition well_formed (e : entry) : Prop :=
  is_Some (link e) /\ is_Some (e_title e)
  /\ match published_parsed e with
     | Missing | IsNone => True
     | Has t => is_Some (PyDate.datetime_utc t)
     end.

End Psu.

(** ** The same code, seen from further away *)

Module NalcoMore.
Import Nalco.

(** What [main] does to the fetched items: deduplicate, sort, cut. *)
Definition merge (items : list item) : list item :=
  take max_items (sorted_desc sort_key (dedupe_items items)).

(** The keys [dedupe_items] compares: the non-empty ones. *)
Definition nonempty_keys (items : list item) : list pystr :=
  List.filter (fun k => negb (PyStr.is_empty k)) (map url_key items).

(** Every [<] of [s] opens a tag, as a test. *)
Fixpoint well_taggedb (s : pystr) : bool :=
  match s with
  | [] => true
  | c :: s' =>
      (negb (c =? 60)%N || bool_decide (is_Some (tag_match s')))
      && well_taggedb s'
  end.

(** A heading the press loop turns into an item: it has a link, and the
    [href] holds [/pre-rel/]. *)
Definition is_press_release (h : h3) : bool :=
  match h3_a h with
  | Some a => contains (lit "/pre-rel/") (href a)
  | None => false
  end.

(** The value of [safe_request]: the body, or [None]. *)
Definition response_text (L : libraries) (u : pystr) : option pystr :=
  match requests_get L u with
  | Body text => Some text
  | Failed _ => None
  end.

(** A heading at which the press loop raises: a press release whose
    [href] [urljoin] rejects. *)
Definition rejected (L : libraries) (h : h3) : bool :=
  match h3_a h with
  | Some a =>
      contains (lit "/pre-rel/") (href a)
      && bool_decide (urljoin L NALCO_PRESS_URL (href a) = None)
  | None => false
  end.

(** The item the body of the press loop appends for [h], if it appends
    one. *)
Definition press_candidate (L : libraries) (h : h3) : option item :=
  match h3_a h with
  | None => None
  | Some a =>
      if negb (contains (lit "/pre-rel/") (href a)) then None
      else
        u ← urljoin L NALCO_PRESS_URL (href a);
        let dates := press_dates L (get_text_strip (lit " ") (container_strings h)) in
        Some {| source := lit "NALCO Press Release";
                title := get_text_strip [] (a_strings a);
                url := u;
                date := dates.1; timestamp := dates.2;
                summary :=
                  match response_text L u with
                  | Some text =>
                      match find_p L text with
                      | Some p => PyStr.slice_to 300 (get_text_strip (lit " ") p)
                      | None => []
                      end
                  | None => []
                  end |}
  end.

End NalcoMore.

Module PsuMore.
Import Psu.

(** The categories of the Google feeds, in configuration order. *)
Definition google_categories : list pystr := GOOGLE_FEEDS.*1.

(** The (category, source name) pairs of the official feeds. *)
Definition official_sources : list (pystr * pystr) :=
  concat (map (fun c : pystr * list (pystr * pystr) =>
                 map (fun f : pystr * pystr => (c.1, f.1)) c.2)
              OFFICIAL_RSS).

End PsuMore.

(** ** Concrete runs *)

Module Examples.

Definition fs_fine : fs_behaviour :=
  {| makedirs_ok := true; open_ok := true; dump_ok := true;
     print_raises := None |}.

Definition noon : PyDate.struct_time :=
  {| PyDate.tm_year := 2024; PyDate.tm_mon := 1; PyDate.tm_mday := 5;
     PyDate.tm_hour := 12; PyDate.tm_min := 0; PyDate.tm_sec := 0 |}.

Definition evening : PyDate.struct_time :=
  {| PyDate.tm_year := 2024; PyDate.tm_mon := 1; PyDate.tm_mday := 5;
     PyDate.tm_hour := 19; PyDate.tm_min := 45; PyDate.tm_sec := 30 |}.

(** The start of the run: 2024-01-06T08:30:00.250000+00:00. *)
Definition now : PyDate.datetime :=
  {| PyDate.year := 2024; PyDate.month := 1; PyDate.day := 6;
     PyDate.hour := 8; PyDate.minute := 30; PyDate.second := 0;
     PyDate.microsecond := 250000; PyDate.tzoffset := Some 0%Z |}.

(** *** Feed entries *)

Definition story_a : entry :=
  {| link := Some (lit "https://news.example/a");
     e_title := Some (lit "Alumina refinery expands");
     published_parsed := Has noon |}.

Definition story_b : entry :=
  {| link := Some (lit "https://news.example/b");
     e_title := Some (lit "Road to Koraput reopens");
     published_parsed := Missing |}.

(** The link of [story_a] again, under another title. *)
Definition story_a_again : entry :=
  {| link := Some (lit "https://news.example/a");
     e_title := Some (lit "Refinery: what we know");
     published_parsed := Has evening |}.

Definition no_link : entry :=
  {| link := None;
     e_title := Some (lit "A notice without a link");
     published_parsed := Has noon |}.

Definition empty_link_1 : entry :=
  {| link := Some []; e_title := Some (lit "First notice");
     published_parsed := Has noon |}.

Definition empty_link_2 : entry :=
  {| link := Some []; e_title := Some (lit "Second notice");
     published_parsed := Has evening |}.

(** A feed parser that answers one URL with [es], every other URL with
    an empty feed. *)
Definition one_feed (u : pystr) (es : list entry) : pystr -> list entry :=
  fun u' => if bool_decide (u' = u) then es else [].

(** Two feeds. *)
Definition two_feeds (u1 : pystr) (es1 : list entry)
    (u2 : pystr) (es2 : list entry) : pystr -> list entry :=
  fun u' => if bool_decide (u' = u1) then es1
            else if bool_decide (u' = u2) then es2 else [].

Definition damanjodi : pystr := Local.search_url (lit "Damanjodi").
Definition koraput : pystr := Local.search_url (lit "Koraput").

(** [quote_plus] on the configured keywords: a space becomes [+]. *)
Definition quote_plus (s : pystr) : pystr := PyStr.replace_char 32 43 s.

Definition nalco_psu : pystr := Psu.search_url quote_plus (lit "NALCO PSU").
Definition pib : pystr := lit "https://pib.gov.in/RssMain.aspx".

(** *** Items of the press-and-feed script *)

Definition bare (u : string) : Nalco.item :=
  {| Nalco.source := lit "Google News"; Nalco.title := lit "t";
     Nalco.url := lit u; Nalco.date := None; Nalco.timestamp := None;
     Nalco.summary := [] |}.

(** *** Two small runs of the feed scripts *)

Definition local_feeds : pystr -> list entry :=
  two_feeds damanjodi [story_a; story_b] koraput [story_a_again].

Definition local_item_a : Local.item :=
  {| Local.title := lit "Alumina refinery expands";
     Local.url := lit "https://news.example/a";
     Local.date := lit "2024-01-05T12:00:00+00:00" |}.

Definition local_item_b : Local.item :=
  {| Local.title := lit "Road to Koraput reopens";
     Local.url := lit "https://news.example/b";
     Local.date := lit "2024-01-06T08:30:00.250000+00:00" |}.

Definition local_dict : dict Local.item :=
  [ (lit "https://news.example/a", local_item_a);
    (lit "https://news.example/b", local_item_b) ].

Definition psu_feeds : pystr -> list entry :=
  two_feeds nalco_psu [story_a] pib [story_a_again].

Definition psu_item : Psu.item :=
  {| Psu.title := lit "Alumina refinery expands";
     Psu.url := lit "https://news.example/a";
     Psu.date := lit "2024-01-05T12:00:00+00:00";
     Psu.category := lit "PSU";
     Psu.source := lit "Google News";
     Psu.source_type := lit "google" |}.

Definition psu_dict : dict Psu.item :=
  [ (lit "https://news.example/a", psu_item) ].

Definition psu_item_b : Psu.item :=
  {| Psu.title := lit "Mines ministry notice";
     Psu.url := lit "https://mines.example/notice";
     Psu.date := lit "2024-01-05T19:45:30+00:00";
     Psu.category := lit "INDUSTRY";
     Psu.source := lit "Ministry of Mines";
     Psu.source_type := lit "official" |}.

Definition psu_dict_of_two : dict Psu.item :=
  [ (lit "https://news.example/a", psu_item);
    (lit "https://mines.example/notice", psu_item_b) ].

Definition psu_candidate_b : Psu.candidate :=
  {| Psu.c_category := lit "PSU"; Psu.c_source := lit "PIB";
     Psu.c_source_type := lit "official"; Psu.c_entry := story_b |}.

Definition psu_item_undated : Psu.item :=
  {| Psu.title := lit "Road to Koraput reopens";
     Psu.url := lit "https://news.example/b";
     Psu.date := lit "2024-01-06T08:30:00.250000+00:00";
     Psu.category := lit "PSU";
     Psu.source := lit "PIB";
     Psu.source_type := lit "official" |}.

Definition psu_dict_with_undated : dict Psu.item :=
  [ (lit "https://news.example/a", psu_item);
    (lit "https://news.example/b", psu_item_undated) ].

Definition psu_google_candidate : Psu.candidate :=
  {| Psu.c_category := lit "PSU"; Psu.c_source := lit "Google News";
     Psu.c_source_type := lit "google"; Psu.c_entry := story_a |}.

(** *** A run of the press-and-feed script *)

(** 2024-01-05T01:00:00+05:30, that is 2024-01-04T19:30:00Z. *)
Definition early_india : PyDate.datetime :=
  {| PyDate.year := 2024; PyDate.month := 1; PyDate.day := 5;
     PyDate.hour := 1; PyDate.minute := 0; PyDate.second := 0;
     PyDate.microsecond := 0; PyDate.tzoffset := Some 330%Z |}.

(** 2024-01-05T00:30:00+00:00, five hours later. *)
Definition later_utc : PyDate.datetime :=
  {| PyDate.year := 2024; PyDate.month := 1; PyDate.day := 5;
     PyDate.hour := 0; PyDate.minute := 30; PyDate.second := 0;
     PyDate.microsecond := 0; PyDate.tzoffset := Some 0%Z |}.

(** 2024-01-05T09:15:00+05:30. *)
Definition morning_india : PyDate.datetime :=
  {| PyDate.year := 2024; PyDate.month := 1; PyDate.day := 5;
     PyDate.hour := 9; PyDate.minute := 15; PyDate.second := 0;
     PyDate.microsecond := 0; PyDate.tzoffset := Some 330%Z |}.

(** 2024-01-03 as [strptime] returns it: midnight, naive. *)
Definition third_of_january : PyDate.datetime :=
  {| PyDate.year := 2024; PyDate.month := 1; PyDate.day := 3;
     PyDate.hour := 0; PyDate.minute := 0; PyDate.second := 0;
     PyDate.microsecond := 0; PyDate.tzoffset := None |}.

Definition press_release : Nalco.h3 :=
  {| Nalco.h3_a := Some {| Nalco.href := lit "/pre-rel/q3-results/";
                           Nalco.a_strings := [lit " Q3 results announced "] |};
     Nalco.container_strings := [lit "Q3 results announced"; lit " 03/01/2024 "] |}.

Definition heading_without_link : Nalco.h3 :=
  {| Nalco.h3_a := None; Nalco.container_strings := [lit "Archive"] |}.

Definition india_item : Nalco.rss_item :=
  {| Nalco.rss_title := Some (lit " NALCO output rises ");
     Nalco.rss_link := Some (lit "https://news.example/india ");
     Nalco.rss_pubDate := Some (lit "Fri, 05 Jan 2024 01:00:00 +0530");
     Nalco.rss_description := Some (lit "<b>NALCO</b> output rises") |}.

Definition utc_item : Nalco.rss_item :=
  {| Nalco.rss_title := Some (lit "Smelter restarts");
     Nalco.rss_link := Some (lit "https://news.example/utc");
     Nalco.rss_pubDate := Some (lit "Fri, 05 Jan 2024 00:30:00 +0000");
     Nalco.rss_description := Some (lit "Smelter restarts") |}.

Definition morning_item : Nalco.rss_item :=
  {| Nalco.rss_title := Some (lit "Morning briefing");
     Nalco.rss_link := Some (lit "https://news.example/morning");
     Nalco.rss_pubDate := Some (lit "Fri, 05 Jan 2024 09:15:00 +0530");
     Nalco.rss_description := Some [] |}.

Definition undated_item : Nalco.rss_item :=
  {| Nalco.rss_title := Some (lit "An undated story");
     Nalco.rss_link := Some (lit "https://news.example/undated");
     Nalco.rss_pubDate := None;
     Nalco.rss_description := None |}.

Definition libraries (feed : Nalco.xml) : Nalco.libraries :=
  {| Nalco.requests_get := fun u =>
       if bool_decide (u = Nalco.NALCO_PRESS_URL) then Nalco.Body (lit "listing")
       else if bool_decide (u = Nalco.GOOGLE_NEWS_RSS) then Nalco.Body (lit "feed")
       else Nalco.Failed (lit "404 Client Error");
     Nalco.select_h3 := fun _ => [press_release; heading_without_link];
     Nalco.urljoin := fun _ h =>
       if bool_decide (lit "//[" `prefix_of` h) then None
       else Some (lit "https://nalcoindia.com" ++ h);
     Nalco.re_search_date := fun t =>
       if Nalco.contains (lit "03/01/2024") t then Some (lit "03/01/2024") else None;
     Nalco.strptime := fun _ => Some third_of_january;
     Nalco.find_p := fun _ => None;
     Nalco.fromstring := fun _ => feed;
     Nalco.parsedate_to_datetime := fun raw =>
       if bool_decide (raw = lit "Fri, 05 Jan 2024 01:00:00 +0530") then Some early_india
       else if bool_decide (raw = lit "Fri, 05 Jan 2024 00:30:00 +0000") then Some later_utc
       else if bool_decide (raw = lit "Fri, 05 Jan 2024 09:15:00 +0530") then Some morning_india
       else None;
     Nalco.utcnow := third_of_january |}.

(** The same libraries with every request failing. *)
Definition offline (L : Nalco.libraries) : Nalco.libraries :=
  {| Nalco.requests_get := fun _ => Nalco.Failed (lit "Connection refused");
     Nalco.select_h3 := Nalco.select_h3 L;
     Nalco.urljoin := Nalco.urljoin L;
     Nalco.re_search_date := Nalco.re_search_date L;
     Nalco.strptime := Nalco.strptime L;
     Nalco.find_p := Nalco.find_p L;
     Nalco.fromstring := Nalco.fromstring L;
     Nalco.parsedate_to_datetime := Nalco.parsedate_to_datetime L;
     Nalco.utcnow := Nalco.utcnow L |}.

Definition undated_item_2 : Nalco.rss_item :=
  {| Nalco.rss_title := Some (lit "Another undated story");
     Nalco.rss_link := Some (lit "https://news.example/undated-2");
     Nalco.rss_pubDate := Some (lit "yesterday");
     Nalco.rss_description := None |}.

Definition feed_with_undated : Nalco.xml :=
  Nalco.XmlRoot (Some [undated_item; utc_item; undated_item_2]).

(** A description with a tag inside an attribute value:
    [<a title="<b>">x</a>]. *)
Definition nested_description : pystr :=
  lit "<a title=" ++ [34%N] ++ lit "<b>" ++ [34%N] ++ lit ">x</a>".

Definition nested_item : Nalco.rss_item :=
  {| Nalco.rss_title := Some (lit "A story");
     Nalco.rss_link := Some (lit "https://news.example/nested");
     Nalco.rss_pubDate := None;
     Nalco.rss_description := Some nested_description |}.

Definition feed_of_three : Nalco.xml :=
  Nalco.XmlRoot (Some [india_item; utc_item; undated_item]).

Definition nalco_doc : Nalco.document :=
  {| Nalco.updated_at := lit "2024-01-03T00:00:00Z";
     Nalco.count := 4;
     Nalco.items := Nalco.ranked (libraries feed_of_three) |}.

(** *** Thirty stories with thirty links, one minute apart *)

Definition numbered (n : nat) : entry :=
  {| link := Some (lit "https://news.example/" ++ PyDate.digits 2 (N.of_nat n));
     e_title := Some (lit "Story " ++ PyDate.digits 2 (N.of_nat n));
     published_parsed :=
       Has {| PyDate.tm_year := 2024; PyDate.tm_mon := 1; PyDate.tm_mday := 5;
              PyDate.tm_hour := 12; PyDate.tm_min := Z.of_nat n;
              PyDate.tm_sec := 0 |} |}.

Definition thirty : list entry := map numbered (seq 0 30).

Definition local_thirty_doc : Local.document :=
  {| Local.items :=
       map (fun n =>
              {| Local.title := lit "Story " ++ PyDate.digits 2 (N.of_nat n);
                 Local.url := lit "https://news.example/" ++ PyDate.digits 2 (N.of_nat n);
                 Local.date := lit "2024-01-05T12:" ++ PyDate.digits 2 (N.of_nat n)
                                 ++ lit ":00+00:00" |})
           (rev (seq 5 25));
     Local.last_updated_utc := lit "2024-01-06T08:30:00.250000+00:00" |}.

Definition psu_doc : Psu.document :=
  {| Psu.items := dict_values psu_dict;
     Psu.last_updated_utc := lit "2024-01-06T08:30:00.250000+00:00" |}.

End Examples.

(** ** The claims, as they are worded *)

Module Worded.

(** One item per distinct non-empty URL value survives deduplication,
    and it is the first candidate carrying that URL. *)
Definition one_item_per_url (input output : list Nalco.item) : Prop :=
  forall u, u <> [] -> u ∈ map Nalco.url input ->
    exists it,
      List.filter (fun i => bool_decide (Nalco.url i = u)) output = [it] /\
      head (List.filter (fun i => bool_decide (Nalco.url i = u)) input) = Some it.

End Worded.

(** ** More concrete runs *)

Module MoreExamples.

(** An entry whose date the feed parser could not read:
    [published_parsed] is there and is [None]. *)
Definition unreadable_date : entry :=
  {| link := Some (lit "https://news.example/d");
     e_title := Some (lit "Date unknown");
     published_parsed := IsNone |}.

(** The link of [Examples.story_a] once more, with no title and no
    readable date. *)
Definition broken_duplicate : entry :=
  {| link := Some (lit "https://news.example/a");
     e_title := None;
     published_parsed := IsNone |}.

Definition feed_with_unreadable_date : pystr -> list entry :=
  Examples.one_feed Examples.koraput [Examples.story_a; unreadable_date].

Definition feed_with_broken_duplicate : pystr -> list entry :=
  Examples.one_feed Examples.koraput [Examples.story_a; broken_duplicate].

Definition local_dict_a : dict Local.item :=
  [ (lit "https://news.example/a", Examples.local_item_a) ].

(** A Google feed and an official feed with different stories. *)
Definition psu_two_sources : pystr -> list entry :=
  Examples.two_feeds Examples.nalco_psu [Examples.story_a]
                     Examples.pib [Examples.story_b].

Definition psu_item_pib : Psu.item :=
  {| Psu.title := lit "Road to Koraput reopens";
     Psu.url := lit "https://news.example/b";
     Psu.date := lit "2024-01-06T08:30:00.250000+00:00";
     Psu.category := lit "PSU";
     Psu.source := lit "PIB";
     Psu.source_type := lit "official" |}.

Definition psu_two_sources_doc : Psu.document :=
  {| Psu.items := [psu_item_pib; Examples.psu_item];
     Psu.last_updated_utc := lit "2024-01-06T08:30:00.250000+00:00" |}.

Definition local_doc : Local.document :=
  {| Local.items := [Examples.local_item_b; Examples.local_item_a];
     Local.last_updated_utc := lit "2024-01-06T08:30:00.250000+00:00" |}.

(** A description in which every [<] opens a tag. *)
Definition tidy_description : pystr :=
  lit "<b>NALCO</b> output <i>rises</i> > 5 %".

Definition items_without_duplicates : list Nalco.item :=
  [Examples.bare "a"; Examples.bare ""; Examples.bare "b"; Examples.bare " "].

Definition press_item : Nalco.item :=
  {| Nalco.source := lit "NALCO Press Release";
     Nalco.title := lit "Q3 results announced";
     Nalco.url := lit "https://nalcoindia.com/pre-rel/q3-results/";
     Nalco.date := Some (lit "2024-01-03");
     Nalco.timestamp := Some (lit "2024-01-03T00:00:00");
     Nalco.summary := [] |}.

(** *** The calls of [feedparser.parse] *)

(** The HTTP layer refuses a URL with a space. *)
Definition strict (parse : pystr -> list entry)
  : pystr -> result (list entry) :=
  fun u => if bool_decide (32%N ∈ u) then Raise InvalidURL else Ok (parse u).

(** A Google feed and an official feed, the second with an entry
    without a link. *)
Definition psu_feeds_with_missing_link : pystr -> list entry :=
  Examples.two_feeds Examples.nalco_psu [Examples.story_a]
                     Examples.pib [Examples.no_link].

Definition psu_candidate_without_link : Psu.candidate :=
  {| Psu.c_category := lit "PSU"; Psu.c_source := lit "PIB";
     Psu.c_source_type := lit "official"; Psu.c_entry := Examples.no_link |}.

(** Feeds with two entries whose link is empty. *)
Definition local_feed_with_empty_links : pystr -> list entry :=
  Examples.one_feed Examples.koraput
    [Examples.empty_link_1; Examples.story_a; Examples.empty_link_2].

Definition local_first_notice : Local.item :=
  {| Local.title := lit "First notice"; Local.url := [];
     Local.date := lit "2024-01-05T12:00:00+00:00" |}.

Definition local_dict_with_empty_link : dict Local.item :=
  [ ([], local_first_notice);
    (lit "https://news.example/a", Examples.local_item_a) ].

Definition psu_feed_with_empty_links : pystr -> list entry :=
  Examples.one_feed Examples.nalco_psu
    [Examples.empty_link_1; Examples.empty_link_2].

Definition psu_first_notice : Psu.item :=
  {| Psu.title := lit "First notice"; Psu.url := [];
     Psu.date := lit "2024-01-05T12:00:00+00:00";
     Psu.category := lit "PSU";
     Psu.source := lit "Google News";
     Psu.source_type := lit "google" |}.

Definition psu_dict_with_empty_link : dict Psu.item :=
  [ ([], psu_first_notice) ].

Definition psu_dict_two_sources : dict Psu.item :=
  [ (lit "https://news.example/a", Examples.psu_item);
    (lit "https://news.example/b", psu_item_pib) ].

(** *** The terminal *)

(** A terminal that cannot encode U+2705. *)
Definition fs_ascii_terminal : fs_behaviour :=
  {| makedirs_ok := true; open_ok := true; dump_ok := true;
     print_raises := Some UnicodeEncodeError |}.

(** *** Press listings *)

(** The libraries with another listing page. *)
Definition with_headings (hs : list Nalco.h3) (L : Nalco.libraries)
  : Nalco.libraries :=
  {| Nalco.requests_get := Nalco.requests_get L;
     Nalco.select_h3 := fun _ => hs;
     Nalco.urljoin := Nalco.urljoin L;
     Nalco.re_search_date := Nalco.re_search_date L;
     Nalco.strptime := Nalco.strptime L;
     Nalco.find_p := Nalco.find_p L;
     Nalco.fromstring := Nalco.fromstring L;
     Nalco.parsedate_to_datetime := Nalco.parsedate_to_datetime L;
     Nalco.utcnow := Nalco.utcnow L |}.

(** The libraries with the press site down. *)
Definition press_down (L : Nalco.libraries) : Nalco.libraries :=
  {| Nalco.requests_get := fun u =>
       if bool_decide (u = Nalco.NALCO_PRESS_URL)
       then Nalco.Failed (lit "503 Server Error")
       else Nalco.requests_get L u;
     Nalco.select_h3 := Nalco.select_h3 L;
     Nalco.urljoin := Nalco.urljoin L;
     Nalco.re_search_date := Nalco.re_search_date L;
     Nalco.strptime := Nalco.strptime L;
     Nalco.find_p := Nalco.find_p L;
     Nalco.fromstring := Nalco.fromstring L;
     Nalco.parsedate_to_datetime := Nalco.parsedate_to_datetime L;
     Nalco.utcnow := Nalco.utcnow L |}.

(** A heading whose [href] ends in a space:
    [<h3><a href="/pre-rel/q3-results/ ">Q3 results announced</a></h3>]. *)
Definition press_release_untrimmed : Nalco.h3 :=
  {| Nalco.h3_a := Some {| Nalco.href := lit "/pre-rel/q3-results/ ";
                           Nalco.a_strings := [lit "Q3 results announced"] |};
     Nalco.container_strings := [lit "Q3 results announced"; lit "03/01/2024"] |}.

(** A heading whose [href] [urljoin] cannot split:
    [<h3><a href="//[/pre-rel/x">Notice</a></h3>]. *)
Definition press_release_malformed : Nalco.h3 :=
  {| Nalco.h3_a := Some {| Nalco.href := lit "//[/pre-rel/x";
                           Nalco.a_strings := [lit "Notice"] |};
     Nalco.container_strings := [lit "Notice"] |}.

Definition feed_of_one : Nalco.xml := Nalco.XmlRoot (Some [Examples.india_item]).

Definition untrimmed_listing : Nalco.libraries :=
  with_headings [press_release_untrimmed] (Examples.libraries feed_of_one).

Definition malformed_listing : Nalco.libraries :=
  with_headings [Examples.press_release; press_release_malformed]
                (Examples.libraries feed_of_one).

Definition india_news_item : Nalco.item :=
  {| Nalco.source := lit "Google News";
     Nalco.title := lit "NALCO output rises";
     Nalco.url := lit "https://news.example/india";
     Nalco.date := Some (lit "2024-01-05");
     Nalco.timestamp := Some (lit "2024-01-05T01:00:00+05:30");
     Nalco.summary := lit "NALCO output rises" |}.

Definition untrimmed_press_item : Nalco.item :=
  {| Nalco.source := lit "NALCO Press Release";
     Nalco.title := lit "Q3 results announced";
     Nalco.url := lit "https://nalcoindia.com/pre-rel/q3-results/ ";
     Nalco.date := Some (lit "2024-01-03");
     Nalco.timestamp := Some (lit "2024-01-03T00:00:00");
     Nalco.summary := [] |}.

Definition untrimmed_press_doc : Nalco.document :=
  {| Nalco.updated_at := lit "2024-01-03T00:00:00Z";
     Nalco.count := 2;
     Nalco.items := [india_news_item; untrimmed_press_item] |}.

Definition feed_only_doc : Nalco.document :=
  {| Nalco.updated_at := lit "2024-01-03T00:00:00Z";
     Nalco.count := 1;
     Nalco.items := [india_news_item] |}.

Definition press_only_doc : Nalco.document :=
  {| Nalco.updated_at := lit "2024-01-03T00:00:00Z";
     Nalco.count := 1;
     Nalco.items := [press_item] |}.

End MoreExamples.
(** * Properties *)

(** ** Strings *)

Module PyStrFacts.
Local Open Scope N_scope.
Import PyStr.

Lemma compare_refl a : compare a a = Eq.
Proof.
  induction a as [|x a IH]; simpl; [reflexivity|].
  by rewrite N.compare_refl.
Qed.

Lemma compare_eq a b : compare a b = Eq <-> a = b.
Proof.
  split; [|intros ->; apply compare_refl].
  revert b; induction a as [|x a IH]; intros [|y b]; simpl; try done.
  destruct (N.compare x y) eqn:E; try done.
  apply N.compare_eq in E. intros H. f_equal; auto.
Qed.

Lemma compare_antisym a b : compare b a = CompOpp (compare a b).
Proof.
  revert b; induction a as [|x a IH]; intros [|y b]; simpl; try done.
  rewrite (N.compare_antisym x y).
  destruct (N.compare x y); simpl; auto.
Qed.

Lemma compare_lt_trans a b c :
  compare a b = Lt -> compare b c = Lt -> compare a c = Lt.
Proof.
  revert b c; induction a as [|x a IH]; intros [|y b] [|z c]; simpl; try done.
  destruct (N.compare x y) eqn:Exy; try done;
    destruct (N.compare y z) eqn:Eyz; try done; intros H1 H2.
  - apply N.compare_eq in Exy, Eyz. subst. rewrite N.compare_refl. eauto.
  - apply N.compare_eq in Exy. subst. by rewrite Eyz.
  - apply N.compare_eq in Eyz. subst. by rewrite Exy.
  - rewrite N.compare_lt_iff in Exy, Eyz.
    assert (x < z) as H by lia. apply N.compare_lt_iff in H. by rewrite H.
Qed.

Lemma leb_refl a : leb a a = true.
Proof. unfold leb. by rewrite compare_refl. Qed.

Lemma leb_total a b : leb a b = true \/ leb b a = true.
Proof.
  unfold leb. rewrite (compare_antisym a b).
  destruct (compare a b); simpl; auto.
Qed.

Lemma leb_trans a b c : leb a b = true -> leb b c = true -> leb a c = true.
Proof.
  unfold leb. intros H1 H2.
  destruct (compare a b) eqn:Eab; try done;
    destruct (compare b c) eqn:Ebc; try done.
  - apply compare_eq in Eab, Ebc. subst. by rewrite compare_refl.
  - apply compare_eq in Eab. subst. by rewrite Ebc.
  - apply compare_eq in Ebc. subst. by rewrite Eab.
  - by rewrite (compare_lt_trans _ _ _ Eab Ebc).
Qed.

Lemma leb_antisym a b : leb a b = true -> leb b a = true -> a = b.
Proof.
  unfold leb. rewrite (compare_antisym a b).
  destruct (compare a b) eqn:E; simpl; try done.
  intros _ _. by apply compare_eq.
Qed.

Lemma leb_false a b : leb a b = false -> leb b a = true.
Proof. destruct (leb_total a b); congruence. Qed.

Lemma leb_nil a : leb [] a = true.
Proof. by destruct a. Qed.

(** *** [strip] leaves no whitespace at either end *)

Lemma lstrip_head s c : head (lstrip s) = Some c -> isspace c = false.
Proof.
  induction s as [|x s IH]; simpl; [done|].
  destruct (isspace x) eqn:E; [done|].
  simpl. by intros [= <-].
Qed.

Lemma lstrip_suffix s : lstrip s `suffix_of` s.
Proof.
  induction s as [|x s IH]; simpl; [done|].
  destruct (isspace x); [by apply suffix_cons_r|done].
Qed.

Lemma lstrip_idemp s : lstrip (lstrip s) = lstrip s.
Proof.
  induction s as [|x s IH]; simpl; [done|].
  destruct (isspace x) eqn:E; [done|]. simpl. by rewrite E.
Qed.

Lemma rstrip_last s c : last (rstrip s) = Some c -> isspace c = false.
Proof. unfold rstrip. rewrite last_reverse. apply lstrip_head. Qed.

Lemma rstrip_prefix s : rstrip s `prefix_of` s.
Proof.
  unfold rstrip. destruct (lstrip_suffix (reverse s)) as [k Hk].
  exists (reverse k). rewrite <-reverse_app, <-Hk. by rewrite reverse_involutive.
Qed.

Lemma rstrip_head s c :
  head s = Some c -> isspace c = false -> head (rstrip s) = Some c.
Proof.
  intros Hh Hc. unfold rstrip. rewrite head_reverse.
  rewrite <-last_reverse in Hh.
  induction (reverse s) as [|x r IH]; [done|].
  simpl. destruct (isspace x) eqn:E.
  - destruct r as [|y r]; [simpl in Hh; congruence|]. by apply IH.
  - done.
Qed.

Lemma strip_trimmed s : trimmed (strip s).
Proof.
  split; intros c Hc; unfold strip in *.
  - destruct (rstrip_prefix (lstrip s)) as [k Hk].
    destruct (rstrip (lstrip s)) as [|x r] eqn:E; [done|].
    simpl in Hc. injection Hc as ->.
    apply (lstrip_head s). by rewrite Hk.
  - by apply rstrip_last in Hc.
Qed.

Lemma lstrip_id s :
  (forall c, head s = Some c -> isspace c = false) -> lstrip s = s.
Proof.
  destruct s as [|x s]; [done|]. intros H. simpl. by rewrite (H x).
Qed.

Lemma strip_id s : trimmed s -> strip s = s.
Proof.
  intros [Hh Hl]. unfold strip. rewrite (lstrip_id s Hh).
  unfold rstrip. rewrite lstrip_id; [apply reverse_involutive|].
  intros c. rewrite head_reverse. apply Hl.
Qed.

Lemma strip_idemp s : strip (strip s) = strip s.
Proof. apply strip_id, strip_trimmed. Qed.

Lemma slice_to_length n s : (length (slice_to n s) <= n)%nat.
Proof. unfold slice_to. rewrite length_take. lia. Qed.

End PyStrFacts.

(** ** The stable descending sort *)

Section SortingFacts.
Context {A : Type} (key : A -> pystr).
Local Abbreviation insert_desc := (insert_desc key).
Local Abbreviation sorted_desc := (sorted_desc key).
Local Abbreviation desc := (desc key).

Lemma insert_desc_perm x l : insert_desc x l ≡ₚ x :: l.
Proof.
  induction l as [|y l IH]; simpl; [done|].
  destruct (PyStr.geb (key x) (key y)); [done|].
  rewrite IH. apply Permutation_swap.
Qed.

Lemma sorted_desc_perm l : sorted_desc l ≡ₚ l.
Proof.
  induction l as [|x l IH]; simpl; [done|].
  by rewrite insert_desc_perm, IH.
Qed.

Lemma sorted_desc_length l : length (sorted_desc l) = length l.
Proof. by rewrite sorted_desc_perm. Qed.

Lemma sorted_desc_elem x l : x ∈ sorted_desc l <-> x ∈ l.
Proof. by rewrite sorted_desc_perm. Qed.

Lemma desc_trans a b c : desc a b -> desc b c -> desc a c.
Proof. unfold desc, PyStr.geb. intros H1 H2. eapply PyStrFacts.leb_trans; eauto. Qed.

Lemma insert_desc_sorted x l :
  StronglySorted desc l -> StronglySorted desc (insert_desc x l).
Proof.
  induction 1 as [|y l Hs IH Hy]; simpl.
  - repeat constructor.
  - destruct (PyStr.geb (key x) (key y)) eqn:E.
    + constructor; [by constructor|].
      constructor; [done|].
      eapply Forall_impl; [exact Hy|]. intros z Hz. by eapply desc_trans.
    + constructor; [done|].
      rewrite insert_desc_perm. constructor; [|done].
      unfold desc, PyStr.geb in *. by apply PyStrFacts.leb_false.
Qed.

Lemma sorted_desc_sorted l : StronglySorted desc (sorted_desc l).
Proof.
  induction l as [|x l IH]; simpl; [constructor|].
  by apply insert_desc_sorted.
Qed.

Lemma StronglySorted_take n (l : list A) :
  StronglySorted desc l -> StronglySorted desc (take n l).
Proof.
  intros H. revert n. induction H as [|y l Hs IH Hy]; intros [|n]; simpl;
    try constructor; auto.
  eapply Forall_forall. intros z Hz. rewrite Forall_forall in Hy.
  apply Hy. by eapply subseteq_take.
Qed.

(** In a descending list, whatever stands before [x] has a key [>=]. *)
Lemma StronglySorted_split pre x post :
  StronglySorted desc (pre ++ x :: post) -> Forall (fun y => desc y x) pre.
Proof.
  induction pre as [|y pre IH]; simpl; [constructor|].
  intros H. apply StronglySorted_inv in H as [Hs Hy].
  constructor; [|auto].
  rewrite Forall_forall in Hy. apply Hy. set_solver.
Qed.

(** And whatever stands behind [x] has a key [<=]. *)
Lemma StronglySorted_behind pre x post :
  StronglySorted desc (pre ++ x :: post) -> Forall (fun y => desc x y) post.
Proof.
  induction pre as [|y pre IH]; simpl.
  - intros H. by apply StronglySorted_inv in H as [_ H].
  - intros H. apply StronglySorted_inv in H as [Hs _]. auto.
Qed.

(** Adjacent pairs of a descending list. *)
Lemma StronglySorted_adjacent (l : list A) i a b :
  StronglySorted desc l ->
  l !! i = Some a -> l !! S i = Some b -> desc a b.
Proof.
  intros H. revert i. induction H as [|y l Hs IH Hy]; intros i Ha Hb; [done|].
  destruct i as [|i]; simpl in *.
  - injection Ha as ->. rewrite Forall_forall in Hy. apply Hy.
    eapply list_elem_of_lookup_2; eauto.
  - eauto.
Qed.

(** Stability: the elements of one key keep their order. *)
Lemma insert_desc_filter (P : A -> bool) x l :
  (forall y, P y = true -> y ∈ l -> P x = true -> key y = key x) ->
  StronglySorted desc l ->
  List.filter P (insert_desc x l) = List.filter P (x :: l).
Proof.
  intros HP Hs. induction Hs as [|y l Hs IH Hy]; simpl; [done|].
  destruct (PyStr.geb (key x) (key y)) eqn:E; simpl; [done|].
  rewrite IH by (intros; apply HP; set_solver). simpl.
  destruct (P x) eqn:Px, (P y) eqn:Py; try done.
  exfalso. assert (key y = key x) as Hk by (apply HP; set_solver).
  unfold PyStr.geb in E. rewrite Hk, PyStrFacts.leb_refl in E. done.
Qed.

Lemma sorted_desc_stable k l :
  List.filter (fun y => bool_decide (key y = k)) (sorted_desc l)
  = List.filter (fun y => bool_decide (key y = k)) l.
Proof.
  induction l as [|x l IH]; simpl sorted_desc; [done|].
  rewrite insert_desc_filter; [simpl; by rewrite IH| |apply sorted_desc_sorted].
  intros y Hy _ Hx. apply bool_decide_eq_true in Hy, Hx. congruence.
Qed.

End SortingFacts.

(** ** Dates: the ISO rendering orders as the fields do *)

Module PyDateFacts.
Local Open Scope N_scope.
Import PyStr PyDate.

Lemma lex_eq c : lex c Eq = c.
Proof. by destruct c. Qed.

(** Blocks of one length compare before what follows them. *)
Lemma compare_app (u u' v v' : pystr) :
  length u = length u' ->
  PyStr.compare (u ++ v) (u' ++ v') = lex (PyStr.compare u u') (PyStr.compare v v').
Proof.
  revert u'. induction u as [|x u IH]; intros [|y u'] Hl; simpl in *; try done.
  destruct (N.compare x y); simpl; auto.
Qed.

Lemma compare_cons_same c (v v' : pystr) :
  PyStr.compare (c :: v) (c :: v') = PyStr.compare v v'.
Proof. simpl. by rewrite N.compare_refl. Qed.

Lemma compare_cons x y (v v' : pystr) :
  PyStr.compare (x :: v) (y :: v') = lex (N.compare x y) (PyStr.compare v v').
Proof. simpl. by destruct (N.compare x y). Qed.

Lemma compare_single a b : PyStr.compare [a] [b] = N.compare a b.
Proof. simpl. by destruct (N.compare a b). Qed.

Lemma digits_length w n : length (digits w n) = w.
Proof.
  revert n. induction w as [|w IH]; intros n; simpl; [done|].
  rewrite length_app, IH. simpl. lia.
Qed.

Lemma N_add_compare p n m : N.compare (p + n) (p + m) = N.compare n m.
Proof.
  destruct (N.compare_spec n m); first
    [apply N.compare_eq_iff | apply N.compare_lt_iff | apply N.compare_gt_iff];
    lia.
Qed.

Lemma N_compare_lex_div10 n m :
  lex (N.compare (n / 10) (m / 10)) (N.compare (n mod 10) (m mod 10))
  = N.compare n m.
Proof.
  pose proof (N.div_mod n 10 ltac:(lia)) as Hn.
  pose proof (N.div_mod m 10 ltac:(lia)) as Hm.
  pose proof (N.mod_lt n 10 ltac:(lia)) as Hn'.
  pose proof (N.mod_lt m 10 ltac:(lia)) as Hm'.
  revert Hn Hm Hn' Hm'.
  generalize (n / 10) (n mod 10) (m / 10) (m mod 10).
  intros qn rn qm rm Hn Hm Hn' Hm'.
  destruct (N.compare_spec qn qm) as [E|E|E]; simpl;
    [destruct (N.compare_spec rn rm) as [F|F|F]|..];
    symmetry; first [apply N.compare_eq_iff | apply N.compare_lt_iff
                    | apply N.compare_gt_iff]; lia.
Qed.

(** Zero-padded numbers of one width compare as the numbers. *)
Lemma digits_compare w n m :
  n < 10 ^ N.of_nat w -> m < 10 ^ N.of_nat w ->
  PyStr.compare (digits w n) (digits w m) = N.compare n m.
Proof.
  revert n m. induction w as [|w IH]; intros n m Hn Hm.
  - simpl in *. symmetry. apply N.compare_eq_iff. lia.
  - replace (N.of_nat (S w)) with (N.succ (N.of_nat w)) in * by lia.
    rewrite N.pow_succ_r' in Hn, Hm.
    simpl digits. rewrite compare_app by (by rewrite !digits_length).
    rewrite IH by (by apply N.Div0.div_lt_upper_bound).
    rewrite compare_single, N_add_compare.
    apply N_compare_lex_div10.
Qed.

Lemma lex_assoc a b c : lex (lex a b) c = lex a (lex b c).
Proof. by destruct a. Qed.

Lemma valid_in_range d : valid d = true -> in_range d.
Proof.
  unfold valid. rewrite !andb_true_iff.
  rewrite !N.leb_le, !N.ltb_lt. intros. split; tauto.
Qed.

(** The months, one by one. *)
Ltac each_month m :=
  let p := fresh "p" in
  destruct m as [|p]; [|do 4 (try destruct p as [p|p|])].

Lemma days_in_month_le y m : days_in_month y m <= 31.
Proof. unfold days_in_month. each_month m; try destruct (is_leap y); lia. Qed.

Lemma days_before_month_next y m :
  1 <= m <= 11 ->
  days_before_month y (m + 1) = (days_before_month y m + Z.of_N (days_in_month y m))%Z.
Proof.
  intros Hm. unfold days_before_month, days_in_month.
  each_month m; try lia; simpl; destruct (is_leap y); lia.
Qed.

Lemma days_before_month_mono y m m' :
  1 <= m -> m <= m' -> m' <= 12 ->
  (days_before_month y m <= days_before_month y m')%Z.
Proof.
  intros H1 H2 H3. unfold days_before_month.
  each_month m; try lia; each_month m'; try lia; destruct (is_leap y); lia.
Qed.

Lemma days_before_month_last y m d :
  1 <= m <= 12 -> d <= days_in_month y m ->
  (days_before_month y m + Z.of_N d <= 365 + if is_leap y then 1 else 0)%Z.
Proof.
  intros Hm. unfold days_before_month, days_in_month.
  each_month m; try lia; simpl; destruct (is_leap y); lia.
Qed.

Lemma days_before_year_next y :
  days_before_year (Z.of_N y + 1)
  = (days_before_year (Z.of_N y) + 365 + if is_leap y then 1 else 0)%Z.
Proof.
  unfold days_before_year, is_leap.
  destruct (y mod 4 =? 0) eqn:E4; destruct (y mod 100 =? 0) eqn:E100;
    destruct (y mod 400 =? 0) eqn:E400; simpl;
    rewrite ?N.eqb_eq, ?N.eqb_neq in *;
    zify; Z.to_euclidean_division_equations; lia.
Qed.

Lemma days_before_year_mono y y' :
  (1 <= y)%Z -> (y <= y')%Z -> (days_before_year y <= days_before_year y')%Z.
Proof.
  intros H1 H2. unfold days_before_year.
  Z.to_euclidean_division_equations; lia.
Qed.

Ltac compare_goal :=
  symmetry;
  first [apply Z.compare_eq_iff | apply Z.compare_lt_iff | apply Z.compare_gt_iff].

(** Day numbers order as (year, month, day) does. *)
Lemma toordinal_compare a b :
  in_range a -> in_range b ->
  lex (N.compare (year a) (year b))
    (lex (N.compare (month a) (month b)) (N.compare (day a) (day b)))
  = Z.compare (toordinal a) (toordinal b).
Proof.
  intros [Hy Hm Hd _ _ _ _] [Hy' Hm' Hd' _ _ _ _]. unfold toordinal.
  pose proof (days_before_month_last (year a) (month a) (day a) Hm (proj2 Hd)) as La.
  pose proof (days_before_month_last (year b) (month b) (day b) Hm' (proj2 Hd')) as Lb.
  pose proof (days_before_month_mono (year a) 1 (month a) ltac:(lia) ltac:(lia) ltac:(lia)) as Ma.
  pose proof (days_before_month_mono (year b) 1 (month b) ltac:(lia) ltac:(lia) ltac:(lia)) as Mb.
  change (days_before_month (year a) 1) with 0%Z in Ma.
  change (days_before_month (year b) 1) with 0%Z in Mb.
  destruct (N.compare_spec (year a) (year b)) as [Ey|Ey|Ey]; simpl.
  - rewrite <-Ey in *.
    destruct (N.compare_spec (month a) (month b)) as [Em|Em|Em]; simpl.
    + rewrite <-Em.
      destruct (N.compare_spec (day a) (day b)); compare_goal; lia.
    + pose proof (days_before_month_next (year a) (month a) ltac:(lia)) as Hn.
      pose proof (days_before_month_mono (year a) (month a + 1) (month b)
                    ltac:(lia) ltac:(lia) ltac:(lia)).
      compare_goal. lia.
    + pose proof (days_before_month_next (year a) (month b) ltac:(lia)) as Hn.
      pose proof (days_before_month_mono (year a) (month b + 1) (month a)
                    ltac:(lia) ltac:(lia) ltac:(lia)).
      compare_goal. lia.
  - pose proof (days_before_year_next (year a)) as Hn.
    pose proof (days_before_year_mono (Z.of_N (year a) + 1) (Z.of_N (year b))
                  ltac:(lia) ltac:(lia)).
    compare_goal. lia.
  - pose proof (days_before_year_next (year b)) as Hn.
    pose proof (days_before_year_mono (Z.of_N (year b) + 1) (Z.of_N (year a))
                  ltac:(lia) ltac:(lia)).
    compare_goal. lia.
Qed.

(** For two values of one UTC offset the fields order as the instants. *)
Lemma fields_compare_micros o a b :
  in_range a -> in_range b ->
  fields_compare a b = Z.compare (micros_at o a) (micros_at o b).
Proof.
  intros Ha Hb. unfold fields_compare.
  rewrite <-(lex_assoc (N.compare (month a) _)), <-lex_assoc.
  rewrite (toordinal_compare a b Ha Hb).
  destruct Ha as [_ _ _ Hh Hm Hs Hu], Hb as [_ _ _ Hh' Hm' Hs' Hu'].
  unfold micros_at.
  generalize (toordinal a) (toordinal b). intros oa ob.
  destruct (Z.compare_spec oa ob); simpl; [|compare_goal; lia..].
  destruct (N.compare_spec (hour a) (hour b)); simpl; [|compare_goal; lia..].
  destruct (N.compare_spec (minute a) (minute b)); simpl; [|compare_goal; lia..].
  destruct (N.compare_spec (second a) (second b)); simpl; [|compare_goal; lia..].
  destruct (N.compare_spec (microsecond a) (microsecond b)); compare_goal; lia.
Qed.

Lemma tz_str_head tz c s : tz_str tz = c :: s -> c < 46.
Proof.
  destruct tz as [o|]; simpl; [|done].
  destruct (o <? 0)%Z; intros [= <- _]; lia.
Qed.

Lemma frac_compare t u u' :
  u < 1000000 -> u' < 1000000 ->
  PyStr.compare (frac_str u ++ tz_str t) (frac_str u' ++ tz_str t) = N.compare u u'.
Proof.
  intros Hu Hu'. unfold frac_str.
  destruct (N.eqb_spec u 0) as [->|Hz], (N.eqb_spec u' 0) as [->|Hz']; cbn [app].
  - apply PyStrFacts.compare_refl.
  - replace (N.compare 0 u') with Lt by (symmetry; apply N.compare_lt_iff; lia).
    destruct (tz_str t) as [|c s] eqn:E; [done|].
    apply tz_str_head in E. rewrite compare_cons.
    by replace (N.compare c 46) with Lt by (symmetry; apply N.compare_lt_iff; lia).
  - replace (N.compare u 0) with Gt by (symmetry; apply N.compare_gt_iff; lia).
    destruct (tz_str t) as [|c s] eqn:E; [done|].
    apply tz_str_head in E. rewrite compare_cons.
    by replace (N.compare 46 c) with Gt by (symmetry; apply N.compare_gt_iff; lia).
  - rewrite compare_cons_same, compare_app by (by rewrite !digits_length).
    rewrite PyStrFacts.compare_refl, lex_eq.
    by apply (digits_compare 6).
Qed.

(** For two values of one UTC offset (or two naive values) the ISO
    strings order as the fields. *)
Lemma isoformat_compare a b :
  in_range a -> in_range b -> tzoffset a = tzoffset b ->
  PyStr.compare (isoformat a) (isoformat b) = fields_compare a b.
Proof.
  intros [Hy Hm Hd Hh Hmi Hs Hu] [Hy' Hm' Hd' Hh' Hmi' Hs' Hu'] Htz.
  pose proof (days_in_month_le (year a) (month a)).
  pose proof (days_in_month_le (year b) (month b)).
  unfold isoformat, date_isoformat, fields_compare. rewrite Htz.
  rewrite <-!app_assoc. cbn [app].
  repeat (rewrite compare_app by (by rewrite !digits_length);
          rewrite ?compare_cons_same).
  rewrite (digits_compare 4), !(digits_compare 2) by (simpl; lia).
  by rewrite frac_compare.
Qed.

(** Python's [<=] on the ISO strings of two values of one UTC offset is
    [<=] on the instants. *)
Lemma isoformat_leb_instant o a b :
  valid a = true -> valid b = true ->
  tzoffset a = Some o -> tzoffset b = Some o ->
  PyStr.leb (isoformat a) (isoformat b) = (micros_at o a <=? micros_at o b)%Z.
Proof.
  intros Ha%valid_in_range Hb%valid_in_range Ta Tb.
  unfold PyStr.leb. rewrite isoformat_compare by congruence.
  rewrite (fields_compare_micros o) by done.
  unfold Z.leb. by destruct (micros_at o a ?= micros_at o b)%Z.
Qed.

End PyDateFacts.
(** ** [dedupe_items]: the first item of every key survives *)

Module NalcoDedupe.
Import Nalco.

Lemma foldl_dedupe_step items seen unique :
  snd (foldl dedupe_step (seen, unique) items)
  = unique ++ dedupe_from seen items.
Proof.
  revert seen unique. induction items as [|it items IH]; intros seen unique.
  - simpl. by rewrite app_nil_r.
  - simpl. fold (url_key it).
    destruct (PyStr.is_empty (url_key it)).
    + by rewrite IH, <-app_assoc.
    + destruct (bool_decide (url_key it ∈ seen)).
      * by rewrite IH.
      * by rewrite IH, <-app_assoc.
Qed.

Lemma dedupe_items_from items : dedupe_items items = dedupe_from ∅ items.
Proof. unfold dedupe_items. by rewrite foldl_dedupe_step. Qed.

Lemma is_empty_nil (s : pystr) : PyStr.is_empty s = true <-> s = [].
Proof. by destruct s. Qed.

Lemma filter_key_from k seen items :
  k <> [] ->
  List.filter (has_key k) (dedupe_from seen items)
  = if bool_decide (k ∈ seen) then []
    else take 1 (List.filter (has_key k) items).
Proof.
  intros Hk. revert seen. induction items as [|it items IH]; intros seen.
  - simpl. by destruct (bool_decide (k ∈ seen)).
  - simpl. unfold has_key at 2 4.
    destruct (PyStr.is_empty (url_key it)) eqn:Ee.
    { apply is_empty_nil in Ee. simpl. unfold has_key at 1.
      rewrite !bool_decide_false by congruence. apply IH. }
    destruct (bool_decide_reflect (url_key it ∈ seen)) as [Hs|Hs].
    { rewrite IH. destruct (bool_decide_reflect (k ∈ seen)) as [Hks|Hks]; [done|].
      rewrite bool_decide_false; [done|]. congruence. }
    simpl. unfold has_key at 1.
    destruct (bool_decide_reflect (url_key it = k)) as [Heq|Hne].
    + rewrite (bool_decide_false (k ∈ seen)) by congruence.
      rewrite IH, bool_decide_true; [done|].
      apply elem_of_union_l, elem_of_singleton. done.
    + rewrite IH.
      destruct (bool_decide_reflect (k ∈ seen)) as [Hks|Hks].
      * rewrite bool_decide_true; [done|]. by apply elem_of_union_r.
      * rewrite bool_decide_false; [done|].
        intros [Hin%elem_of_singleton|Hin]%elem_of_union; congruence.
Qed.

(** Exactly the first item of a non-empty key survives. *)
Lemma dedupe_items_first k items :
  k <> [] ->
  List.filter (has_key k) (dedupe_items items)
  = take 1 (List.filter (has_key k) items).
Proof. intros Hk. by rewrite dedupe_items_from, filter_key_from. Qed.

(** Every item of the empty key survives. *)
Lemma dedupe_from_empty seen items :
  List.filter (has_key []) (dedupe_from seen items)
  = List.filter (has_key []) items.
Proof.
  revert seen. induction items as [|it items IH]; intros seen; [done|].
  simpl. unfold has_key at 2 4.
  destruct (PyStr.is_empty (url_key it)) eqn:Ee.
  - simpl. unfold has_key at 1. by rewrite IH.
  - assert (url_key it <> []) as Hne
        by (intros H%is_empty_nil; congruence).
    rewrite (bool_decide_false (url_key it = [])) by done.
    destruct (bool_decide (url_key it ∈ seen)); [apply IH|].
    simpl. unfold has_key at 1.
    rewrite (bool_decide_false (url_key it = [])) by done. apply IH.
Qed.

Lemma dedupe_items_empty items :
  List.filter (has_key []) (dedupe_items items)
  = List.filter (has_key []) items.
Proof. rewrite dedupe_items_from. apply dedupe_from_empty. Qed.

(** Nothing is invented, nothing is reordered. *)
Lemma dedupe_from_sublist seen items : dedupe_from seen items `sublist_of` items.
Proof.
  revert seen. induction items as [|it items IH]; intros seen; simpl; [done|].
  destruct (PyStr.is_empty (url_key it)); [by constructor|].
  destruct (bool_decide (url_key it ∈ seen)); by constructor.
Qed.

Lemma dedupe_items_sublist items : dedupe_items items `sublist_of` items.
Proof. rewrite dedupe_items_from. apply dedupe_from_sublist. Qed.

End NalcoDedupe.
(** ** Dictionaries and the loops that fill them *)

Section ForEach.
Context {S X : Type}.

Lemma for_each_app (body : S -> X -> result S) xs ys s :
  for_each body (xs ++ ys) s = for_each body xs s ≫= for_each body ys.
Proof.
  revert s. induction xs as [|x xs IH]; intros s; simpl; [done|].
  destruct (body s x) as [s'|e]; simpl; [apply IH|done].
Qed.

(** Two nested loops are one loop over the concatenation. *)
Lemma for_each_concat {Y} (body : S -> X -> result S) (inner : Y -> list X) ys s :
  for_each (fun s y => for_each body (inner y) s) ys s
  = for_each body (concat (map inner ys)) s.
Proof.
  revert s. induction ys as [|y ys IH]; intros s; simpl; [done|].
  rewrite for_each_app.
  destruct (for_each body (inner y) s) as [s'|e]; simpl; [apply IH|done].
Qed.

Lemma for_each_ext (f g : S -> X -> result S) xs s :
  (forall s x, f s x = g s x) -> for_each f xs s = for_each g xs s.
Proof.
  intros H. revert s. induction xs as [|x xs IH]; intros s; simpl; [done|].
  rewrite H. destruct (g s x); simpl; auto.
Qed.

End ForEach.

Section DictFacts.
Context {V : Type}.
Implicit Types (d : dict V) (k : pystr) (v : V).

Lemma dict_has_true k d : dict_has k d = true <-> k ∈ d.*1.
Proof. unfold dict_has. apply bool_decide_eq_true. Qed.

Lemma dict_has_false k d : dict_has k d = false <-> k ∉ d.*1.
Proof. unfold dict_has. apply bool_decide_eq_false. Qed.

Lemma dict_set_fresh k v d : k ∉ d.*1 -> dict_set k v d = d ++ [(k, v)].
Proof.
  induction d as [|[k' v'] d IH]; simpl; [done|].
  intros Hk. apply not_elem_of_cons in Hk as [Hne Hk].
  rewrite bool_decide_false by congruence. by rewrite IH.
Qed.

End DictFacts.

Section FirstWinsFacts.
Context {X V : Type}
        (keyof : X -> result pystr)
        (build : pystr -> X -> result V).

Local Abbreviation step := (first_wins_step keyof build).

Local Abbreviation first_of := (first_of keyof build).

Lemma first_wins_grows xs d0 d :
  NoDup d0.*1 ->
  for_each step xs d0 = Ok d ->
  exists added,
    d = d0 ++ added /\ NoDup d.*1 /\
    (forall k v, (k, v) ∈ added -> first_of xs k v) /\
    (forall x, x ∈ xs -> exists k, keyof x = Ok k /\ k ∈ d.*1).
Proof.
  revert d0. induction xs as [|x xs IH]; intros d0 Hnd; simpl.
  - intros [= <-]. exists []. rewrite app_nil_r.
    repeat split; [done|intros ?? []%elem_of_nil|intros ? []%elem_of_nil].
  - destruct (step d0 x) as [d1|e] eqn:Es; simpl; [|done].
    intros Hd. unfold first_wins_step in Es.
    destruct (keyof x) as [k|e] eqn:Ek; simpl in Es; [|done].
    destruct (dict_has k d0) eqn:Eh; simpl in Es.
    + apply dict_has_true in Eh. injection Es as <-.
      destruct (IH d0 Hnd Hd) as (added & -> & Hnd' & Hfirst & Hall).
      exists added. split_and!; [done|done| |].
      * intros k' v' Hin. destruct (Hfirst k' v' Hin) as (pre & y & post & -> & Hy & Hpre & Hb).
        exists (x :: pre), y, post. split_and!; [done|done| |done].
        intros z [->|Hz]%elem_of_cons; [|by apply Hpre].
        rewrite Ek. intros [= ->].
        rewrite fmap_app in Hnd'. apply NoDup_app in Hnd' as (_ & Hdis & _).
        apply (Hdis k' Eh). apply list_elem_of_fmap. by exists (k', v').
      * intros z [->|Hz]%elem_of_cons; [|by apply Hall].
        exists k. split; [done|]. rewrite fmap_app. apply elem_of_app. by left.
    + apply dict_has_false in Eh.
      destruct (build k x) as [v|e] eqn:Eb; simpl in Es; [|done].
      rewrite dict_set_fresh in Es by done. injection Es as <-.
      assert (NoDup (d0 ++ [(k, v)]).*1) as Hnd1.
      { rewrite fmap_app. apply NoDup_app. repeat split; [done| |].
        - intros k' Hk' [->|[]%elem_of_nil]%elem_of_cons. done.
        - simpl. apply NoDup_singleton. }
      destruct (IH _ Hnd1 Hd) as (added & -> & Hnd' & Hfirst & Hall).
      exists ((k, v) :: added). rewrite <-app_assoc. simpl.
      repeat split; [by rewrite <-app_assoc in Hnd'| |].
      * intros k' v' [[= -> ->]|Hin]%elem_of_cons.
        { exists [], x, xs. split_and!; [done|done| |done].
          intros ? []%elem_of_nil. }
        destruct (Hfirst k' v' Hin) as (pre & y & post & -> & Hy & Hpre & Hb).
        exists (x :: pre), y, post. split_and!; [done|done| |done].
        intros z [->|Hz]%elem_of_cons; [|by apply Hpre].
        rewrite Ek. intros [= ->].
        rewrite fmap_app in Hnd'. apply NoDup_app in Hnd' as (_ & Hdis & _).
        apply (Hdis k').
        -- rewrite fmap_app. apply elem_of_app. right. simpl. by left.
        -- apply list_elem_of_fmap. by exists (k', v').
      * rewrite <-app_assoc in Hall. simpl in Hall.
        intros z [->|Hz]%elem_of_cons; [|by apply Hall].
        exists k. split; [done|].
        rewrite fmap_app. apply elem_of_app. right. simpl. by left.
Qed.

(** Filling an empty dictionary: one entry per key, built from the
    first candidate of that key, and every key of a candidate is there. *)
Lemma first_wins_from_empty xs d :
  for_each step xs [] = Ok d ->
  NoDup d.*1 /\
  (forall k v, (k, v) ∈ d -> first_of xs k v) /\
  (forall x, x ∈ xs -> exists k, keyof x = Ok k /\ k ∈ d.*1).
Proof.
  intros H. destruct (first_wins_grows xs [] d (NoDup_nil_2) H)
    as (added & -> & ? & ? & ?). done.
Qed.

End FirstWinsFacts.
(** ** The feed scripts as one loop over their entries *)

Lemma for_each_map {S X Y} (body : S -> Y -> result S) (f : X -> Y) xs s :
  for_each (fun s x => body s (f x)) xs s = for_each body (map f xs) s.
Proof.
  revert s. induction xs as [|x xs IH]; intros s; simpl; [done|].
  destruct (body s (f x)); simpl; auto.
Qed.

Module LocalFacts.
Import Local.

Section Run.
Context (parse : pystr -> list entry) (now : PyDate.datetime).

Lemma local_entry_step_first_wins d e :
  entry_step now d e = first_wins_step entry_key (entry_item now) d e.
Proof.
  unfold entry_step, first_wins_step, entry_key, entry_item.
  destruct (getattr "link" (link e)) as [l|]; simpl; [|done].
  destruct (dict_has l d); [done|].
  destruct (published now e); simpl; [|done].
  by destruct (getattr "title" (e_title e)).
Qed.

Lemma collect_entries :
  collect parse now
  = for_each (first_wins_step entry_key (entry_item now)) (entries parse) [].
Proof.
  unfold entries.
  change (collect parse now)
    with (for_each (fun s key => for_each (entry_step now)
                                          (parse (search_url key)) s)
                   KEYWORDS []).
  rewrite (for_each_concat (entry_step now)).
  apply for_each_ext, local_entry_step_first_wins.
Qed.

End Run.
End LocalFacts.

Module PsuFacts.
Import Psu.

Section Run.
Context (quote_plus : pystr -> pystr)
        (parse : pystr -> list entry) (now : PyDate.datetime).

Local Abbreviation step := (first_wins_step candidate_key (candidate_item now)).

Lemma psu_entry_step_first_wins cat src ty d e :
  entry_step now cat src ty d e = step d (mk_candidate cat src ty e).
Proof.
  unfold entry_step, first_wins_step, candidate_key, candidate_item. simpl.
  destruct (getattr "link" (link e)) as [l|]; simpl; [|done].
  destruct (dict_has (PyStr.strip l) d); [done|].
  destruct (published now e); simpl; [|done].
  by destruct (getattr "title" (e_title e)).
Qed.

Lemma entries_loop cat src ty es d :
  for_each (entry_step now cat src ty) es d
  = for_each step (map (mk_candidate cat src ty) es) d.
Proof.
  rewrite <-for_each_map. apply for_each_ext.
  intros. apply psu_entry_step_first_wins.
Qed.

Lemma collect_google_candidates :
  collect_google quote_plus parse now
  = for_each step (google_candidates quote_plus parse) [].
Proof.
  unfold collect_google, google_candidates.
  rewrite <-for_each_concat. apply for_each_ext. intros d c.
  change (google_category_step quote_plus parse now d c)
    with (for_each (google_key_step quote_plus parse now c.1) c.2 d).
  rewrite <-for_each_concat.
  apply for_each_ext. intros d' key.
  change (google_key_step quote_plus parse now c.1 d' key)
    with (for_each (entry_step now c.1 (lit "Google News") (lit "google"))
                   (parse (search_url quote_plus key)) d').
  apply entries_loop.
Qed.

Lemma official_loop d :
  for_each (official_category_step parse now) OFFICIAL_RSS d
  = for_each step (official_candidates parse) d.
Proof.
  unfold official_candidates.
  rewrite <-for_each_concat. apply for_each_ext. intros d1 c.
  change (official_category_step parse now d1 c)
    with (for_each (official_feed_step parse now c.1) c.2 d1).
  rewrite <-for_each_concat.
  apply for_each_ext. intros d' f.
  change (official_feed_step parse now c.1 d' f)
    with (for_each (entry_step now c.1 f.1 (lit "official")) (parse f.2) d').
  apply entries_loop.
Qed.

Lemma collect_candidates :
  collect quote_plus parse now
  = for_each step (candidates quote_plus parse) [].
Proof.
  change (collect quote_plus parse now)
    with (collect_google quote_plus parse now
            ≫= for_each (official_category_step parse now) OFFICIAL_RSS).
  unfold candidates. rewrite for_each_app.
  rewrite collect_google_candidates.
  destruct (for_each step (google_candidates quote_plus parse) []); simpl;
    [apply official_loop|done].
Qed.

End Run.
End PsuFacts.
(** ** What a run writes *)

Lemma write_file_written {F} fs before (doc doc' : F) last :
  snapshot (write_file fs before doc last) = Written doc' -> doc' = doc.
Proof.
  unfold write_file.
  destruct (open_ok fs), (dump_ok fs), (print_raises fs); simpl; congruence.
Qed.

Lemma write_file_raised {F} fs before (doc : F) last :
  raised (write_file fs before doc last)
  = if open_ok fs && dump_ok fs then print_raises fs else Some OSError.
Proof.
  unfold write_file.
  by destruct (open_ok fs), (dump_ok fs), (print_raises fs).
Qed.

Lemma write_file_snapshot {F} fs before (doc : F) last :
  snapshot (write_file fs before doc last)
  = if open_ok fs then if dump_ok fs then Written doc else Truncated
    else Untouched.
Proof.
  unfold write_file.
  by destruct (open_ok fs), (dump_ok fs), (print_raises fs).
Qed.

(** Once the document is written, only the last [print] can raise. *)
Lemma write_file_after {F} fs before (doc doc' : F) last :
  snapshot (write_file fs before doc last) = Written doc' ->
  raised (write_file fs before doc last) = print_raises fs.
Proof.
  unfold write_file.
  by destruct (open_ok fs), (dump_ok fs), (print_raises fs).
Qed.

Lemma write_file_quiet {F} fs before (doc : F) last :
  raised (write_file fs before doc last) = None ->
  snapshot (write_file fs before doc last) = Written doc.
Proof.
  unfold write_file.
  by destruct (open_ok fs), (dump_ok fs), (print_raises fs).
Qed.

Module NalcoRun.
Import Nalco.

Section Run.
Context (L : libraries) (fs : fs_behaviour).

Local Abbreviation fetched := (fetched L).
Local Abbreviation ranked := (ranked L).
Local Abbreviation run := (main L fs).

Lemma nalco_main_written doc :
  snapshot run = Written doc ->
  items doc = ranked /\ count doc = length ranked.
Proof.
  unfold main, Nalco.ranked, Nalco.fetched.
  destruct (fetch_nalco_press L) as [[a|e] pa]; [|done].
  destruct (fetch_google_news L) as [b pb]. simpl.
  destruct (makedirs_ok fs); simpl; [|done].
  intros ->%write_file_written. done.
Qed.

(** A written document tells that the press adapter returned. *)
Lemma nalco_main_written_press doc :
  snapshot run = Written doc -> exists a, (fetch_nalco_press L).1 = Ok a.
Proof.
  unfold main.
  destruct (fetch_nalco_press L) as [[a|e] pa]; [by exists a|done].
Qed.

Lemma nalco_main_raised :
  raised run
  = match (fetch_nalco_press L).1 with
    | Raise e => Some e
    | Ok _ => if makedirs_ok fs && open_ok fs && dump_ok fs
              then print_raises fs else Some OSError
    end.
Proof.
  unfold main.
  destruct (fetch_nalco_press L) as [[a|e] pa]; [|done].
  destruct (fetch_google_news L) as [b pb]. simpl.
  destruct (makedirs_ok fs); simpl; [|done].
  apply write_file_raised.
Qed.

Lemma nalco_main_snapshot a :
  (fetch_nalco_press L).1 = Ok a ->
  makedirs_ok fs = true -> open_ok fs = true -> dump_ok fs = true ->
  snapshot run
  = Written {| updated_at := PyDate.isoformat (utcnow L) ++ lit "Z";
               count := length ranked; items := ranked |}.
Proof.
  intros Ha Hm Ho Hd. unfold main, Nalco.ranked, Nalco.fetched.
  destruct (fetch_nalco_press L) as [[a'|e] pa]; [|done].
  destruct (fetch_google_news L) as [b pb]. simpl.
  rewrite Hm. simpl. by rewrite write_file_snapshot, Ho, Hd.
Qed.

End Run.
End NalcoRun.

Module LocalRun.
Import Local.

Section Run.
Context (parse : pystr -> list entry) (now : PyDate.datetime)
        (fs : fs_behaviour).

Lemma local_main_written doc :
  snapshot (main parse now fs) = Written doc ->
  exists d, collect parse now = Ok d /\ items doc = rank d.
Proof.
  unfold main, run. change (gather (returning parse) now) with (collect parse now).
  destruct (collect parse now) as [d|e]; simpl; [|done].
  intros ->%write_file_written. by exists d.
Qed.

Lemma local_main_raised :
  raised (main parse now fs)
  = match collect parse now with
    | Raise e => Some e
    | Ok _ => if open_ok fs && dump_ok fs then print_raises fs else Some OSError
    end.
Proof.
  unfold main, run. change (gather (returning parse) now) with (collect parse now).
  destruct (collect parse now) as [d|e]; simpl; [|done].
  apply write_file_raised.
Qed.

End Run.
End LocalRun.

Module PsuRun.
Import Psu.

Section Run.
Context (quote_plus : pystr -> pystr)
        (parse : pystr -> list entry) (now : PyDate.datetime)
        (fs : fs_behaviour).

Lemma psu_main_written doc :
  snapshot (main quote_plus parse now fs) = Written doc ->
  exists d, collect quote_plus parse now = Ok d /\ items doc = rank d.
Proof.
  unfold main, run.
  change (gather quote_plus (returning parse) now)
    with (collect quote_plus parse now).
  destruct (collect quote_plus parse now) as [d|e]; simpl; [|done].
  destruct (makedirs_ok fs); simpl; [|done].
  intros ->%write_file_written. by exists d.
Qed.

Lemma psu_main_raised :
  raised (main quote_plus parse now fs)
  = match collect quote_plus parse now with
    | Raise e => Some e
    | Ok _ => if makedirs_ok fs && open_ok fs && dump_ok fs
              then print_raises fs else Some OSError
    end.
Proof.
  unfold main, run.
  change (gather quote_plus (returning parse) now)
    with (collect quote_plus parse now).
  destruct (collect quote_plus parse now) as [d|e]; simpl; [|done].
  destruct (makedirs_ok fs); simpl; [|done].
  apply write_file_raised.
Qed.

End Run.
End PsuRun.
(** ** The dictionaries the feed scripts collect *)

Section Collected.
Context {X V : Type}
        (keyof : X -> result pystr)
        (build : pystr -> X -> result V)
        (url : V -> pystr)
        (build_url : forall k x v, build k x = Ok v -> url v = k).

Lemma first_wins_collected xs (d : dict V) :
  for_each (first_wins_step keyof build) xs [] = Ok d ->
  first_wins_result keyof build url xs (dict_values d).
Proof.
  intros (Hnd & Hfirst & Hall)%first_wins_from_empty.
  assert (map url (dict_values d) = d.*1) as Hkeys.
  { unfold dict_values. rewrite <-list_fmap_compose.
    apply list_fmap_ext. intros i [k v] Hi. simpl.
    destruct (Hfirst k v) as (_ & x & _ & _ & _ & _ & Hb).
    - by eapply list_elem_of_lookup_2.
    - by eapply build_url. }
  split_and!.
  - by rewrite Hkeys.
  - intros v Hv. unfold dict_values in Hv.
    apply list_elem_of_fmap in Hv as ([k v'] & -> & Hin). simpl.
    pose proof (Hfirst k v' Hin) as Hf.
    destruct Hf as (pre & x & post & E & Hk & Hpre & Hb).
    rewrite (build_url _ _ _ Hb). by exists pre, x, post.
  - intros x k Hx Hk. rewrite Hkeys.
    destruct (Hall x Hx) as (k' & Hk' & Hin). congruence.
Qed.

End Collected.

(** Ranking: the sort and the cut keep a part of what they are given. *)
Lemma ranked_submseteq {A} (key : A -> pystr) n (l : list A) :
  take n (sorted_desc key l) ⊆+ l.
Proof.
  etransitivity; [apply submseteq_take|].
  apply Permutation_submseteq, sorted_desc_perm.
Qed.

Lemma ranked_length {A} (key : A -> pystr) n (l : list A) :
  length (take n (sorted_desc key l)) = min n (length l).
Proof. by rewrite length_take, sorted_desc_length. Qed.

Lemma ranked_all {A} (key : A -> pystr) n (l : list A) :
  length l <= n -> take n (sorted_desc key l) ≡ₚ l.
Proof.
  intros H. rewrite take_ge by (by rewrite sorted_desc_length).
  apply sorted_desc_perm.
Qed.

Module LocalCollect.
Import Local.

Lemma entry_item_url now l e v : entry_item now l e = Ok v -> url v = l.
Proof.
  unfold entry_item. destruct (published now e); simpl; [|done].
  destruct (getattr "title" (e_title e)); simpl; [|done].
  by intros [= <-].
Qed.

Lemma local_collect_first_wins parse now d :
  collect parse now = Ok d ->
  first_wins_result entry_key (entry_item now) url (entries parse) (dict_values d).
Proof.
  rewrite LocalFacts.collect_entries.
  apply first_wins_collected, entry_item_url.
Qed.

End LocalCollect.

Module PsuCollect.
Import Psu.

Lemma candidate_item_url now l c v : candidate_item now l c = Ok v -> url v = l.
Proof.
  unfold candidate_item. destruct (published now (c_entry c)); simpl; [|done].
  destruct (getattr "title" (e_title (c_entry c))); simpl; [|done].
  by intros [= <-].
Qed.

Lemma psu_collect_first_wins quote_plus parse now d :
  collect quote_plus parse now = Ok d ->
  first_wins_result candidate_key (candidate_item now) url
                    (candidates quote_plus parse) (dict_values d).
Proof.
  rewrite PsuFacts.collect_candidates.
  apply first_wins_collected, candidate_item_url.
Qed.

End PsuCollect.
(** ** Lists: one value per key, and the first of two halves *)

Lemma elem_of_concat_map {X Y} (f : X -> list Y) (l : list X) (y : Y) :
  y ∈ concat (map f l) <-> exists x, x ∈ l /\ y ∈ f x.
Proof.
  induction l as [|x l IH]; simpl.
  - split; [intros []%elem_of_nil|intros (x & []%elem_of_nil & _)].
  - rewrite elem_of_app, IH. split.
    + intros [H|(x' & Hx' & H)]; [exists x|exists x']; split; auto;
        [by left|by right].
    + intros (x' & [->|Hx']%elem_of_cons & H); [by left|right; eauto].
Qed.

Lemma NoDup_filter_key_length {A} (f : A -> pystr) (p : A -> bool)
    (k : pystr) (l : list A) :
  (forall a, p a = true -> f a = k) ->
  NoDup (map f l) ->
  length (List.filter p l) <= 1.
Proof.
  intros Hp. induction l as [|a l IH]; simpl; [lia|].
  intros [Hnin Hnd]%NoDup_cons.
  destruct (p a) eqn:Ha; [|auto].
  simpl. replace (List.filter p l) with (@nil A); [simpl; lia|].
  symmetry. clear IH Hnd. induction l as [|b l IH]; simpl; [done|].
  apply not_elem_of_cons in Hnin as [Hne Hnin].
  destruct (p b) eqn:Hb; [|auto].
  exfalso. apply Hne. by rewrite (Hp a), (Hp b).
Qed.

(** The first element of a key lies in the first half of a list as soon
    as that half holds an element of the key. *)
Lemma first_in_front {X} (P : X -> Prop) (front back pre post : list X) x c :
  front ++ back = pre ++ x :: post ->
  (forall y, y ∈ pre -> ~ P y) ->
  c ∈ front -> P c ->
  x ∈ front.
Proof.
  intros E Hpre Hc HP.
  destruct (decide (length pre < length front)) as [Hlt|Hge].
  - apply (list_elem_of_lookup_2 _ (length pre)).
    rewrite <-(lookup_app_l front back) by done.
    rewrite E. by rewrite list_lookup_middle.
  - exfalso. apply list_elem_of_lookup_1 in Hc as [i Hi].
    pose proof (lookup_lt_Some _ _ _ Hi) as Hlen.
    apply (Hpre c); [|done].
    apply (list_elem_of_lookup_2 _ i).
    rewrite <-(lookup_app_l pre (x :: post)) by lia.
    rewrite <-E. by rewrite lookup_app_l.
Qed.

Module PsuProvenance.
Import Psu.

Lemma google_candidates_provenance quote_plus parse c :
  c ∈ google_candidates quote_plus parse ->
  c_source c = lit "Google News" /\ c_source_type c = lit "google".
Proof.
  unfold google_candidates.
  intros (cat & _ & (key & _ & Hc)%elem_of_concat_map)%elem_of_concat_map.
  apply list_elem_of_fmap in Hc as (e & -> & _). done.
Qed.

Lemma candidate_item_provenance now l c it :
  candidate_item now l c = Ok it ->
  source it = c_source c /\ source_type it = c_source_type c
  /\ category it = c_category c.
Proof.
  unfold candidate_item. destruct (published now (c_entry c)); simpl; [|done].
  destruct (getattr "title" (e_title (c_entry c))); simpl; [|done].
  by intros [= <-].
Qed.

(** An item whose key a Google candidate carries was built from a Google
    candidate. *)
Lemma google_first quote_plus parse now d it c :
  collect quote_plus parse now = Ok d ->
  it ∈ dict_values d ->
  c ∈ google_candidates quote_plus parse ->
  candidate_key c = Ok (url it) ->
  source it = lit "Google News" /\ source_type it = lit "google".
Proof.
  intros Hd Hit Hc Hk.
  apply PsuCollect.psu_collect_first_wins in Hd as (_ & Hfirst & _).
  destruct (Hfirst it Hit) as (pre & x & post & E & Hx & Hpre & Hb).
  assert (x ∈ google_candidates quote_plus parse) as Hg.
  { eapply (first_in_front (fun y => candidate_key y = Ok (url it)));
      [exact E|exact Hpre|exact Hc|exact Hk]. }
  apply google_candidates_provenance in Hg as [Hs Ht].
  apply candidate_item_provenance in Hb as (-> & -> & _). done.
Qed.

End PsuProvenance.
(** ** The dates the scripts write *)

Lemma ranked_adjacent {A} (key : A -> pystr) n (l : list A) i a b :
  take n (sorted_desc key l) !! i = Some a ->
  take n (sorted_desc key l) !! S i = Some b ->
  PyStr.geb (key a) (key b) = true.
Proof.
  apply (StronglySorted_adjacent key).
  apply StronglySorted_take, sorted_desc_sorted.
Qed.

Lemma datetime_utc_stamp t d :
  PyDate.datetime_utc t = Some d ->
  PyDate.valid d = true /\ PyDate.tzoffset d = Some 0%Z.
Proof.
  unfold PyDate.datetime_utc.
  destruct (_ && _)%bool eqn:E; [|done].
  intros [= <-]. apply andb_true_iff in E as [_ E]. done.
Qed.

Lemma utc_stamp_geb sa sb a b :
  PyDate.utc_stamp sa a -> PyDate.utc_stamp sb b ->
  PyStr.geb sa sb = (PyDate.micros_at 0 b <=? PyDate.micros_at 0 a)%Z.
Proof.
  intros (Va & Ta & ->) (Vb & Tb & ->). unfold PyStr.geb.
  by apply PyDateFacts.isoformat_leb_instant.
Qed.

Module LocalDates.
Import Local.

Lemma local_published_stamp now e p :
  PyDate.valid now = true -> PyDate.tzoffset now = Some 0%Z ->
  published now e = Ok p ->
  PyDate.valid p = true /\ PyDate.tzoffset p = Some 0%Z.
Proof.
  intros Hv Ht. unfold published.
  destruct (published_parsed e) as [| |t]; [by intros [= <-]|done|].
  unfold datetime_utc. destruct (PyDate.datetime_utc t) eqn:E; [|done].
  intros [= <-]. by apply datetime_utc_stamp in E.
Qed.

Lemma local_dates_are_utc parse now d it :
  PyDate.valid now = true -> PyDate.tzoffset now = Some 0%Z ->
  collect parse now = Ok d ->
  it ∈ dict_values d ->
  exists t, PyDate.utc_stamp (date it) t.
Proof.
  intros Hv Ht (_ & Hfirst & _)%LocalCollect.local_collect_first_wins Hit.
  destruct (Hfirst it Hit) as (_ & e & _ & _ & _ & _ & Hb).
  unfold entry_item in Hb.
  destruct (published now e) as [p|] eqn:Ep; simpl in Hb; [|done].
  destruct (getattr "title" (e_title e)); simpl in Hb; [|done].
  injection Hb as <-. simpl.
  apply local_published_stamp in Ep as [? ?]; [|done..].
  by exists p.
Qed.

End LocalDates.

Module PsuDates.
Import Psu.

Lemma psu_published_stamp now e p :
  PyDate.valid now = true -> PyDate.tzoffset now = Some 0%Z ->
  published now e = Ok p ->
  PyDate.valid p = true /\ PyDate.tzoffset p = Some 0%Z.
Proof.
  intros Hv Ht. unfold published.
  destruct (published_parsed e) as [| |t]; [by intros [= <-]..|].
  unfold datetime_utc. destruct (PyDate.datetime_utc t) eqn:E; [|done].
  intros [= <-]. by apply datetime_utc_stamp in E.
Qed.

Lemma psu_dates_are_utc quote_plus parse now d it :
  PyDate.valid now = true -> PyDate.tzoffset now = Some 0%Z ->
  collect quote_plus parse now = Ok d ->
  it ∈ dict_values d ->
  exists t, PyDate.utc_stamp (date it) t.
Proof.
  intros Hv Ht (_ & Hfirst & _)%PsuCollect.psu_collect_first_wins Hit.
  destruct (Hfirst it Hit) as (_ & c & _ & _ & _ & _ & Hb).
  unfold candidate_item in Hb.
  destruct (published now (c_entry c)) as [p|] eqn:Ep; simpl in Hb; [|done].
  destruct (getattr "title" (e_title (c_entry c))); simpl in Hb; [|done].
  injection Hb as <-. simpl.
  apply psu_published_stamp in Ep as [? ?]; [|done..].
  by exists p.
Qed.

End PsuDates.

Module NalcoDates.
Import Nalco.

Lemma google_dates_parsed L raw dt :
  raw <> [] -> parsedate_to_datetime L raw = Some dt ->
  google_dates L (Some raw)
  = (Some (PyDate.date_isoformat dt), Some (PyDate.isoformat dt)).
Proof.
  intros Hr Hp. unfold google_dates. destruct raw; [done|]. simpl.
  by rewrite Hp.
Qed.

Lemma google_item_sort_key L it raw dt :
  rss_pubDate it = Some raw -> raw <> [] ->
  parsedate_to_datetime L raw = Some dt ->
  sort_key (google_item L it) = PyDate.isoformat dt.
Proof.
  intros Hd Hr Hp. unfold google_item.
  rewrite Hd, (google_dates_parsed L raw dt Hr Hp). done.
Qed.

End NalcoDates.

(** ** Where an item without a date of its own is ranked *)

Lemma leb_nil_inv (s : pystr) : PyStr.leb s [] = true -> s = [].
Proof. by destruct s. Qed.

Section Fallback.
Context {A : Type} (key : A -> pystr).

(** An item of the greatest key is preceded by items of that key only. *)
Lemma ranked_greatest_first n (l : list A) top pre x post :
  take n (sorted_desc key l) = pre ++ x :: post ->
  key x = top ->
  Forall (fun y => PyStr.leb (key y) top = true) pre ->
  Forall (fun y => key y = top) pre.
Proof.
  intros E Hx Hle.
  assert (StronglySorted (desc key) (pre ++ x :: post)) as Hs.
  { rewrite <-E. apply StronglySorted_take, sorted_desc_sorted. }
  apply StronglySorted_split in Hs.
  rewrite Forall_forall in *. intros y Hy.
  apply PyStrFacts.leb_antisym; [by apply Hle|].
  specialize (Hs y Hy). unfold desc, PyStr.geb in Hs. by rewrite <-Hx.
Qed.

(** An item of the empty key is followed by items of the empty key only. *)
Lemma ranked_empty_last n (l : list A) pre x post :
  take n (sorted_desc key l) = pre ++ x :: post ->
  key x = [] ->
  Forall (fun y => key y = []) post.
Proof.
  intros E Hx.
  assert (StronglySorted (desc key) (pre ++ x :: post)) as Hs.
  { rewrite <-E. apply StronglySorted_take, sorted_desc_sorted. }
  apply StronglySorted_behind in Hs.
  eapply Forall_impl; [exact Hs|]. intros y Hy.
  unfold desc, PyStr.geb in Hy. rewrite Hx in Hy. by apply leb_nil_inv.
Qed.

End Fallback.
(** ** Loops that raise, loops that do not *)

Section ForEachOutcome.
Context {S X : Type} (body : S -> X -> result S).

Lemma for_each_total (P : X -> Prop) xs s :
  (forall s x, P x -> exists s', body s x = Ok s') ->
  Forall P xs ->
  exists s', for_each body xs s = Ok s'.
Proof.
  intros Hbody Hxs. revert s. induction Hxs as [|x xs Hx _ IH]; intros s; simpl.
  - by exists s.
  - destruct (Hbody s x Hx) as [s' ->]. simpl. apply IH.
Qed.

Lemma for_each_raises xs x s :
  x ∈ xs ->
  (forall s, exists e, body s x = Raise e) ->
  exists e, for_each body xs s = Raise e.
Proof.
  intros Hx Hbody. revert s. induction xs as [|y xs IH]; intros s.
  - by apply elem_of_nil in Hx.
  - simpl. apply elem_of_cons in Hx as [<-|Hx].
    + destruct (Hbody s) as [e ->]. by exists e.
    + destruct (body s y) as [s'|e]; simpl; [by apply IH|by exists e].
Qed.

End ForEachOutcome.

Module LocalFailure.
Import Local.

Lemma well_formed_step now d e :
  well_formed e ->
  exists d', first_wins_step entry_key (entry_item now) d e = Ok d'.
Proof.
  intros ([l Hl] & [t Ht] & Hp).
  unfold first_wins_step, entry_key, entry_item. rewrite Hl. simpl.
  destruct (dict_has l d); [by eexists|].
  unfold published. rewrite Ht.
  destruct (published_parsed e) as [| |tm]; [by eexists|done|].
  unfold datetime_utc. destruct Hp as [dt ->]. by eexists.
Qed.

Lemma missing_link_step now d e :
  link e = None ->
  exists x, first_wins_step entry_key (entry_item now) d e = Raise x.
Proof.
  intros Hl. unfold first_wins_step, entry_key. rewrite Hl. by eexists.
Qed.

Lemma local_collect_total parse now :
  Forall well_formed (entries parse) ->
  exists d, collect parse now = Ok d.
Proof.
  intros H. rewrite LocalFacts.collect_entries.
  eapply for_each_total; [|exact H]. intros d e. apply well_formed_step.
Qed.

Lemma local_collect_raises parse now e :
  e ∈ entries parse -> link e = None ->
  exists x, collect parse now = Raise x.
Proof.
  intros He Hl. rewrite LocalFacts.collect_entries.
  eapply for_each_raises; [exact He|]. intros d. by apply missing_link_step.
Qed.

End LocalFailure.

Module PsuFailure.
Import Psu.

Lemma psu_well_formed_step now d c :
  well_formed (c_entry c) ->
  exists d', first_wins_step candidate_key (candidate_item now) d c = Ok d'.
Proof.
  intros ([l Hl] & [t Ht] & Hp).
  unfold first_wins_step, candidate_key, candidate_item. rewrite Hl. simpl.
  destruct (dict_has (PyStr.strip l) d); [by eexists|].
  unfold published. rewrite Ht.
  destruct (published_parsed (c_entry c)) as [| |tm]; [by eexists..|].
  unfold datetime_utc. destruct Hp as [dt ->]. by eexists.
Qed.

Lemma psu_missing_link_step now d c :
  link (c_entry c) = None ->
  exists x, first_wins_step candidate_key (candidate_item now) d c = Raise x.
Proof.
  intros Hl. unfold first_wins_step, candidate_key. rewrite Hl. by eexists.
Qed.

Lemma psu_collect_total quote_plus parse now :
  Forall (fun c => well_formed (c_entry c)) (candidates quote_plus parse) ->
  exists d, collect quote_plus parse now = Ok d.
Proof.
  intros H. rewrite PsuFacts.collect_candidates.
  eapply for_each_total; [|exact H]. intros d c. apply psu_well_formed_step.
Qed.

Lemma psu_collect_raises quote_plus parse now c :
  c ∈ candidates quote_plus parse -> link (c_entry c) = None ->
  exists x, collect quote_plus parse now = Raise x.
Proof.
  intros Hc Hl. rewrite PsuFacts.collect_candidates.
  eapply for_each_raises; [exact Hc|]. intros d. by apply psu_missing_link_step.
Qed.

End PsuFailure.
(** ** Text: joining, stripping tags, cutting *)

Lemma pbind_fst {A B} (m : printing A) (k : A -> printing B) :
  (m ≫= k).1 = (k m.1).1.
Proof. reflexivity. Qed.

Lemma pret_fst {A} (a : A) : (mret a : printing A).1 = a.
Proof. reflexivity. Qed.

Module NalcoText.
Import Nalco.

Lemma trimmed_nil : PyStr.trimmed [].
Proof. split; intros c; done. Qed.

Lemma join_nil_trimmed (parts : list pystr) :
  Forall (fun p => p <> [] /\ PyStr.trimmed p) parts ->
  PyStr.trimmed (join [] parts) /\ (parts <> [] -> join [] parts <> []).
Proof.
  induction 1 as [|p parts [Hne Ht] Hrest IH]; [split; [apply trimmed_nil|done]|].
  destruct parts as [|q parts]; [simpl; by split|].
  destruct IH as [[IHh IHl] IHne].
  assert (join [] (q :: parts) <> []) as Hj by (by apply IHne).
  assert (join [] (p :: q :: parts) = p ++ join [] (q :: parts)) as -> by done.
  revert IHh IHl Hj. generalize (join [] (q :: parts)). intros j IHh IHl Hj.
  split; [split|].
  - intros c. destruct p as [|x p]; [done|]. simpl. apply Ht.
  - intros c. rewrite last_app. destruct (last j) eqn:E.
    + intros [= <-]. by apply IHl.
    + apply last_None in E. done.
  - intros _. by destruct p.
Qed.

(** The text of a tag, read with [strip=True] and no separator, has no
    whitespace at either end. *)
Lemma get_text_strip_trimmed nodes : PyStr.trimmed (get_text_strip [] nodes).
Proof.
  unfold get_text_strip. apply join_nil_trimmed.
  induction nodes as [|n nodes IH]; simpl; [constructor|].
  destruct (PyStr.strip n) as [|c s] eqn:E; simpl; [done|].
  constructor; [|done]. split; [done|]. rewrite <-E. apply PyStrFacts.strip_trimmed.
Qed.

(** *** What [press_item] appends *)

Section Press.
Context (L : libraries) (P : item -> Prop).
Context (HP : forall it,
            PyStr.trimmed (title it) -> length (summary it) <= 300 ->
            source it = lit "NALCO Press Release" -> P it).

Lemma press_item_Forall items h out :
  Forall P items -> (press_item L items h).1 = Ok out -> Forall P out.
Proof.
  intros Hi. unfold press_item.
  destruct (h3_a h) as [a|]; [|by intros [= <-]].
  destruct (negb (contains (lit "/pre-rel/") (href a))); [by intros [= <-]|].
  destruct (urljoin L NALCO_PRESS_URL (href a)) as [u|]; [|done].
  destruct (press_dates L _) as [date_iso ts_iso].
  rewrite pbind_fst, pret_fst. intros [= <-]. apply Forall_app. split; [done|].
  constructor; [|constructor]. apply HP; simpl.
  - apply get_text_strip_trimmed.
  - destruct (safe_request L _).1; [|simpl; lia].
    destruct (find_p L _); [apply PyStrFacts.slice_to_length|simpl; lia].
  - done.
Qed.

Lemma press_loop_Forall hs items out :
  Forall P items -> (press_loop L items hs).1 = Ok out -> Forall P out.
Proof.
  revert items. induction hs as [|h hs IH]; intros items Hi.
  - by intros [= <-].
  - simpl press_loop. rewrite pbind_fst.
    destruct (press_item L items h).1 as [items'|e] eqn:E; [|done].
    apply IH. by eapply press_item_Forall.
Qed.

Lemma fetch_nalco_press_Forall out :
  (fetch_nalco_press L).1 = Ok out -> Forall P out.
Proof.
  unfold fetch_nalco_press. rewrite !pbind_fst.
  destruct (safe_request L NALCO_PRESS_URL).1 as [text|]; [|by intros [= <-]].
  rewrite !pbind_fst.
  destruct (press_loop L [] (select_h3 L text)).1 as [items|e] eqn:E; [|done].
  rewrite !pbind_fst, pret_fst. intros [= <-].
  eapply press_loop_Forall; [|exact E]. constructor.
Qed.

End Press.

(** *** What [google_item] builds *)

Lemma google_item_fields L it :
  PyStr.trimmed (title (google_item L it))
  /\ PyStr.trimmed (url (google_item L it))
  /\ length (summary (google_item L it)) <= 300
  /\ source (google_item L it) = lit "Google News".
Proof.
  unfold google_item. destruct (google_dates L _) as [d t]. simpl.
  split_and!; [apply PyStrFacts.strip_trimmed..|apply PyStrFacts.slice_to_length|done].
Qed.

Lemma foldl_snoc_map {X Y} (f : X -> Y) xs acc :
  foldl (fun items x => items ++ [f x]) acc xs = acc ++ map f xs.
Proof.
  revert acc. induction xs as [|x xs IH]; intros acc; simpl.
  - by rewrite app_nil_r.
  - by rewrite IH, <-app_assoc.
Qed.

Lemma fetch_google_news_items L :
  exists channel, (fetch_google_news L).1 = map (google_item L) channel.
Proof.
  unfold fetch_google_news. rewrite !pbind_fst.
  destruct (safe_request L GOOGLE_NEWS_RSS).1 as [content|]; [|by exists []].
  destruct (fromstring L content) as [e|[channel|]]; [by exists []| |by exists []].
  exists channel. rewrite !pbind_fst, pret_fst. by rewrite foldl_snoc_map.
Qed.

(** *** The fuel of [strip_tags] *)

Lemma tag_close_shorter s rest :
  tag_close s = Some rest -> length rest < length s.
Proof.
  revert rest. induction s as [|c s IH]; intros rest; simpl; [done|].
  destruct (c =? 62)%N; [intros [= <-]; lia|].
  destruct (c =? 60)%N; [done|]. intros H%IH. lia.
Qed.

Lemma tag_match_shorter s rest :
  tag_match s = Some rest -> length rest < length s.
Proof.
  destruct s as [|c s]; simpl; [done|].
  destruct (c =? 60)%N; [done|]. intros H%tag_close_shorter. lia.
Qed.

(** More fuel than the length changes nothing. *)
Lemma strip_tags_from_enough n s :
  length s <= n -> strip_tags_from n s = strip_tags s.
Proof.
  unfold strip_tags.
  remember (length s) as m eqn:Hm. revert n s Hm.
  induction m as [m IH] using lt_wf_ind. intros n s Hm Hn.
  destruct s as [|c s]; [subst m; by destruct n|].
  simpl in Hm. destruct n as [|n]; [lia|]. subst m. simpl.
  destruct (c =? 60)%N.
  - destruct (tag_match s) as [rest|] eqn:E.
    + apply tag_match_shorter in E.
      rewrite (IH (length rest) ltac:(lia) n rest eq_refl ltac:(lia)).
      by rewrite (IH (length rest) ltac:(lia) (length s) rest eq_refl ltac:(lia)).
    + f_equal. apply (IH (length s)); lia.
  - f_equal. apply (IH (length s)); lia.
Qed.

(** The equations of [re.sub("<[^<]+?>", "", s)]. *)
Lemma strip_tags_cons c s :
  strip_tags (c :: s)
  = if (c =? 60)%N then
      match tag_match s with
      | Some rest => strip_tags rest
      | None => c :: strip_tags s
      end
    else c :: strip_tags s.
Proof.
  unfold strip_tags at 1. simpl.
  destruct (c =? 60)%N; [|by rewrite strip_tags_from_enough].
  destruct (tag_match s) as [rest|] eqn:E; [|by rewrite strip_tags_from_enough].
  apply tag_match_shorter in E. apply strip_tags_from_enough. lia.
Qed.

(** A text without [<] is left as it is. *)
Lemma strip_tags_plain s :
  Forall (fun c => c <> 60%N) s -> strip_tags s = s.
Proof.
  induction 1 as [|c s Hc _ IH]; [done|].
  rewrite strip_tags_cons. apply N.eqb_neq in Hc. rewrite Hc. by rewrite IH.
Qed.

Lemma tag_close_suffix s rest : tag_close s = Some rest -> rest `suffix_of` s.
Proof.
  revert rest. induction s as [|c s IH]; intros rest; simpl; [done|].
  destruct (c =? 62)%N; [intros [= <-]; by apply suffix_cons_r|].
  destruct (c =? 60)%N; [done|]. intros H%IH. by apply suffix_cons_r.
Qed.

Lemma tag_match_suffix s rest : tag_match s = Some rest -> rest `suffix_of` s.
Proof.
  destruct s as [|c s]; simpl; [done|].
  destruct (c =? 60)%N; [done|]. intros H%tag_close_suffix. by apply suffix_cons_r.
Qed.

Lemma well_tagged_suffix s t : well_tagged s -> t `suffix_of` s -> well_tagged t.
Proof.
  intros Hs [k ->] pre post ->. apply (Hs (k ++ pre) post).
  by rewrite <-app_assoc.
Qed.

Lemma no_lt_no_tag s : Forall (fun c => c <> 60%N) s -> has_tag s = false.
Proof.
  induction 1 as [|c s Hc _ IH]; [done|]. simpl.
  apply N.eqb_neq in Hc. by rewrite Hc, IH.
Qed.

(** When every [<] opens a tag, no [<] is left and so no tag. *)
Lemma strip_tags_well_tagged s :
  well_tagged s ->
  Forall (fun c => c <> 60%N) (strip_tags s) /\ has_tag (strip_tags s) = false.
Proof.
  intros Hs. assert (Forall (fun c => c <> 60%N) (strip_tags s)) as H;
    [|split; [done|by apply no_lt_no_tag]].
  remember (length s) as m eqn:Hm. revert s Hs Hm.
  induction m as [m IH] using lt_wf_ind. intros s Hs ->.
  destruct s as [|c s]; [constructor|].
  rewrite strip_tags_cons. destruct (N.eqb_spec c 60) as [->|Hc].
  - destruct (Hs [] s eq_refl) as [rest Hr]. rewrite Hr.
    apply (IH (length rest)); [|
      |done].
    + apply tag_match_shorter in Hr. simpl. lia.
    + eapply well_tagged_suffix; [exact Hs|].
      apply suffix_cons_r. by apply tag_match_suffix.
  - constructor; [done|]. apply (IH (length s)); [simpl; lia| |done].
    eapply well_tagged_suffix; [exact Hs|]. by apply suffix_cons_r.
Qed.

End NalcoText.
(** ** Where titles and URLs are trimmed *)

Module PsuTrim.
Import Psu.

Lemma psu_items_trimmed quote_plus parse now d it :
  collect quote_plus parse now = Ok d ->
  it ∈ dict_values d ->
  PyStr.trimmed (title it) /\ PyStr.trimmed (url it).
Proof.
  intros (_ & Hfirst & _)%PsuCollect.psu_collect_first_wins Hit.
  destruct (Hfirst it Hit) as (_ & c & _ & _ & Hk & _ & Hb).
  unfold candidate_key in Hk.
  destruct (getattr "link" (link (c_entry c))) as [l|]; simpl in Hk; [|done].
  injection Hk as Hk.
  unfold candidate_item in Hb.
  destruct (published now (c_entry c)); simpl in Hb; [|done].
  destruct (getattr "title" (e_title (c_entry c))) as [t|]; simpl in Hb; [|done].
  injection Hb as <-. simpl. split; [apply PyStrFacts.strip_trimmed|].
  rewrite <-Hk. apply PyStrFacts.strip_trimmed.
Qed.

End PsuTrim.

Module NalcoTrim.
Import Nalco.

Lemma google_news_trimmed L it :
  it ∈ (fetch_google_news L).1 ->
  PyStr.trimmed (title it) /\ PyStr.trimmed (url it)
  /\ source it = lit "Google News".
Proof.
  destruct (NalcoText.fetch_google_news_items L) as [channel ->].
  intros (r & -> & _)%list_elem_of_fmap.
  destruct (NalcoText.google_item_fields L r) as (? & ? & _ & ?). done.
Qed.

Lemma nalco_press_trimmed L a it :
  (fetch_nalco_press L).1 = Ok a -> it ∈ a ->
  PyStr.trimmed (title it) /\ source it = lit "NALCO Press Release".
Proof.
  intros Ha Hit.
  pose proof (NalcoText.fetch_nalco_press_Forall L
    (fun it => PyStr.trimmed (title it) /\ source it = lit "NALCO Press Release")) as H.
  eapply Forall_forall in H; [exact H| |exact Ha|exact Hit]. by intros.
Qed.

Lemma ranked_fetched L it : it ∈ ranked L -> it ∈ fetched L.
Proof.
  intros Hit. unfold ranked in Hit.
  eapply elem_of_submseteq; [|eapply sublist_submseteq, NalcoDedupe.dedupe_items_sublist].
  eapply elem_of_submseteq; [exact Hit|apply ranked_submseteq].
Qed.

End NalcoTrim.
(** ** More on [dedupe_items] *)

Module NalcoDedupeMore.
Import Nalco NalcoMore.

Lemma dedupe_from_again (S' S : gset pystr) items :
  S' ⊆ S ->
  dedupe_from S' (dedupe_from S items) = dedupe_from S items.
Proof.
  revert S' S. induction items as [|it items IH]; intros S' S HS; [done|].
  simpl. destruct (PyStr.is_empty (url_key it)) eqn:Ee.
  - simpl. rewrite Ee. f_equal. by apply IH.
  - destruct (bool_decide_reflect (url_key it ∈ S)) as [Hin|Hnin].
    + by apply IH.
    + simpl. rewrite Ee.
      rewrite bool_decide_false by (intros H; apply Hnin, HS, H).
      f_equal. apply IH. by apply union_mono_l.
Qed.

Lemma nonempty_keys_cons it items :
  nonempty_keys (it :: items)
  = if PyStr.is_empty (url_key it) then nonempty_keys items
    else url_key it :: nonempty_keys items.
Proof. unfold nonempty_keys. simpl. by destruct (PyStr.is_empty (url_key it)). Qed.

(** Items whose non-empty keys are new and distinct are all kept. *)
Lemma dedupe_from_distinct (S : gset pystr) items :
  NoDup (nonempty_keys items) ->
  (forall k, k ∈ nonempty_keys items -> k ∉ S) ->
  dedupe_from S items = items.
Proof.
  revert S. induction items as [|it items IH]; intros S Hnd Hnew; [done|].
  rewrite nonempty_keys_cons in Hnd, Hnew. simpl.
  destruct (PyStr.is_empty (url_key it)) eqn:Ee.
  - f_equal. by apply IH.
  - apply NoDup_cons in Hnd as [Hnin Hnd].
    rewrite bool_decide_false by (apply Hnew; by left).
    f_equal. apply IH; [done|].
    intros k Hk [->%elem_of_singleton|HkS]%elem_of_union; [done|].
    apply (Hnew k); [by right|done].
Qed.

(** What is kept has distinct non-empty keys, none of them seen before. *)
Lemma dedupe_from_keys (S : gset pystr) items :
  NoDup (nonempty_keys (dedupe_from S items))
  /\ (forall k, k ∈ nonempty_keys (dedupe_from S items) -> k ∉ S).
Proof.
  revert S. induction items as [|it items IH]; intros S.
  - split; [constructor|intros k []%elem_of_nil].
  - simpl. destruct (PyStr.is_empty (url_key it)) eqn:Ee.
    + rewrite nonempty_keys_cons, Ee. apply IH.
    + destruct (bool_decide_reflect (url_key it ∈ S)) as [Hin|Hnin]; [apply IH|].
      rewrite nonempty_keys_cons, Ee.
      destruct (IH ({[url_key it]} ∪ S)) as [Hnd Hnew]. split.
      * constructor; [|done]. intros Hk. apply (Hnew _ Hk).
        apply elem_of_union_l, elem_of_singleton. done.
      * intros k [->|Hk]%elem_of_cons; [done|].
        intros HkS. apply (Hnew k Hk). by apply elem_of_union_r.
Qed.

Lemma nonempty_keys_submseteq l1 l2 :
  l1 ⊆+ l2 -> nonempty_keys l1 ⊆+ nonempty_keys l2.
Proof.
  induction 1 as [|x l1 l2 _ IH|x y l|x l1 l2 _ IH|l1 l2 l3 _ IH1 _ IH2].
  - done.
  - rewrite !nonempty_keys_cons. destruct (PyStr.is_empty (url_key x)); [done|].
    by constructor.
  - rewrite !nonempty_keys_cons.
    destruct (PyStr.is_empty (url_key x)), (PyStr.is_empty (url_key y)); try done.
    apply submseteq_swap.
  - rewrite nonempty_keys_cons. destruct (PyStr.is_empty (url_key x)); [done|].
    by apply submseteq_cons.
  - by etransitivity.
Qed.

Lemma NoDup_submseteq_inv {A} (l k : list A) : l ⊆+ k -> NoDup k -> NoDup l.
Proof.
  intros [r Hr]%submseteq_Permutation Hk. rewrite Hr in Hk.
  by apply NoDup_app in Hk as [? _].
Qed.

End NalcoDedupeMore.

(** ** More on the sort *)

Section SortingMore.
Context {A : Type} (key : A -> pystr).

(** A list in descending order is left as it is. *)
Lemma sorted_desc_id (l : list A) :
  StronglySorted (desc key) l -> sorted_desc key l = l.
Proof.
  induction 1 as [|x l Hs IH Hx]; [done|]. simpl. rewrite IH.
  destruct l as [|y l]; [done|]. simpl.
  apply Forall_cons in Hx as [Hxy _]. unfold desc in Hxy. by rewrite Hxy.
Qed.

Lemma filter_take_prefix (P : A -> bool) n (l : list A) :
  List.filter P (take n l) `prefix_of` List.filter P l.
Proof.
  revert n. induction l as [|x l IH]; intros [|n]; simpl; try done.
  - apply prefix_nil.
  - destruct (P x); [by apply prefix_cons|done].
Qed.

(** Ranking keeps the items of one key in their order: what is left of
    them after the cut is the beginning of what there was. *)
Lemma ranked_stable k n (l : list A) :
  List.filter (fun y => bool_decide (key y = k)) (take n (sorted_desc key l))
  `prefix_of` List.filter (fun y => bool_decide (key y = k)) l.
Proof. rewrite <-(sorted_desc_stable key k l). apply filter_take_prefix. Qed.

End SortingMore.
(** ** The press loop as a selection *)

Module NalcoPressMore.
Import Nalco NalcoMore.

Lemma safe_request_value L u : (safe_request L u).1 = response_text L u.
Proof. unfold safe_request, response_text. by destruct (requests_get L u). Qed.

Lemma press_item_value L items h :
  (press_item L items h).1
  = if rejected L h then Raise ValueError
    else Ok (items ++ match press_candidate L h with
                      | Some it => [it]
                      | None => []
                      end).
Proof.
  unfold press_item, press_candidate, rejected.
  destruct (h3_a h) as [a|]; [|by rewrite app_nil_r].
  destruct (contains (lit "/pre-rel/") (href a)); simpl;
    [|by rewrite app_nil_r].
  destruct (urljoin L NALCO_PRESS_URL (href a)) as [u|]; simpl; [|done].
  destruct (press_dates L _) as [date_iso ts_iso].
  rewrite pbind_fst, pret_fst, safe_request_value. done.
Qed.

Lemma press_loop_returns L hs items :
  Forall (fun h => rejected L h = false) hs ->
  (press_loop L items hs).1 = Ok (items ++ omap (press_candidate L) hs).
Proof.
  intros H. revert items. induction H as [|h hs Hh _ IH]; intros items.
  - simpl. by rewrite app_nil_r.
  - simpl press_loop. rewrite pbind_fst, press_item_value, Hh, IH.
    simpl omap. destruct (press_candidate L h); simpl.
    + by rewrite <-app_assoc.
    + by rewrite app_nil_r.
Qed.

Lemma press_loop_raises L hs items :
  Exists (fun h => rejected L h = true) hs ->
  (press_loop L items hs).1 = Raise ValueError.
Proof.
  intros H. revert items. induction H as [h hs Hh|h hs _ IH]; intros items.
  - simpl press_loop. by rewrite pbind_fst, press_item_value, Hh.
  - simpl press_loop. rewrite pbind_fst, press_item_value.
    destruct (rejected L h); [done|]. apply IH.
Qed.

Lemma rejected_somewhere L hs :
  Forall (fun h => rejected L h = false) hs
  \/ Exists (fun h => rejected L h = true) hs.
Proof.
  induction hs as [|h hs [IH|IH]]; [by left| |right; by constructor 2].
  destruct (rejected L h) eqn:E; [right; by constructor 1|left; by constructor].
Qed.

Lemma press_loop_inv L hs items out :
  (press_loop L items hs).1 = Ok out ->
  Forall (fun h => rejected L h = false) hs
  /\ out = items ++ omap (press_candidate L) hs.
Proof.
  intros H. destruct (rejected_somewhere L hs) as [Hf|He].
  - split; [done|]. rewrite press_loop_returns in H by done. by injection H.
  - by rewrite press_loop_raises in H.
Qed.

Lemma press_candidate_is_Some L h :
  rejected L h = false ->
  is_Some (press_candidate L h) <-> is_press_release h = true.
Proof.
  unfold press_candidate, is_press_release, rejected.
  destruct (h3_a h) as [a|]; [|split; [by intros [? ?]|done]].
  destruct (contains (lit "/pre-rel/") (href a)); simpl.
  - destruct (urljoin L NALCO_PRESS_URL (href a)) as [u|]; simpl; [|done].
    split; [done|by eexists].
  - split; [by intros [? ?]|done].
Qed.

Lemma omap_length_filter {X Y} (f : X -> option Y) (p : X -> bool) (l : list X) :
  Forall (fun x => is_Some (f x) <-> p x = true) l ->
  length (omap f l) = length (List.filter p l).
Proof.
  induction 1 as [|x l H _ IH]; [done|]. simpl.
  destruct (f x) as [y|] eqn:E.
  - assert (p x = true) as -> by (apply H; by eexists).
    simpl. f_equal. exact IH.
  - destruct (p x) eqn:Ep; [|exact IH].
    destruct H as [_ H]. by destruct (H eq_refl) as [y Hy].
Qed.

Lemma fetch_nalco_press_value L text :
  requests_get L NALCO_PRESS_URL = Body text ->
  (fetch_nalco_press L).1 = (press_loop L [] (select_h3 L text)).1.
Proof.
  intros H. unfold fetch_nalco_press.
  rewrite !pbind_fst, safe_request_value. unfold response_text. rewrite H.
  rewrite !pbind_fst.
  destruct (press_loop L [] (select_h3 L text)).1; [|done].
  by rewrite !pbind_fst, pret_fst.
Qed.

Lemma fetch_nalco_press_listing L text :
  requests_get L NALCO_PRESS_URL = Body text ->
  Forall (fun h => rejected L h = false) (select_h3 L text) ->
  (fetch_nalco_press L).1 = Ok (omap (press_candidate L) (select_h3 L text)).
Proof.
  intros H Hf. rewrite (fetch_nalco_press_value L text H).
  by rewrite press_loop_returns.
Qed.

Lemma fetch_nalco_press_rejects L text :
  requests_get L NALCO_PRESS_URL = Body text ->
  Exists (fun h => rejected L h = true) (select_h3 L text) ->
  (fetch_nalco_press L).1 = Raise ValueError.
Proof.
  intros H He. rewrite (fetch_nalco_press_value L text H).
  by apply press_loop_raises.
Qed.

Lemma fetch_nalco_press_offline L e :
  requests_get L NALCO_PRESS_URL = Failed e ->
  fetch_nalco_press L
  = (Ok [], [INFO_fetching_press; WARN_failed_to_fetch NALCO_PRESS_URL e]).
Proof.
  intros H. unfold fetch_nalco_press, safe_request. rewrite H. reflexivity.
Qed.

Lemma press_candidate_fields L h it :
  press_candidate L h = Some it ->
  length (summary it) <= 300
  /\ ((date it = None /\ timestamp it = None)
      \/ exists dt, date it = Some (PyDate.date_isoformat dt)
                    /\ timestamp it = Some (PyDate.isoformat dt)).
Proof.
  unfold press_candidate. destruct (h3_a h) as [a|]; [|done].
  destruct (negb _); [done|].
  destruct (urljoin L NALCO_PRESS_URL (href a)) as [u|]; simpl; [|done].
  intros [= <-]. simpl. split.
  - destruct (response_text L _); [|simpl; lia].
    destruct (find_p L _); [apply PyStrFacts.slice_to_length|simpl; lia].
  - unfold press_dates. destruct (re_search_date L _) as [s|]; [|by left].
    destruct (strptime L s) as [dt|]; [|by left]. right. by exists dt.
Qed.

Lemma fetch_nalco_press_candidates L a it :
  (fetch_nalco_press L).1 = Ok a -> it ∈ a ->
  exists h, press_candidate L h = Some it.
Proof.
  unfold fetch_nalco_press. rewrite !pbind_fst.
  destruct (safe_request L NALCO_PRESS_URL).1 as [text|];
    [|by intros [= <-] []%elem_of_nil].
  rewrite !pbind_fst.
  destruct (press_loop L [] (select_h3 L text)).1 as [items|e] eqn:E; [|done].
  rewrite !pbind_fst, pret_fst. intros [= <-].
  apply press_loop_inv in E as [_ ->]. simpl.
  intros (h & _ & Hh)%list_elem_of_omap. by exists h.
Qed.

Lemma google_item_dates L r :
  (date (google_item L r) = None /\ timestamp (google_item L r) = None)
  \/ exists dt, date (google_item L r) = Some (PyDate.date_isoformat dt)
                /\ timestamp (google_item L r) = Some (PyDate.isoformat dt).
Proof.
  unfold google_item, google_dates.
  destruct (rss_pubDate r) as [raw|]; [|by left].
  destruct (PyStr.is_empty raw); [by left|].
  destruct (parsedate_to_datetime L raw) as [dt|]; [|by left].
  right. by exists dt.
Qed.

Lemma date_isoformat_prefix dt :
  PyDate.date_isoformat dt `prefix_of` PyDate.isoformat dt.
Proof. unfold PyDate.isoformat. by eexists. Qed.

End NalcoPressMore.
(** ** More on the loops that fill a dictionary *)

Section FirstWinsMore.
Context {X V : Type}
        (keyof : X -> result pystr)
        (build : pystr -> X -> result V).

Local Abbreviation step := (first_wins_step keyof build).

(** Candidates whose keys are all present change nothing. *)
Lemma for_each_all_present xs (d : dict V) :
  (forall x, x ∈ xs -> exists k, keyof x = Ok k /\ k ∈ d.*1) ->
  for_each step xs d = Ok d.
Proof.
  induction xs as [|x xs IH]; intros H; [done|]. simpl.
  destruct (H x) as (k & Hk & Hin); [by left|].
  assert (step d x = Ok d) as Hs.
  { unfold first_wins_step. rewrite Hk. simpl.
    apply dict_has_true in Hin. by rewrite Hin. }
  rewrite Hs. simpl. apply IH. intros y Hy. apply H. by right.
Qed.

(** Going through the same candidates again changes nothing. *)
Lemma for_each_again xs (d : dict V) :
  for_each step xs [] = Ok d -> for_each step xs d = Ok d.
Proof.
  intros (_ & _ & Hall)%first_wins_from_empty.
  by apply for_each_all_present.
Qed.

(** The keys stored are keys of candidates. *)
Lemma for_each_keys xs (d : dict V) k :
  for_each step xs [] = Ok d -> k ∈ d.*1 ->
  exists x, x ∈ xs /\ keyof x = Ok k.
Proof.
  intros (_ & Hfirst & _)%first_wins_from_empty
         ([k' v] & -> & Hin)%list_elem_of_fmap.
  destruct (Hfirst k' v Hin) as (pre & x & post & -> & Hk & _).
  exists x. split; [|done]. apply elem_of_app. right. by left.
Qed.

(** The first candidate the body rejects ends the loop with its
    exception. *)
Lemma for_each_first_failure (P : X -> Prop) pre x post e :
  (forall d y, P y -> exists d', step d y = Ok d') ->
  Forall P pre ->
  (forall d, for_each step pre [] = Ok d -> step d x = Raise e) ->
  for_each step (pre ++ x :: post) [] = Raise e.
Proof.
  intros Hok Hpre Hx. rewrite for_each_app.
  destruct (for_each_total step P pre [] Hok Hpre) as [d Hd].
  rewrite Hd. simpl. by rewrite (Hx d Hd).
Qed.

End FirstWinsMore.

Module LocalMore.
Import Local.

(** An entry with a new link whose [published_parsed] is there but is
    [None] ends the run with a [TypeError]. *)
Lemma local_none_date_raises parse now pre e post l :
  entries parse = pre ++ e :: post ->
  Forall well_formed pre ->
  link e = Some l ->
  (forall y, y ∈ pre -> link y <> Some l) ->
  published_parsed e = IsNone ->
  collect parse now = Raise TypeError.
Proof.
  intros E Hpre Hl Hnew Hp. rewrite LocalFacts.collect_entries, E.
  apply (for_each_first_failure _ _ well_formed); [|done|].
  - intros d y. apply LocalFailure.well_formed_step.
  - intros d Hd. unfold first_wins_step, entry_key, entry_item. rewrite Hl. simpl.
    destruct (dict_has l d) eqn:Eh.
    + apply dict_has_true in Eh.
      destruct (for_each_keys _ _ pre d l Hd Eh) as (y & Hy & Hk).
      exfalso. apply (Hnew y Hy). unfold entry_key in Hk.
      destruct (link y); simpl in Hk; congruence.
    + unfold published. by rewrite Hp.
Qed.

Lemma local_collect_again parse now d :
  collect parse now = Ok d ->
  for_each (keyword_step parse now) KEYWORDS d = Ok d.
Proof.
  rewrite LocalFacts.collect_entries. intros H%for_each_again.
  change (for_each (keyword_step parse now) KEYWORDS d)
    with (for_each (fun s key => for_each (entry_step now)
                                          (parse (search_url key)) s)
                   KEYWORDS d).
  rewrite (for_each_concat (entry_step now)).
  rewrite <-H. apply for_each_ext, LocalFacts.local_entry_step_first_wins.
Qed.

End LocalMore.

Module PsuMore2.
Import Psu PsuMore.

Lemma psu_collect_again quote_plus parse now d :
  collect quote_plus parse now = Ok d ->
  for_each (google_category_step quote_plus parse now) GOOGLE_FEEDS d
    ≫= for_each (official_category_step parse now) OFFICIAL_RSS
  = Ok d.
Proof.
  rewrite PsuFacts.collect_candidates.
  intros (_ & _ & Hall)%first_wins_from_empty.
  assert (for_each (google_category_step quote_plus parse now) GOOGLE_FEEDS d = Ok d)
    as ->.
  { transitivity (for_each (first_wins_step candidate_key (candidate_item now))
                           (google_candidates quote_plus parse) d).
    - unfold google_candidates.
      rewrite <-for_each_concat. apply for_each_ext. intros d1 c.
      change (google_category_step quote_plus parse now d1 c)
        with (for_each (google_key_step quote_plus parse now c.1) c.2 d1).
      rewrite <-for_each_concat.
      apply for_each_ext. intros d' key.
      change (google_key_step quote_plus parse now c.1 d' key)
        with (for_each (entry_step now c.1 (lit "Google News") (lit "google"))
                       (parse (search_url quote_plus key)) d').
      apply PsuFacts.entries_loop.
    - apply for_each_all_present. intros x Hx. apply Hall.
      apply elem_of_app. by left. }
  change (for_each (official_category_step parse now) OFFICIAL_RSS d = Ok d).
  rewrite PsuFacts.official_loop.
  apply for_each_all_present. intros x Hx. apply Hall.
  apply elem_of_app. by right.
Qed.

Lemma google_candidates_category quote_plus parse c :
  c ∈ google_candidates quote_plus parse ->
  c_category c ∈ google_categories.
Proof.
  unfold google_candidates, google_categories.
  intros (cat & Hcat & (key & _ & Hc)%elem_of_concat_map)%elem_of_concat_map.
  apply list_elem_of_fmap in Hc as (e & -> & _).
  change (cat.1 ∈ GOOGLE_FEEDS.*1).
  apply list_elem_of_fmap. by exists cat.
Qed.

Lemma official_candidates_provenance parse c :
  c ∈ official_candidates parse ->
  c_source_type c = lit "official"
  /\ (c_category c, c_source c) ∈ official_sources.
Proof.
  unfold official_candidates, official_sources.
  intros (cat & Hcat & (f & Hf & Hc)%elem_of_concat_map)%elem_of_concat_map.
  apply list_elem_of_fmap in Hc as (e & -> & _). split; [done|].
  change ((cat.1, f.1) ∈ concat (map (fun c : pystr * list (pystr * pystr) =>
                 map (fun f : pystr * pystr => (c.1, f.1)) c.2) OFFICIAL_RSS)).
  apply elem_of_concat_map. exists cat. split; [done|].
  apply list_elem_of_fmap. by exists f.
Qed.

(** The candidate an item of the dictionary was built from. *)
Lemma psu_item_candidate quote_plus parse now d it :
  collect quote_plus parse now = Ok d ->
  it ∈ dict_values d ->
  exists c, c ∈ candidates quote_plus parse
            /\ candidate_key c = Ok (url it)
            /\ candidate_item now (url it) c = Ok it.
Proof.
  intros (_ & Hfirst & _)%PsuCollect.psu_collect_first_wins Hit.
  destruct (Hfirst it Hit) as (pre & c & post & E & Hk & _ & Hb).
  exists c. split_and!; [|done..]. rewrite E. apply elem_of_app. right. by left.
Qed.

End PsuMore2.
(** ** More on the tag pattern *)

Module NalcoTextMore.
Import Nalco NalcoMore.

(** Stripping the tags only deletes characters. *)
Lemma strip_tags_sublist s : strip_tags s `sublist_of` s.
Proof.
  remember (length s) as m eqn:Hm. revert s Hm.
  induction m as [m IH] using lt_wf_ind. intros s ->.
  destruct s as [|c s]; [done|].
  rewrite NalcoText.strip_tags_cons.
  assert (strip_tags s `sublist_of` s) as Hs by (apply (IH (length s)); simpl; lia).
  destruct (c =? 60)%N; [|by constructor].
  destruct (tag_match s) as [rest|] eqn:E; [|by constructor].
  pose proof (NalcoText.tag_match_shorter _ _ E) as Hlen.
  apply NalcoText.tag_match_suffix in E as [k ->].
  apply sublist_cons, sublist_inserts_l.
  apply (IH (length rest)); [|done]. simpl. rewrite length_app. lia.
Qed.

Lemma well_taggedb_spec s : well_taggedb s = true -> well_tagged s.
Proof.
  induction s as [|c s IH]; intros H pre post E.
  - by destruct pre.
  - simpl in H. apply andb_true_iff in H as [Hc Hs].
    destruct pre as [|x pre]; simpl in E; injection E as -> ->.
    + simpl in Hc. by apply bool_decide_eq_true in Hc.
    + by apply (IH Hs pre post).
Qed.

End NalcoTextMore.
(** ** The feed scripts when a call of [feedparser.parse] can raise *)

Section ForEachIn.
Context {S X : Type}.

Lemma for_each_ext_in (f g : S -> X -> result S) xs s :
  (forall s x, x ∈ xs -> f s x = g s x) ->
  for_each f xs s = for_each g xs s.
Proof.
  revert s. induction xs as [|x xs IH]; intros s H; simpl; [done|].
  rewrite H by (by left). destruct (g s x); simpl; [|done].
  apply IH. intros s' y Hy. apply H. by right.
Qed.

(** Elements at which the body does nothing can be left out. *)
Lemma for_each_skip (body : S -> X -> result S) (keep : X -> bool) xs s :
  (forall s x, x ∈ xs -> keep x = false -> body s x = Ok s) ->
  for_each body xs s = for_each body (List.filter keep xs) s.
Proof.
  revert s. induction xs as [|x xs IH]; intros s H; [done|].
  assert (forall s, for_each body xs s = for_each body (List.filter keep xs) s)
    as IH'.
  { intros s'. apply IH. intros s'' y Hy. apply H. by right. }
  simpl. destruct (keep x) eqn:E; simpl.
  - destruct (body s x); simpl; [apply IH'|done].
  - rewrite (H s x) by (done || by left). simpl. apply IH'.
Qed.

End ForEachIn.

(** A loop over feeds: each is fetched, then its entries are gone
    through; nothing catches what the fetch raises. *)
Section Fetching.
Context {S C X : Type}
        (fetch : C -> result (list X))
        (body : C -> S -> X -> result S)
        (step : S -> C -> result S)
        (Hstep : forall s c,
            step s c = fetch c ≫= fun xs => for_each (body c) xs s).

Lemma fetching_call_raises cs c e s :
  c ∈ cs -> fetch c = Raise e -> exists e', for_each step cs s = Raise e'.
Proof.
  intros Hc He. eapply for_each_raises; [exact Hc|].
  intros s'. exists e. by rewrite Hstep, He.
Qed.

Lemma fetching_ok cs s s' :
  for_each step cs s = Ok s' ->
  forall c, c ∈ cs -> exists xs, fetch c = Ok xs.
Proof.
  intros H c Hc. destruct (fetch c) as [xs|e] eqn:E; [by exists xs|].
  destruct (fetching_call_raises cs c e s Hc E) as [e' He']. congruence.
Qed.

Lemma fetching_visited_raises cs c x s :
  (c, x) ∈ visited fetch cs ->
  (forall s, exists e, body c s x = Raise e) ->
  exists e, for_each step cs s = Raise e.
Proof.
  intros Hv Hx. revert s. induction cs as [|c' cs IH]; intros s.
  - by apply elem_of_nil in Hv.
  - simpl in Hv. simpl. rewrite Hstep.
    destruct (fetch c') as [xs|e]; simpl; [|by apply elem_of_nil in Hv].
    apply elem_of_app in Hv as [Hv|Hv].
    + apply list_elem_of_fmap in Hv as (x' & [= -> ->] & Hx').
      destruct (for_each_raises (body c') xs x' s Hx' Hx) as [e ->].
      by exists e.
    + destruct (for_each (body c') xs s) as [s'|e]; simpl;
        [by apply IH|by exists e].
Qed.

Lemma fetching_total (P : X -> Prop) cs s :
  (forall c s x, P x -> exists s', body c s x = Ok s') ->
  (forall c, c ∈ cs -> exists xs, fetch c = Ok xs /\ Forall P xs) ->
  exists s', for_each step cs s = Ok s'.
Proof.
  intros Hb H. revert s.
  induction cs as [|c cs IH]; intros s; simpl; [by exists s|].
  destruct (H c) as (xs & Hf & Hxs); [by left|].
  rewrite Hstep, Hf. simpl.
  destruct (for_each_total (body c) P xs s (Hb c) Hxs) as [s' ->]. simpl.
  apply IH. intros c' Hc'. apply H. by right.
Qed.

Lemma fetching_returned cs s :
  (forall c, c ∈ cs -> exists xs, fetch c = Ok xs) ->
  for_each step cs s
  = for_each (fun s c => for_each (body c) (returned fetch c) s) cs s.
Proof.
  intros H. apply for_each_ext_in. intros s' c Hc.
  rewrite Hstep. unfold returned. by destruct (H c Hc) as [xs ->].
Qed.

Lemma visited_returned cs :
  (forall c, c ∈ cs -> exists xs, fetch c = Ok xs) ->
  visited fetch cs
  = concat (map (fun c => map (pair c) (returned fetch c)) cs).
Proof.
  induction cs as [|c cs IH]; intros H; [done|]. simpl.
  unfold returned at 1. destruct (H c) as [xs ->]; [by left|].
  f_equal. apply IH. intros c' Hc'. apply H. by right.
Qed.

(** A feed without entries is as good as no feed. *)
Lemma fetching_skip (keep : C -> bool) cs s :
  (forall c, c ∈ cs -> keep c = false -> fetch c = Ok []) ->
  for_each step cs s = for_each step (List.filter keep cs) s.
Proof.
  intros H. apply for_each_skip. intros s' c Hc Hk.
  by rewrite Hstep, (H c Hc Hk).
Qed.

End Fetching.

Lemma concat_map_concat {A B} (f : A -> list B) (l : list (list A)) :
  concat (map f (concat l)) = concat (map (fun x => concat (map f x)) l).
Proof.
  induction l as [|x l IH]; [done|]. simpl.
  by rewrite map_app, concat_app, IH.
Qed.

Module LocalScript.
Import Local.

Section Script.
Context (feedparser_parse : pystr -> result (list entry))
        (now : PyDate.datetime).

Local Abbreviation fetch := (fun key => feedparser_parse (search_url key)).
Local Abbreviation body := (fun _ : pystr => entry_step now).
Local Abbreviation step := (fetch_step feedparser_parse now).

Lemma local_fetch_step s key :
  step s key = fetch key ≫= fun xs => for_each (body key) xs s.
Proof. reflexivity. Qed.

Lemma local_gather_total :
  (forall key, key ∈ KEYWORDS ->
     exists es, feedparser_parse (search_url key) = Ok es
                /\ Forall well_formed es) ->
  exists d, gather feedparser_parse now = Ok d.
Proof.
  intros H. unfold gather.
  apply (fetching_total fetch body step local_fetch_step well_formed); [|done].
  intros _ s e He. rewrite LocalFacts.local_entry_step_first_wins.
  by apply LocalFailure.well_formed_step.
Qed.

Lemma local_gather_missing_link e :
  e ∈ visited_entries feedparser_parse -> link e = None ->
  exists x, gather feedparser_parse now = Raise x.
Proof.
  unfold visited_entries.
  intros ([key e'] & -> & Hv)%list_elem_of_fmap Hl. simpl in Hl.
  apply (fetching_visited_raises fetch body step local_fetch_step _ key e');
    [done|].
  intros s. rewrite LocalFacts.local_entry_step_first_wins.
  by apply LocalFailure.missing_link_step.
Qed.

Lemma local_gather_call_raises key e :
  key ∈ KEYWORDS -> feedparser_parse (search_url key) = Raise e ->
  exists e', gather feedparser_parse now = Raise e'.
Proof.
  intros Hk He.
  by apply (fetching_call_raises fetch body step local_fetch_step _ key e).
Qed.

Lemma local_gather_answered d :
  gather feedparser_parse now = Ok d ->
  forall key, key ∈ KEYWORDS ->
    exists es, feedparser_parse (search_url key) = Ok es.
Proof.
  intros H key Hk.
  by apply (fetching_ok fetch body step local_fetch_step KEYWORDS [] d).
Qed.

(** When every call returns, the script is the run on what the calls
    returned. *)
Lemma local_gather_returned :
  (forall key, key ∈ KEYWORDS ->
     exists es, feedparser_parse (search_url key) = Ok es) ->
  gather feedparser_parse now = collect (returned feedparser_parse) now.
Proof.
  intros H. unfold collect, gather. apply for_each_ext_in. intros s key Hk.
  unfold fetch_step, returning, returned. by destruct (H key Hk) as [es ->].
Qed.

Lemma local_gather_collect d :
  gather feedparser_parse now = Ok d ->
  collect (returned feedparser_parse) now = Ok d.
Proof.
  intros H. rewrite <-local_gather_returned; [done|].
  by apply (local_gather_answered d).
Qed.

Lemma local_run_returned fs :
  (forall key, key ∈ KEYWORDS ->
     exists es, feedparser_parse (search_url key) = Ok es) ->
  run feedparser_parse now fs = main (returned feedparser_parse) now fs.
Proof. intros H. unfold run, main. by rewrite local_gather_returned. Qed.

Lemma local_visited_returned :
  (forall key, key ∈ KEYWORDS ->
     exists es, feedparser_parse (search_url key) = Ok es) ->
  visited_entries feedparser_parse = entries (returned feedparser_parse).
Proof.
  intros H. unfold visited_entries, entries.
  rewrite (visited_returned fetch KEYWORDS H).
  generalize KEYWORDS. intros l. induction l as [|k l IH]; [done|].
  simpl. rewrite fmap_app, IH. f_equal.
  rewrite <-list_fmap_compose. apply list_fmap_id.
Qed.

Lemma local_run_raised fs :
  raised (run feedparser_parse now fs)
  = match gather feedparser_parse now with
    | Raise e => Some e
    | Ok _ => if open_ok fs && dump_ok fs then print_raises fs else Some OSError
    end.
Proof.
  unfold run. destruct (gather feedparser_parse now) as [d|e]; simpl; [|done].
  apply write_file_raised.
Qed.

Lemma local_run_written fs doc :
  snapshot (run feedparser_parse now fs) = Written doc ->
  exists d, gather feedparser_parse now = Ok d /\ items doc = rank d.
Proof.
  unfold run. destruct (gather feedparser_parse now) as [d|e]; simpl; [|done].
  intros ->%write_file_written. by exists d.
Qed.

Lemma local_run_snapshot fs d :
  gather feedparser_parse now = Ok d ->
  open_ok fs = true -> dump_ok fs = true ->
  snapshot (run feedparser_parse now fs)
  = Written {| items := rank d; last_updated_utc := PyDate.isoformat now |}.
Proof.
  intros Hd Ho Hw. unfold run. rewrite Hd.
  by rewrite write_file_snapshot, Ho, Hw.
Qed.

Lemma local_run_stdout fs :
  stdout (run feedparser_parse now fs) = []
  \/ exists n, stdout (run feedparser_parse now fs) = [Local_news_updated n].
Proof.
  unfold run. destruct (gather feedparser_parse now) as [d|e]; [|by left].
  unfold write_file.
  destruct (open_ok fs), (dump_ok fs), (print_raises fs); simpl;
    try (by left). right. by eexists.
Qed.

End Script.
End LocalScript.

Module PsuScript.
Import Psu.

Section Script.
Context (quote_plus : pystr -> pystr)
        (feedparser_parse : pystr -> result (list entry))
        (now : PyDate.datetime).

Local Abbreviation fetch := (fun c => feedparser_parse (call_url c)).
Local Abbreviation body :=
  (fun c => entry_step now (call_category c) (call_source c)
                       (call_source_type c)).
Local Abbreviation step := (call_step feedparser_parse now).
Local Abbreviation candidate_of :=
  (fun c => mk_candidate (call_category c) (call_source c)
                         (call_source_type c)).

Lemma psu_call_step s c :
  step s c = fetch c ≫= fun xs => for_each (body c) xs s.
Proof. reflexivity. Qed.

(** The nested loops are one loop over the calls. *)
Lemma psu_gather_calls :
  gather quote_plus feedparser_parse now
  = for_each step (calls quote_plus) [].
Proof.
  unfold gather, calls. rewrite for_each_app.
  assert (forall d,
            for_each (google_fetch_category quote_plus feedparser_parse now)
                     GOOGLE_FEEDS d
            = for_each step (google_calls quote_plus) d) as Hg.
  { intros d. unfold google_calls. rewrite <-for_each_concat.
    apply for_each_ext. intros d1 c. unfold google_fetch_category.
    rewrite <-for_each_map. apply for_each_ext. intros d2 key. reflexivity. }
  assert (forall d,
            for_each (official_fetch_category feedparser_parse now)
                     OFFICIAL_RSS d
            = for_each step official_calls d) as Ho.
  { intros d. unfold official_calls. rewrite <-for_each_concat.
    apply for_each_ext. intros d1 c. unfold official_fetch_category.
    rewrite <-for_each_map. apply for_each_ext. intros d2 f. reflexivity. }
  rewrite Hg.
  destruct (for_each step (google_calls quote_plus) []); simpl; [apply Ho|done].
Qed.

Lemma psu_gather_total :
  (forall c, c ∈ calls quote_plus ->
     exists es, feedparser_parse (call_url c) = Ok es
                /\ Forall well_formed es) ->
  exists d, gather quote_plus feedparser_parse now = Ok d.
Proof.
  intros H. rewrite psu_gather_calls.
  apply (fetching_total fetch body step psu_call_step well_formed); [|done].
  intros c s e He. rewrite PsuFacts.psu_entry_step_first_wins.
  by apply PsuFailure.psu_well_formed_step.
Qed.

Lemma psu_gather_missing_link c :
  c ∈ visited_candidates quote_plus feedparser_parse ->
  link (c_entry c) = None ->
  exists x, gather quote_plus feedparser_parse now = Raise x.
Proof.
  unfold visited_candidates.
  intros ([k e] & -> & Hv)%list_elem_of_fmap Hl. simpl in Hl.
  rewrite psu_gather_calls.
  apply (fetching_visited_raises fetch body step psu_call_step _ k e); [done|].
  intros s. rewrite PsuFacts.psu_entry_step_first_wins.
  by apply PsuFailure.psu_missing_link_step.
Qed.

Lemma psu_gather_call_raises c e :
  c ∈ calls quote_plus -> feedparser_parse (call_url c) = Raise e ->
  exists e', gather quote_plus feedparser_parse now = Raise e'.
Proof.
  intros Hc He. rewrite psu_gather_calls.
  by apply (fetching_call_raises fetch body step psu_call_step _ c e).
Qed.

Lemma psu_candidates_calls (parse : pystr -> list entry) :
  candidates quote_plus parse
  = concat (map (fun c => map (candidate_of c) (parse (call_url c)))
                (calls quote_plus)).
Proof.
  unfold candidates, calls. rewrite map_app, concat_app. f_equal.
  - unfold google_candidates, google_calls.
    rewrite concat_map_concat, map_map. f_equal.
  - unfold official_candidates, official_calls.
    rewrite concat_map_concat, map_map. f_equal.
Qed.

(** When every call returns, the script is the run on what the calls
    returned. *)
Lemma psu_gather_returned :
  (forall c, c ∈ calls quote_plus ->
     exists es, feedparser_parse (call_url c) = Ok es) ->
  gather quote_plus feedparser_parse now
  = collect quote_plus (returned feedparser_parse) now.
Proof.
  intros H. rewrite psu_gather_calls, PsuFacts.collect_candidates.
  rewrite (fetching_returned fetch body step psu_call_step _ _ H).
  rewrite psu_candidates_calls, <-for_each_concat.
  apply for_each_ext. intros d c. apply PsuFacts.entries_loop.
Qed.

Lemma psu_gather_collect d :
  gather quote_plus feedparser_parse now = Ok d ->
  collect quote_plus (returned feedparser_parse) now = Ok d.
Proof.
  intros H. rewrite <-psu_gather_returned; [done|].
  rewrite psu_gather_calls in H.
  by apply (fetching_ok fetch body step psu_call_step _ [] d).
Qed.

Lemma psu_run_returned fs :
  (forall c, c ∈ calls quote_plus ->
     exists es, feedparser_parse (call_url c) = Ok es) ->
  run quote_plus feedparser_parse now fs
  = main quote_plus (returned feedparser_parse) now fs.
Proof. intros H. unfold run, main. by rewrite psu_gather_returned. Qed.

Lemma psu_run_raised fs :
  raised (run quote_plus feedparser_parse now fs)
  = match gather quote_plus feedparser_parse now with
    | Raise e => Some e
    | Ok _ => if makedirs_ok fs && open_ok fs && dump_ok fs
              then print_raises fs else Some OSError
    end.
Proof.
  unfold run.
  destruct (gather quote_plus feedparser_parse now) as [d|e]; simpl; [|done].
  destruct (makedirs_ok fs); simpl; [|done].
  apply write_file_raised.
Qed.

Lemma psu_run_written fs doc :
  snapshot (run quote_plus feedparser_parse now fs) = Written doc ->
  exists d, gather quote_plus feedparser_parse now = Ok d
            /\ items doc = rank d.
Proof.
  unfold run.
  destruct (gather quote_plus feedparser_parse now) as [d|e]; simpl; [|done].
  destruct (makedirs_ok fs); simpl; [|done].
  intros ->%write_file_written. by exists d.
Qed.

Lemma psu_run_snapshot fs d :
  gather quote_plus feedparser_parse now = Ok d ->
  makedirs_ok fs = true -> open_ok fs = true -> dump_ok fs = true ->
  snapshot (run quote_plus feedparser_parse now fs)
  = Written {| items := rank d; last_updated_utc := PyDate.isoformat now |}.
Proof.
  intros Hd Hm Ho Hw. unfold run. rewrite Hd, Hm. simpl.
  by rewrite write_file_snapshot, Ho, Hw.
Qed.

Lemma psu_run_stdout fs :
  stdout (run quote_plus feedparser_parse now fs) = []
  \/ exists n, stdout (run quote_plus feedparser_parse now fs)
               = [PSU_news_updated n].
Proof.
  unfold run.
  destruct (gather quote_plus feedparser_parse now) as [d|e]; [|by left].
  destruct (makedirs_ok fs); simpl; [|by left].
  unfold write_file.
  destruct (open_ok fs), (dump_ok fs), (print_raises fs); simpl;
    try (by left). right. by eexists.
Qed.

End Script.
End PsuScript.

(** ** The empty key of a dictionary *)

Section EmptyKey.
Context {X V : Type}
        (keyof : X -> result pystr)
        (build : pystr -> X -> result V)
        (url : V -> pystr).

Lemma first_wins_empty_key xs vs :
  first_wins_result keyof build url xs vs ->
  length (List.filter (fun v => PyStr.is_empty (url v)) vs) <= 1
  /\ (forall v, v ∈ vs -> url v = [] -> first_of keyof build xs [] v)
  /\ ((exists x, x ∈ xs /\ keyof x = Ok []) ->
      length (List.filter (fun v => PyStr.is_empty (url v)) vs) = 1).
Proof.
  intros (Hnd & Hfirst & Hall).
  assert (length (List.filter (fun v => PyStr.is_empty (url v)) vs) <= 1) as Hle.
  { apply (NoDup_filter_key_length url _ []); [|done].
    intros a. by destruct (url a). }
  split_and!; [done| |].
  - intros v Hv Hu. specialize (Hfirst v Hv). by rewrite Hu in Hfirst.
  - intros (x & Hx & Hk). specialize (Hall x [] Hx Hk).
    apply list_elem_of_fmap in Hall as (v & Hu & Hv).
    assert (In v (List.filter (fun v => PyStr.is_empty (url v)) vs)) as Hin.
    { apply filter_In. split; [by apply list_elem_of_In|]. by rewrite <-Hu. }
    destruct (List.filter (fun v => PyStr.is_empty (url v)) vs) as [|a [|b l]];
      [done|done|simpl in Hle; lia].
Qed.

End EmptyKey.
(** * The claims *)

(** ** C1: one item per URL, the first one *)

(** C1, as worded, fails: [dedupe_items] compares the URLs with the
    surrounding whitespace removed but stores them as they came, so of the
    URL values ["a"], ["a "], ["a "] only the first item survives and no
    item with the URL value ["a "] is left, although two candidates
    carry it. *)
Lemma one_item_per_url_value_fails :
  ~ Worded.one_item_per_url
      [Examples.bare "a"; Examples.bare "a "; Examples.bare "a "]
      (Nalco.dedupe_items
         [Examples.bare "a"; Examples.bare "a "; Examples.bare "a "]).
Proof.
  intros H. destruct (H (lit "a ")) as (it & Hout & _).
  - done.
  - vm_compute. apply list_elem_of_In. simpl. auto.
  - vm_compute in Hout. discriminate Hout.
Qed.

(** C1, amended: after deduplication exactly one item survives per
    distinct non-empty key, and it is the first candidate of that key in
    arrival order, with its fields.  The key is the URL without surrounding
    whitespace in [fetch_nalco_news.py], the link as delivered in
    [fetch_local_news.py], the stripped link in [fetch_psu_news.py].  The
    ranked items written to the snapshot are among the survivors. *)
Theorem first_occurrence_survives :
  (forall (items : list Nalco.item) (k : pystr),
      k <> [] ->
      List.filter (Nalco.has_key k) (Nalco.dedupe_items items)
      = take 1 (List.filter (Nalco.has_key k) items))
  /\ (forall L, Nalco.ranked L ⊆+ Nalco.dedupe_items (Nalco.fetched L))
  /\ (forall parse now d,
        Local.collect parse now = Ok d ->
        first_wins_result Local.entry_key (Local.entry_item now) Local.url
                          (Local.entries parse) (dict_values d)
        /\ Local.rank d ⊆+ dict_values d)
  /\ (forall quote_plus parse now d,
        Psu.collect quote_plus parse now = Ok d ->
        first_wins_result Psu.candidate_key (Psu.candidate_item now) Psu.url
                          (Psu.candidates quote_plus parse) (dict_values d)
        /\ Psu.rank d ⊆+ dict_values d).
Proof.
  split_and!.
  - intros items k Hk. by apply NalcoDedupe.dedupe_items_first.
  - intros. apply ranked_submseteq.
  - intros parse now d Hd. split.
    + by apply LocalCollect.local_collect_first_wins.
    + apply ranked_submseteq.
  - intros quote_plus parse now d Hd. split.
    + by apply PsuCollect.psu_collect_first_wins.
    + apply ranked_submseteq.
Qed.

Lemma first_occurrence_survives_witness :
  (lit "a" <> []
   /\ List.filter (Nalco.has_key (lit "a"))
        (Nalco.dedupe_items
           [Examples.bare "a"; Examples.bare "b"; Examples.bare "a "])
      = take 1 (List.filter (Nalco.has_key (lit "a"))
           [Examples.bare "a"; Examples.bare "b"; Examples.bare "a "]))
  /\ (Local.collect Examples.local_feeds Examples.now = Ok Examples.local_dict
      /\ first_wins_result Local.entry_key (Local.entry_item Examples.now)
           Local.url (Local.entries Examples.local_feeds)
           (dict_values Examples.local_dict))
  /\ (Psu.collect Examples.quote_plus Examples.psu_feeds Examples.now
      = Ok Examples.psu_dict
      /\ first_wins_result Psu.candidate_key (Psu.candidate_item Examples.now)
           Psu.url (Psu.candidates Examples.quote_plus Examples.psu_feeds)
           (dict_values Examples.psu_dict)).
Proof.
  destruct first_occurrence_survives as (Hn & _ & Hl & Hp).
  refine (conj (conj _ _) (conj (conj _ _) (conj _ _))).
  - done.
  - apply Hn. done.
  - vm_compute. reflexivity.
  - refine (proj1 (Hl _ _ Examples.local_dict _)). vm_compute. reflexivity.
  - vm_compute. reflexivity.
  - refine (proj1 (Hp _ _ _ Examples.psu_dict _)). vm_compute. reflexivity.
Defined.

(** ** C4: the snapshot is bounded *)

(** C4: whatever the sources deliver, a written snapshot holds at most 40
    items in [fetch_nalco_news.py] and [fetch_psu_news.py] and at most 25
    in [fetch_local_news.py]: the smaller of the bound and the number of
    deduplicated candidates. *)
Theorem snapshot_size_bounded :
  (forall L fs doc,
      snapshot (Nalco.main L fs) = Written doc ->
      length (Nalco.items doc) <= 40
      /\ length (Nalco.items doc)
         = min 40 (length (Nalco.dedupe_items (Nalco.fetched L)))
      /\ Nalco.count doc = length (Nalco.items doc))
  /\ (forall parse now fs doc,
        snapshot (Local.main parse now fs) = Written doc ->
        length (Local.items doc) <= 25
        /\ exists d, Local.collect parse now = Ok d
                     /\ length (Local.items doc) = min 25 (length d))
  /\ (forall quote_plus parse now fs doc,
        snapshot (Psu.main quote_plus parse now fs) = Written doc ->
        length (Psu.items doc) <= 40
        /\ exists d, Psu.collect quote_plus parse now = Ok d
                     /\ length (Psu.items doc) = min 40 (length d)).
Proof.
  split_and!.
  - intros L fs doc [Hi Hc]%NalcoRun.nalco_main_written.
    rewrite Hc, Hi. unfold Nalco.ranked. rewrite ranked_length.
    unfold Nalco.max_items. split_and!; [lia|done|done].
  - intros parse now fs doc (d & Hd & Hi)%LocalRun.local_main_written.
    rewrite Hi. unfold Local.rank. rewrite ranked_length.
    unfold Local.MAX_ITEMS, dict_values. rewrite length_fmap.
    split; [lia|]. by exists d.
  - intros quote_plus parse now fs doc (d & Hd & Hi)%PsuRun.psu_main_written.
    rewrite Hi. unfold Psu.rank. rewrite ranked_length.
    unfold Psu.MAX_ITEMS, dict_values. rewrite length_fmap.
    split; [lia|]. by exists d.
Qed.

Lemma snapshot_size_bounded_witness :
  (snapshot (Nalco.main (Examples.libraries Examples.feed_of_three) Examples.fs_fine)
   = Written Examples.nalco_doc
   /\ length (Nalco.items Examples.nalco_doc) <= 40)
  /\ (snapshot (Local.main (Examples.one_feed Examples.koraput Examples.thirty)
                           Examples.now Examples.fs_fine)
      = Written Examples.local_thirty_doc
      /\ length (Local.items Examples.local_thirty_doc) <= 25)
  /\ (snapshot (Psu.main Examples.quote_plus Examples.psu_feeds Examples.now
                         Examples.fs_fine)
      = Written Examples.psu_doc
      /\ length (Psu.items Examples.psu_doc) <= 40).
Proof.
  destruct snapshot_size_bounded as (Hn & Hl & Hp).
  assert (snapshot (Nalco.main (Examples.libraries Examples.feed_of_three)
                               Examples.fs_fine)
          = Written Examples.nalco_doc) as Rn by (vm_compute; reflexivity).
  assert (snapshot (Local.main (Examples.one_feed Examples.koraput Examples.thirty)
                               Examples.now Examples.fs_fine)
          = Written Examples.local_thirty_doc) as Rl by (vm_compute; reflexivity).
  assert (snapshot (Psu.main Examples.quote_plus Examples.psu_feeds Examples.now
                             Examples.fs_fine)
          = Written Examples.psu_doc) as Rp by (vm_compute; reflexivity).
  exact (conj (conj Rn (proj1 (Hn _ _ _ Rn)))
          (conj (conj Rl (proj1 (Hl _ _ _ _ Rl)))
                (conj Rp (proj1 (Hp _ _ _ _ _ Rp))))).
Defined.

(** ** C5: items with an empty URL *)

(** C5, as worded, fails in [fetch_psu_news.py]: the stripped link is the
    dictionary key, also when it is empty, so of two entries with an empty
    link only the first becomes an item. *)
Lemma empty_links_are_merged :
  Psu.collect Examples.quote_plus
    (Examples.one_feed Examples.nalco_psu
       [Examples.empty_link_1; Examples.empty_link_2])
    Examples.now
  = Ok [ ([], {| Psu.title := lit "First notice"; Psu.url := [];
                 Psu.date := lit "2024-01-05T12:00:00+00:00";
                 Psu.category := lit "PSU";
                 Psu.source := lit "Google News";
                 Psu.source_type := lit "google" |}) ]
  /\ length (Psu.candidates Examples.quote_plus
               (Examples.one_feed Examples.nalco_psu
                  [Examples.empty_link_1; Examples.empty_link_2])) = 2.
Proof. split; vm_compute; reflexivity. Qed.

(** C5, amended: in [fetch_nalco_news.py] the items whose URL is empty
    once stripped are never deduplicated, all of them are kept in their
    order.  In [fetch_local_news.py] and [fetch_psu_news.py] the link (in
    the latter the stripped link) is the dictionary key also when it is
    empty: at most one item with an empty URL is kept, it is the item
    built from the first entry whose key is empty, and there is exactly
    one as soon as some entry has an empty key. *)
Theorem empty_url_items :
  (forall items : list Nalco.item,
      List.filter (Nalco.has_key []) (Nalco.dedupe_items items)
      = List.filter (Nalco.has_key []) items)
  /\ (forall parse now d,
        Local.collect parse now = Ok d ->
        length (List.filter (fun it => PyStr.is_empty (Local.url it))
                            (dict_values d)) <= 1
        /\ (forall it, it ∈ dict_values d -> Local.url it = [] ->
              first_of Local.entry_key (Local.entry_item now)
                       (Local.entries parse) [] it)
        /\ ((exists e, e ∈ Local.entries parse /\ Local.entry_key e = Ok []) ->
            length (List.filter (fun it => PyStr.is_empty (Local.url it))
                                (dict_values d)) = 1))
  /\ (forall quote_plus parse now d,
        Psu.collect quote_plus parse now = Ok d ->
        length (List.filter (fun it => PyStr.is_empty (Psu.url it))
                            (dict_values d)) <= 1
        /\ (forall it, it ∈ dict_values d -> Psu.url it = [] ->
              first_of Psu.candidate_key (Psu.candidate_item now)
                       (Psu.candidates quote_plus parse) [] it)
        /\ ((exists c, c ∈ Psu.candidates quote_plus parse
                       /\ Psu.candidate_key c = Ok []) ->
            length (List.filter (fun it => PyStr.is_empty (Psu.url it))
                                (dict_values d)) = 1)).
Proof.
  split_and!.
  - apply NalcoDedupe.dedupe_items_empty.
  - intros parse now d Hd%LocalCollect.local_collect_first_wins.
    by apply (first_wins_empty_key Local.entry_key (Local.entry_item now)
                Local.url (Local.entries parse)).
  - intros quote_plus parse now d Hd%PsuCollect.psu_collect_first_wins.
    by apply (first_wins_empty_key Psu.candidate_key (Psu.candidate_item now)
                Psu.url (Psu.candidates quote_plus parse)).
Qed.

Lemma empty_url_items_witness :
  (List.filter (Nalco.has_key [])
     (Nalco.dedupe_items
        [Examples.bare ""; Examples.bare "a"; Examples.bare " "; Examples.bare ""])
   = [Examples.bare ""; Examples.bare " "; Examples.bare ""])
  /\ (Local.collect MoreExamples.local_feed_with_empty_links Examples.now
      = Ok MoreExamples.local_dict_with_empty_link
      /\ Examples.empty_link_2
           ∈ Local.entries MoreExamples.local_feed_with_empty_links
      /\ Local.entry_key Examples.empty_link_2 = Ok []
      /\ length (List.filter (fun it => PyStr.is_empty (Local.url it))
                   (dict_values MoreExamples.local_dict_with_empty_link)) = 1
      /\ first_of Local.entry_key (Local.entry_item Examples.now)
           (Local.entries MoreExamples.local_feed_with_empty_links) []
           MoreExamples.local_first_notice)
  /\ (Psu.collect Examples.quote_plus MoreExamples.psu_feed_with_empty_links
                  Examples.now
      = Ok MoreExamples.psu_dict_with_empty_link
      /\ Psu.mk_candidate (lit "PSU") (lit "Google News") (lit "google")
                          Examples.empty_link_2
           ∈ Psu.candidates Examples.quote_plus
               MoreExamples.psu_feed_with_empty_links
      /\ length (List.filter (fun it => PyStr.is_empty (Psu.url it))
                   (dict_values MoreExamples.psu_dict_with_empty_link)) = 1
      /\ first_of Psu.candidate_key (Psu.candidate_item Examples.now)
           (Psu.candidates Examples.quote_plus
              MoreExamples.psu_feed_with_empty_links) []
           MoreExamples.psu_first_notice).
Proof.
  destruct empty_url_items as (Hn & Hl & Hp).
  assert (Local.collect MoreExamples.local_feed_with_empty_links Examples.now
          = Ok MoreExamples.local_dict_with_empty_link)
    as Rl by (vm_compute; reflexivity).
  assert (Examples.empty_link_2
            ∈ Local.entries MoreExamples.local_feed_with_empty_links) as Il.
  { vm_compute. do 2 apply list_elem_of_further. apply list_elem_of_here. }
  assert (MoreExamples.local_first_notice
            ∈ dict_values MoreExamples.local_dict_with_empty_link)
    as Vl by apply list_elem_of_here.
  assert (Psu.collect Examples.quote_plus MoreExamples.psu_feed_with_empty_links
                      Examples.now
          = Ok MoreExamples.psu_dict_with_empty_link)
    as Rp by (vm_compute; reflexivity).
  assert (Psu.mk_candidate (lit "PSU") (lit "Google News") (lit "google")
                           Examples.empty_link_2
            ∈ Psu.candidates Examples.quote_plus
                MoreExamples.psu_feed_with_empty_links) as Ip.
  { vm_compute. apply list_elem_of_further, list_elem_of_here. }
  assert (MoreExamples.psu_first_notice
            ∈ dict_values MoreExamples.psu_dict_with_empty_link)
    as Vp by apply list_elem_of_here.
  destruct (Hl _ _ _ Rl) as (_ & Fl & Ol).
  destruct (Hp _ _ _ _ Rp) as (_ & Fp & Op).
  refine (conj _ (conj (conj Rl (conj Il (conj eq_refl (conj _ _))))
                       (conj Rp (conj Ip (conj _ _))))).
  - rewrite Hn. vm_compute. reflexivity.
  - apply Ol. exists Examples.empty_link_2. by split.
  - by apply Fl.
  - apply Op. eexists. split; [exact Ip|reflexivity].
  - by apply Fp.
Defined.

(** ** C10: Google before the official feeds *)

(** C10: in [fetch_psu_news.py] every Google feed is read before every
    official feed, so an item of the snapshot whose URL a Google entry
    carries has the source ["Google News"] and the source type
    ["google"]. *)
Theorem google_provenance_wins quote_plus parse now fs doc it c :
  snapshot (Psu.main quote_plus parse now fs) = Written doc ->
  it ∈ Psu.items doc ->
  c ∈ Psu.google_candidates quote_plus parse ->
  Psu.candidate_key c = Ok (Psu.url it) ->
  Psu.candidates quote_plus parse
  = Psu.google_candidates quote_plus parse ++ Psu.official_candidates parse
  /\ Psu.source it = lit "Google News"
  /\ Psu.source_type it = lit "google".
Proof.
  intros (d & Hd & Hi)%PsuRun.psu_main_written Hit Hc Hk.
  split; [done|].
  eapply PsuProvenance.google_first; [exact Hd| |exact Hc|exact Hk].
  rewrite Hi in Hit. eapply elem_of_submseteq; [exact Hit|].
  apply ranked_submseteq.
Qed.

Lemma google_provenance_wins_witness :
  snapshot (Psu.main Examples.quote_plus Examples.psu_feeds Examples.now
                     Examples.fs_fine) = Written Examples.psu_doc
  /\ Examples.psu_item ∈ Psu.items Examples.psu_doc
  /\ Examples.psu_google_candidate
       ∈ Psu.google_candidates Examples.quote_plus Examples.psu_feeds
  /\ Psu.candidate_key Examples.psu_google_candidate
     = Ok (Psu.url Examples.psu_item)
  /\ Psu.source Examples.psu_item = lit "Google News"
  /\ Psu.source_type Examples.psu_item = lit "google".
Proof.
  assert (snapshot (Psu.main Examples.quote_plus Examples.psu_feeds Examples.now
                             Examples.fs_fine) = Written Examples.psu_doc)
    as R by (vm_compute; reflexivity).
  assert (Examples.psu_item ∈ Psu.items Examples.psu_doc)
    as Hit by (apply list_elem_of_here).
  assert (Examples.psu_google_candidate
            ∈ Psu.google_candidates Examples.quote_plus Examples.psu_feeds)
    as Hc by (vm_compute; apply list_elem_of_here).
  assert (Psu.candidate_key Examples.psu_google_candidate
          = Ok (Psu.url Examples.psu_item)) as Hk by (vm_compute; reflexivity).
  exact (conj R (conj Hit (conj Hc (conj Hk
           (proj2 (google_provenance_wins _ _ _ _ _ _ _ R Hit Hc Hk)))))).
Defined.

(** ** C2: the order of the snapshot *)

(** C2 fails on the code: [main] of [fetch_nalco_news.py] sorts under
    the comment [Sort by timestamp (most recent first)], but the
    timestamps keep the UTC offset of the feed, and the strings of two
    offsets do not order as the instants.  Of a feed with an item
    published at 01:00 +05:30 and an item published at 00:30 +00:00, five
    hours later, the earlier one is written first. *)
Theorem lexicographic_is_not_chronological :
  map Nalco.timestamp (Nalco.ranked (Examples.libraries Examples.feed_of_three))
  = [ Some (lit "2024-01-05T01:00:00+05:30");
      Some (lit "2024-01-05T00:30:00+00:00");
      Some (lit "2024-01-03T00:00:00");
      None ]
  /\ PyDate.isoformat Examples.early_india = lit "2024-01-05T01:00:00+05:30"
  /\ PyDate.isoformat Examples.later_utc = lit "2024-01-05T00:30:00+00:00"
  /\ PyDate.earlier Examples.early_india Examples.later_utc.
Proof. split_and!; vm_compute; reflexivity. Qed.

(** ** C3: candidates without a timestamp *)

(** C3, as worded, fails in [fetch_nalco_news.py]: a feed item without
    [pubDate] gets the date and the timestamp [None], not the start of the
    run, and it is written last, not first. *)
Lemma undated_item_gets_no_date :
  Nalco.date (Nalco.google_item (Examples.libraries Examples.feed_of_three)
                                Examples.undated_item) = None
  /\ Nalco.timestamp (Nalco.google_item (Examples.libraries Examples.feed_of_three)
                                        Examples.undated_item) = None
  /\ last (Nalco.ranked (Examples.libraries Examples.feed_of_three))
     = Some (Nalco.google_item (Examples.libraries Examples.feed_of_three)
                               Examples.undated_item)
  /\ length (Nalco.ranked (Examples.libraries Examples.feed_of_three)) = 4.
Proof. split_and!; vm_compute; reflexivity. Qed.

(** C3, amended: in [fetch_local_news.py] a candidate without the
    attribute [published_parsed], and in [fetch_psu_news.py] a candidate
    whose [published_parsed] is missing or [None], gets the start of the
    run as its date, never a null; as long as no item is dated after the
    start of the run, only items of that same date are ranked before it.
    In [fetch_nalco_news.py] a candidate whose date is absent or
    unparseable gets the date and the timestamp [None], and only items
    without a timestamp are ranked after it. *)
Theorem missing_timestamp_fallback :
  (forall now l e it,
      published_parsed e = Missing ->
      Local.entry_item now l e = Ok it ->
      Local.date it = PyDate.isoformat now)
  /\ (forall now l c it,
        published_parsed (Psu.c_entry c) = Missing
        \/ published_parsed (Psu.c_entry c) = IsNone ->
        Psu.candidate_item now l c = Ok it ->
        Psu.date it = PyDate.isoformat now)
  /\ (forall now d pre x post,
        Local.rank d = pre ++ x :: post ->
        Local.date x = PyDate.isoformat now ->
        Forall (fun y => PyStr.leb (Local.date y) (PyDate.isoformat now) = true) pre ->
        Forall (fun y => Local.date y = PyDate.isoformat now) pre)
  /\ (forall now d pre x post,
        Psu.rank d = pre ++ x :: post ->
        Psu.date x = PyDate.isoformat now ->
        Forall (fun y => PyStr.leb (Psu.date y) (PyDate.isoformat now) = true) pre ->
        Forall (fun y => Psu.date y = PyDate.isoformat now) pre)
  /\ (forall L it,
        Nalco.rss_undated L it ->
        Nalco.date (Nalco.google_item L it) = None
        /\ Nalco.timestamp (Nalco.google_item L it) = None)
  /\ (forall L text,
        Nalco.press_undated L text -> Nalco.press_dates L text = (None, None))
  /\ (forall L pre x post,
        Nalco.ranked L = pre ++ x :: post ->
        Nalco.timestamp x = None ->
        Forall (fun y => Nalco.sort_key y = []) post).
Proof.
  split_and!.
  - intros now l e it Hm. unfold Local.entry_item, Local.published.
    rewrite Hm. simpl.
    destruct (getattr "title" (e_title e)); simpl; [|done]. by intros [= <-].
  - intros now l c it Hm. unfold Psu.candidate_item, Psu.published.
    destruct Hm as [-> | ->]; simpl;
      (destruct (getattr "title" (e_title (Psu.c_entry c))); simpl; [|done]);
      by intros [= <-].
  - intros now d pre x post. apply ranked_greatest_first.
  - intros now d pre x post. apply ranked_greatest_first.
  - intros L it Hu. unfold Nalco.google_item.
    replace (Nalco.google_dates L (Nalco.rss_pubDate it)) with
      (@None pystr, @None pystr); [done|].
    unfold Nalco.google_dates.
    destruct Hu as [-> | [-> | (raw & -> & Hp)]]; [done..|].
    destruct (PyStr.is_empty raw); [done|]. by rewrite Hp.
  - intros L text Hu. unfold Nalco.press_dates.
    destruct Hu as [-> | (s & -> & ->)]; done.
  - intros L pre x post E Hx. eapply ranked_empty_last; [exact E|].
    unfold Nalco.sort_key. by rewrite Hx.
Qed.

Lemma missing_timestamp_fallback_witness :
  (published_parsed Examples.story_b = Missing
   /\ Local.entry_item Examples.now (lit "https://news.example/b") Examples.story_b
      = Ok Examples.local_item_b
   /\ Local.date Examples.local_item_b = PyDate.isoformat Examples.now)
  /\ (Psu.candidate_item Examples.now (lit "https://news.example/b")
                          Examples.psu_candidate_b
      = Ok Examples.psu_item_undated
      /\ Psu.date Examples.psu_item_undated = PyDate.isoformat Examples.now)
  /\ (Local.rank Examples.local_dict = [] ++ Examples.local_item_b :: [Examples.local_item_a]
      /\ Forall (fun y => Local.date y = PyDate.isoformat Examples.now) [])
  /\ (Psu.rank Examples.psu_dict_with_undated
      = [] ++ Examples.psu_item_undated :: [Examples.psu_item]
      /\ Forall (fun y => Psu.date y = PyDate.isoformat Examples.now) [])
  /\ (Nalco.rss_undated (Examples.libraries Examples.feed_with_undated)
                        Examples.undated_item_2
      /\ Nalco.timestamp (Nalco.google_item (Examples.libraries Examples.feed_with_undated)
                                            Examples.undated_item_2) = None)
  /\ (Nalco.press_undated (Examples.libraries Examples.feed_with_undated) (lit "Archive")
      /\ Nalco.press_dates (Examples.libraries Examples.feed_with_undated) (lit "Archive")
         = (None, None))
  /\ (Nalco.ranked (Examples.libraries Examples.feed_with_undated)
      = take 2 (Nalco.ranked (Examples.libraries Examples.feed_with_undated))
        ++ Nalco.google_item (Examples.libraries Examples.feed_with_undated)
                             Examples.undated_item
        :: [Nalco.google_item (Examples.libraries Examples.feed_with_undated)
                              Examples.undated_item_2]
      /\ Forall (fun y => Nalco.sort_key y = [])
           [Nalco.google_item (Examples.libraries Examples.feed_with_undated)
                              Examples.undated_item_2]).
Proof.
  destruct missing_timestamp_fallback as (Hl & Hp & Hlr & Hpr & Hn & Hnp & Hnr).
  assert (Local.entry_item Examples.now (lit "https://news.example/b") Examples.story_b
          = Ok Examples.local_item_b) as El by (vm_compute; reflexivity).
  assert (Psu.candidate_item Examples.now (lit "https://news.example/b")
                             Examples.psu_candidate_b
          = Ok Examples.psu_item_undated) as Ep by (vm_compute; reflexivity).
  assert (Local.rank Examples.local_dict
          = [] ++ Examples.local_item_b :: [Examples.local_item_a])
    as Rl by (vm_compute; reflexivity).
  assert (Local.date Examples.local_item_b = PyDate.isoformat Examples.now)
    as Dl by (vm_compute; reflexivity).
  assert (Psu.rank Examples.psu_dict_with_undated
          = [] ++ Examples.psu_item_undated :: [Examples.psu_item])
    as Rp by (vm_compute; reflexivity).
  assert (Psu.date Examples.psu_item_undated = PyDate.isoformat Examples.now)
    as Dp by (vm_compute; reflexivity).
  assert (Nalco.rss_undated (Examples.libraries Examples.feed_with_undated)
                            Examples.undated_item_2) as Un.
  { right. right. exists (lit "yesterday"). split; reflexivity. }
  assert (Nalco.press_undated (Examples.libraries Examples.feed_with_undated)
                              (lit "Archive")) as Up.
  { left. vm_compute. reflexivity. }
  assert (Nalco.ranked (Examples.libraries Examples.feed_with_undated)
          = take 2 (Nalco.ranked (Examples.libraries Examples.feed_with_undated))
            ++ Nalco.google_item (Examples.libraries Examples.feed_with_undated)
                                 Examples.undated_item
            :: [Nalco.google_item (Examples.libraries Examples.feed_with_undated)
                                  Examples.undated_item_2])
    as Rn by (vm_compute; reflexivity).
  assert (published_parsed Examples.story_b = Missing) as Ml by reflexivity.
  assert (Nalco.timestamp
            (Nalco.google_item (Examples.libraries Examples.feed_with_undated)
                               Examples.undated_item) = None)
    as Tn by reflexivity.
  exact (conj (conj Ml (conj El (Hl _ _ _ _ Ml El)))
        (conj (conj Ep (Hp _ _ Examples.psu_candidate_b _ (or_introl Ml) Ep))
        (conj (conj Rl (Hlr _ _ _ _ _ Rl Dl (Forall_nil_2 _)))
        (conj (conj Rp (Hpr _ _ _ _ _ Rp Dp (Forall_nil_2 _)))
        (conj (conj Un (proj2 (Hn _ _ Un)))
        (conj (conj Up (Hnp _ _ Up))
              (conj Rn (Hnr _ _ _ _ Rn Tn)))))))).
Defined.

(** ** C7: what ends a run *)




(** ** C6: a source that fails *)




(** ** C8: the summary *)

(** C8 fails on the code: the summary of a feed item is cut to 300
    characters, but [re.sub("<[^<]+?>", "", ...)], commented as stripping
    the HTML tags, leaves a tag behind when a tag stands inside another
    one.  Of the description [<a title="<b>">x</a>] the summary is
    [<a title="">x]. *)
Theorem nested_tag_survives_stripping :
  Nalco.summary (Nalco.google_item (Examples.libraries Examples.feed_of_three)
                                   Examples.nested_item)
  = lit "<a title=" ++ [34%N; 34%N] ++ lit ">x"
  /\ Nalco.has_tag
       (Nalco.summary (Nalco.google_item (Examples.libraries Examples.feed_of_three)
                                         Examples.nested_item)) = true.
Proof. split; vm_compute; reflexivity. Qed.

(** ** C9: whitespace around titles and URLs *)

(** C9 fails on the code: the feed adapter of [fetch_nalco_news.py]
    strips the link it stores, and [dedupe_items] compares the URLs
    stripped, but the press adapter stores the URL as [urljoin] returns
    it.  Of a heading whose [href] ends in a space, the item written has
    a URL that ends in that space; the feed item next to it, whose link
    came with a space at its end, is written without it. *)
Theorem press_url_keeps_its_whitespace :
  snapshot (Nalco.main MoreExamples.untrimmed_listing Examples.fs_fine)
  = Written MoreExamples.untrimmed_press_doc
  /\ MoreExamples.untrimmed_press_item
       ∈ Nalco.items MoreExamples.untrimmed_press_doc
  /\ Nalco.url MoreExamples.untrimmed_press_item
     = lit "https://nalcoindia.com/pre-rel/q3-results/ "
  /\ ~ PyStr.trimmed (Nalco.url MoreExamples.untrimmed_press_item)
  /\ Nalco.rss_link Examples.india_item = Some (lit "https://news.example/india ")
  /\ Nalco.google_item MoreExamples.untrimmed_listing Examples.india_item
     = MoreExamples.india_news_item
  /\ PyStr.trimmed (Nalco.url MoreExamples.india_news_item).
Proof.
  split_and!.
  - vm_compute. reflexivity.
  - apply list_elem_of_further, list_elem_of_here.
  - reflexivity.
  - intros [_ H].
    assert (last (Nalco.url MoreExamples.untrimmed_press_item) = Some 32%N)
      as Hl by (vm_compute; reflexivity).
    specialize (H 32%N Hl). vm_compute in H. discriminate H.
  - reflexivity.
  - vm_compute. reflexivity.
  - split; intros c H; vm_compute in H; injection H as <-; reflexivity.
Qed.

(** * Further properties of the scripts *)

(** ** [dedupe_items] *)

(** X1: [dedupe_items] only removes items: what it returns is what it
    was given with some items left out, in the same order. *)
Theorem dedupe_only_removes (items : list Nalco.item) :
  Nalco.dedupe_items items `sublist_of` items.
Proof.
  rewrite NalcoDedupe.dedupe_items_from.
  apply NalcoDedupe.dedupe_from_sublist.
Qed.

(** X2: deduplicating twice is deduplicating once. *)
Theorem dedupe_twice (items : list Nalco.item) :
  Nalco.dedupe_items (Nalco.dedupe_items items) = Nalco.dedupe_items items.
Proof.
  rewrite !NalcoDedupe.dedupe_items_from.
  by apply NalcoDedupeMore.dedupe_from_again.
Qed.

(** X3: items whose non-empty stripped URLs are pairwise distinct are all
    kept, however many of them have an empty URL. *)
Theorem dedupe_keeps_distinct (items : list Nalco.item) :
  NoDup (NalcoMore.nonempty_keys items) ->
  Nalco.dedupe_items items = items.
Proof.
  intros Hnd. rewrite NalcoDedupe.dedupe_items_from.
  apply NalcoDedupeMore.dedupe_from_distinct; [done|].
  intros k _. apply not_elem_of_empty.
Qed.

Lemma dedupe_keeps_distinct_witness :
  NoDup (NalcoMore.nonempty_keys MoreExamples.items_without_duplicates)
  /\ Nalco.dedupe_items MoreExamples.items_without_duplicates
     = MoreExamples.items_without_duplicates.
Proof.
  assert (NoDup (NalcoMore.nonempty_keys MoreExamples.items_without_duplicates))
    as Hnd.
  { vm_compute. apply NoDup_cons. split.
    - intros [H|[]%elem_of_nil]%elem_of_cons. discriminate H.
    - apply NoDup_singleton. }
  exact (conj Hnd (dedupe_keeps_distinct _ Hnd)).
Defined.

(** X15: what [main] does to the fetched items (deduplicate, sort, cut to
    40) changes nothing when it is done to its own result, and the items
    of a run are this merge of what the two adapters fetched. *)
Theorem merge_twice :
  (forall items, NalcoMore.merge (NalcoMore.merge items) = NalcoMore.merge items)
  /\ (forall L, Nalco.ranked L = NalcoMore.merge (Nalco.fetched L)).
Proof.
  split; [|done]. intros items. unfold NalcoMore.merge at 1.
  assert (Nalco.dedupe_items (NalcoMore.merge items) = NalcoMore.merge items) as ->.
  { rewrite NalcoDedupe.dedupe_items_from.
    apply NalcoDedupeMore.dedupe_from_distinct; [|intros k _; apply not_elem_of_empty].
    apply (NalcoDedupeMore.NoDup_submseteq_inv _
             (NalcoMore.nonempty_keys (Nalco.dedupe_items items))).
    - apply NalcoDedupeMore.nonempty_keys_submseteq, ranked_submseteq.
    - rewrite NalcoDedupe.dedupe_items_from.
      apply NalcoDedupeMore.dedupe_from_keys. }
  rewrite sorted_desc_id
    by (apply StronglySorted_take, sorted_desc_sorted).
  apply take_ge. unfold NalcoMore.merge. rewrite length_take. lia.
Qed.

(** ** The summary of a feed item *)

(** X4: removing the tags only deletes characters: the result is the
    description with some characters left out, and a description without
    [<] is left as it is. *)
Theorem strip_tags_only_deletes (s : pystr) :
  Nalco.strip_tags s `sublist_of` s
  /\ (Forall (fun c => c <> 60%N) s -> Nalco.strip_tags s = s).
Proof.
  split; [apply NalcoTextMore.strip_tags_sublist|apply NalcoText.strip_tags_plain].
Qed.

(** X5: when every [<] of a description opens a tag (it is followed by
    a character other than [<] and then, before any further [<], by a
    [>]), the stripped text holds no [<] and so no tag. *)
Theorem well_tagged_text_is_cleaned (s : pystr) :
  Nalco.well_tagged s ->
  Forall (fun c => c <> 60%N) (Nalco.strip_tags s)
  /\ Nalco.has_tag (Nalco.strip_tags s) = false.
Proof. apply NalcoText.strip_tags_well_tagged. Qed.

Lemma well_tagged_text_is_cleaned_witness :
  Nalco.well_tagged MoreExamples.tidy_description
  /\ Nalco.strip_tags MoreExamples.tidy_description = lit "NALCO output rises > 5 %"
  /\ Nalco.has_tag (Nalco.strip_tags MoreExamples.tidy_description) = false.
Proof.
  assert (Nalco.well_tagged MoreExamples.tidy_description) as Hw.
  { apply NalcoTextMore.well_taggedb_spec. vm_compute. reflexivity. }
  assert (Nalco.strip_tags MoreExamples.tidy_description
          = lit "NALCO output rises > 5 %") as Hs by (vm_compute; reflexivity).
  exact (conj Hw (conj Hs (proj2 (well_tagged_text_is_cleaned _ Hw)))).
Defined.

(** X6: the summary of every fetched item, from the press page or from
    the feed, has at most 300 characters. *)
Theorem summaries_fit (L : Nalco.libraries) (it : Nalco.item) :
  it ∈ Nalco.fetched L -> length (Nalco.summary it) <= 300.
Proof.
  unfold Nalco.fetched.
  destruct (Nalco.fetch_nalco_press L).1 as [a|e] eqn:Ea;
    [|by intros []%elem_of_nil].
  intros [Hp|Hg]%elem_of_app.
  - apply (NalcoPressMore.fetch_nalco_press_candidates L a it Ea) in Hp as [h Hh].
    by apply NalcoPressMore.press_candidate_fields in Hh as [? _].
  - destruct (NalcoText.fetch_google_news_items L) as [channel Hc].
    rewrite Hc in Hg. apply list_elem_of_fmap in Hg as (r & -> & _).
    by destruct (NalcoText.google_item_fields L r) as (_ & _ & ? & _).
Qed.

Lemma summaries_fit_witness :
  Nalco.google_item (Examples.libraries Examples.feed_of_three) Examples.india_item
    ∈ Nalco.fetched (Examples.libraries Examples.feed_of_three)
  /\ length (Nalco.summary
               (Nalco.google_item (Examples.libraries Examples.feed_of_three)
                                  Examples.india_item)) <= 300.
Proof.
  assert (Nalco.google_item (Examples.libraries Examples.feed_of_three)
                            Examples.india_item
            ∈ Nalco.fetched (Examples.libraries Examples.feed_of_three)) as Hin.
  { vm_compute. apply list_elem_of_further, list_elem_of_here. }
  exact (conj Hin (summaries_fit _ _ Hin)).
Defined.

(** X10: in every fetched item the date and the timestamp are both
    [None] or both set, and then the date is the beginning of the
    timestamp: both are written from one parsed value. *)
Theorem date_and_timestamp_go_together (L : Nalco.libraries) (it : Nalco.item) :
  it ∈ Nalco.fetched L ->
  (Nalco.date it = None /\ Nalco.timestamp it = None)
  \/ exists d t, Nalco.date it = Some d /\ Nalco.timestamp it = Some t
                 /\ d `prefix_of` t.
Proof.
  assert (forall it : Nalco.item,
            (Nalco.date it = None /\ Nalco.timestamp it = None)
            \/ (exists dt, Nalco.date it = Some (PyDate.date_isoformat dt)
                           /\ Nalco.timestamp it = Some (PyDate.isoformat dt)) ->
            (Nalco.date it = None /\ Nalco.timestamp it = None)
            \/ exists d t, Nalco.date it = Some d /\ Nalco.timestamp it = Some t
                           /\ d `prefix_of` t) as Hgen.
  { intros i [H|(dt & Hd & Ht)]; [by left|right].
    exists (PyDate.date_isoformat dt), (PyDate.isoformat dt).
    split_and!; [done..|apply NalcoPressMore.date_isoformat_prefix]. }
  unfold Nalco.fetched.
  destruct (Nalco.fetch_nalco_press L).1 as [a|e] eqn:Ea;
    [|by intros []%elem_of_nil].
  intros [Hp|Hg]%elem_of_app; apply Hgen.
  - apply (NalcoPressMore.fetch_nalco_press_candidates L a it Ea) in Hp as [h Hh].
    by apply NalcoPressMore.press_candidate_fields in Hh as [_ ?].
  - destruct (NalcoText.fetch_google_news_items L) as [channel Hc].
    rewrite Hc in Hg. apply list_elem_of_fmap in Hg as (r & -> & _).
    apply NalcoPressMore.google_item_dates.
Qed.

Lemma date_and_timestamp_go_together_witness :
  MoreExamples.press_item ∈ Nalco.fetched (Examples.libraries Examples.feed_of_three)
  /\ ((Nalco.date MoreExamples.press_item = None
       /\ Nalco.timestamp MoreExamples.press_item = None)
      \/ exists d t, Nalco.date MoreExamples.press_item = Some d
                     /\ Nalco.timestamp MoreExamples.press_item = Some t
                     /\ d `prefix_of` t).
Proof.
  assert (MoreExamples.press_item
            ∈ Nalco.fetched (Examples.libraries Examples.feed_of_three)) as Hin.
  { vm_compute. apply list_elem_of_here. }
  exact (conj Hin (date_and_timestamp_go_together _ _ Hin)).
Defined.

(** ** The adapters of [fetch_nalco_news.py] *)



(** X17: when the feed is fetched and parsed, the feed adapter returns
    one item for every [<item>] of the channel, in order, also for an
    [<item>] without title or link: its title or URL is the empty
    string. *)
Theorem feed_items_per_entry (L : Nalco.libraries) (content : pystr)
    (channel : list Nalco.rss_item) :
  Nalco.requests_get L Nalco.GOOGLE_NEWS_RSS = Nalco.Body content ->
  Nalco.fromstring L content = Nalco.XmlRoot (Some channel) ->
  (Nalco.fetch_google_news L).1 = map (Nalco.google_item L) channel
  /\ (forall r, Nalco.rss_link r = None -> Nalco.url (Nalco.google_item L r) = [])
  /\ (forall r, Nalco.rss_title r = None -> Nalco.title (Nalco.google_item L r) = []).
Proof.
  intros Hb Hx. split_and!.
  - unfold Nalco.fetch_google_news.
    rewrite !pbind_fst, NalcoPressMore.safe_request_value.
    unfold NalcoMore.response_text. rewrite Hb, Hx.
    rewrite !pbind_fst, pret_fst. by rewrite NalcoText.foldl_snoc_map.
  - intros r Hr. unfold Nalco.google_item.
    destruct (Nalco.google_dates L _). simpl. by rewrite Hr.
  - intros r Hr. unfold Nalco.google_item.
    destruct (Nalco.google_dates L _). simpl. by rewrite Hr.
Qed.

Lemma feed_items_per_entry_witness :
  Nalco.requests_get (Examples.libraries Examples.feed_of_three) Nalco.GOOGLE_NEWS_RSS
  = Nalco.Body (lit "feed")
  /\ Nalco.fromstring (Examples.libraries Examples.feed_of_three) (lit "feed")
     = Nalco.XmlRoot (Some [Examples.india_item; Examples.utc_item;
                            Examples.undated_item])
  /\ (Nalco.fetch_google_news (Examples.libraries Examples.feed_of_three)).1
     = map (Nalco.google_item (Examples.libraries Examples.feed_of_three))
           [Examples.india_item; Examples.utc_item; Examples.undated_item].
Proof.
  assert (Nalco.requests_get (Examples.libraries Examples.feed_of_three)
                             Nalco.GOOGLE_NEWS_RSS
          = Nalco.Body (lit "feed")) as Hb by (vm_compute; reflexivity).
  assert (Nalco.fromstring (Examples.libraries Examples.feed_of_three) (lit "feed")
          = Nalco.XmlRoot (Some [Examples.india_item; Examples.utc_item;
                                 Examples.undated_item])) as Hx by reflexivity.
  exact (conj Hb (conj Hx (proj1 (feed_items_per_entry _ _ _ Hb Hx)))).
Defined.

(** ** The run as a whole *)

(** X8: a run of any of the three scripts that ends without an
    exception has left the whole document, and once the whole document is
    there only the last [print] can still raise: a run that raises
    anything else has not left a written document. *)
Theorem run_writes_or_raises :
  (forall L fs,
      (raised (Nalco.main L fs) = None ->
       exists doc, snapshot (Nalco.main L fs) = Written doc)
      /\ (forall doc, snapshot (Nalco.main L fs) = Written doc ->
                      raised (Nalco.main L fs) = print_raises fs))
  /\ (forall feedparser_parse now fs,
        (raised (Local.run feedparser_parse now fs) = None ->
         exists doc, snapshot (Local.run feedparser_parse now fs) = Written doc)
        /\ (forall doc,
              snapshot (Local.run feedparser_parse now fs) = Written doc ->
              raised (Local.run feedparser_parse now fs) = print_raises fs))
  /\ (forall quote_plus feedparser_parse now fs,
        (raised (Psu.run quote_plus feedparser_parse now fs) = None ->
         exists doc,
           snapshot (Psu.run quote_plus feedparser_parse now fs) = Written doc)
        /\ (forall doc,
              snapshot (Psu.run quote_plus feedparser_parse now fs) = Written doc ->
              raised (Psu.run quote_plus feedparser_parse now fs)
              = print_raises fs)).
Proof.
  split_and!.
  - intros L fs. unfold Nalco.main.
    destruct (Nalco.fetch_nalco_press L) as [[a|e] pa]; [|by split].
    destruct (Nalco.fetch_google_news L) as [b pb]. simpl.
    destruct (makedirs_ok fs); simpl; [|by split].
    split; [intros H%write_file_quiet; by eexists|].
    intros doc' H. by eapply write_file_after.
  - intros fp now fs. unfold Local.run.
    destruct (Local.gather fp now); simpl; [|by split].
    split; [intros H%write_file_quiet; by eexists|].
    intros doc' H. by eapply write_file_after.
  - intros quote_plus fp now fs. unfold Psu.run.
    destruct (Psu.gather quote_plus fp now); simpl; [|by split].
    destruct (makedirs_ok fs); simpl; [|by split].
    split; [intros H%write_file_quiet; by eexists|].
    intros doc' H. by eapply write_file_after.
Qed.

Lemma run_writes_or_raises_witness :
  snapshot (Psu.run Examples.quote_plus
              (returning MoreExamples.psu_two_sources)
              Examples.now MoreExamples.fs_ascii_terminal)
  = Written MoreExamples.psu_two_sources_doc
  /\ raised (Psu.run Examples.quote_plus
               (returning MoreExamples.psu_two_sources)
               Examples.now MoreExamples.fs_ascii_terminal)
     = Some UnicodeEncodeError
  /\ (raised (Local.run (returning Examples.local_feeds)
                        Examples.now Examples.fs_fine) = None
      /\ exists doc,
           snapshot (Local.run (returning Examples.local_feeds)
                               Examples.now Examples.fs_fine) = Written doc).
Proof.
  destruct run_writes_or_raises as (_ & Hl & Hp).
  assert (snapshot (Psu.run Examples.quote_plus
                      (returning MoreExamples.psu_two_sources)
                      Examples.now MoreExamples.fs_ascii_terminal)
          = Written MoreExamples.psu_two_sources_doc)
    as Rp by (vm_compute; reflexivity).
  assert (raised (Local.run (returning Examples.local_feeds)
                            Examples.now Examples.fs_fine) = None)
    as Rl by (vm_compute; reflexivity).
  exact (conj Rp
          (conj (proj2 (Hp _ _ Examples.now MoreExamples.fs_ascii_terminal) _ Rp)
                (conj Rl (proj1 (Hl _ Examples.now Examples.fs_fine) Rl)))).
Defined.

(** X9: ranking keeps the arrival order of ties: in every script the
    items of one sort key that are left after the cut are the first of
    the items of that key, in the order deduplication left them. *)
Theorem ranking_keeps_arrival_order_of_ties :
  (forall L k,
      List.filter (fun it => bool_decide (Nalco.sort_key it = k)) (Nalco.ranked L)
      `prefix_of`
      List.filter (fun it => bool_decide (Nalco.sort_key it = k))
                  (Nalco.dedupe_items (Nalco.fetched L)))
  /\ (forall d k,
        List.filter (fun it => bool_decide (Local.date it = k)) (Local.rank d)
        `prefix_of`
        List.filter (fun it => bool_decide (Local.date it = k)) (dict_values d))
  /\ (forall d k,
        List.filter (fun it => bool_decide (Psu.date it = k)) (Psu.rank d)
        `prefix_of`
        List.filter (fun it => bool_decide (Psu.date it = k)) (dict_values d)).
Proof.
  split_and!.
  - intros L k. apply (ranked_stable Nalco.sort_key).
  - intros d k. apply (ranked_stable Local.date).
  - intros d k. apply (ranked_stable Psu.date).
Qed.

(** X11: no two items of a written snapshot share their identity: the
    URLs are pairwise distinct in [fetch_local_news.py] and
    [fetch_psu_news.py], the non-empty stripped URLs in
    [fetch_nalco_news.py]. *)
Theorem snapshot_urls_are_distinct :
  (forall L fs doc,
      snapshot (Nalco.main L fs) = Written doc ->
      NoDup (NalcoMore.nonempty_keys (Nalco.items doc)))
  /\ (forall parse now fs doc,
        snapshot (Local.main parse now fs) = Written doc ->
        NoDup (map Local.url (Local.items doc)))
  /\ (forall quote_plus parse now fs doc,
        snapshot (Psu.main quote_plus parse now fs) = Written doc ->
        NoDup (map Psu.url (Psu.items doc))).
Proof.
  split_and!.
  - intros L fs doc [-> _]%NalcoRun.nalco_main_written.
    apply (NalcoDedupeMore.NoDup_submseteq_inv _
             (NalcoMore.nonempty_keys (Nalco.dedupe_items (Nalco.fetched L)))).
    + apply NalcoDedupeMore.nonempty_keys_submseteq, ranked_submseteq.
    + rewrite NalcoDedupe.dedupe_items_from.
      apply NalcoDedupeMore.dedupe_from_keys.
  - intros parse now fs doc (d & Hd & ->)%LocalRun.local_main_written.
    apply LocalCollect.local_collect_first_wins in Hd as (Hnd & _).
    eapply NalcoDedupeMore.NoDup_submseteq_inv; [|exact Hnd].
    apply fmap_submseteq, ranked_submseteq.
  - intros quote_plus parse now fs doc (d & Hd & ->)%PsuRun.psu_main_written.
    apply PsuCollect.psu_collect_first_wins in Hd as (Hnd & _).
    eapply NalcoDedupeMore.NoDup_submseteq_inv; [|exact Hnd].
    apply fmap_submseteq, ranked_submseteq.
Qed.

Lemma snapshot_urls_are_distinct_witness :
  (snapshot (Nalco.main (Examples.libraries Examples.feed_of_three) Examples.fs_fine)
   = Written Examples.nalco_doc
   /\ NoDup (NalcoMore.nonempty_keys (Nalco.items Examples.nalco_doc)))
  /\ (snapshot (Local.main Examples.local_feeds Examples.now Examples.fs_fine)
      = Written MoreExamples.local_doc
      /\ NoDup (map Local.url (Local.items MoreExamples.local_doc)))
  /\ (snapshot (Psu.main Examples.quote_plus MoreExamples.psu_two_sources
                         Examples.now Examples.fs_fine)
      = Written MoreExamples.psu_two_sources_doc
      /\ NoDup (map Psu.url (Psu.items MoreExamples.psu_two_sources_doc))).
Proof.
  destruct snapshot_urls_are_distinct as (Hn & Hl & Hp).
  assert (snapshot (Nalco.main (Examples.libraries Examples.feed_of_three)
                               Examples.fs_fine)
          = Written Examples.nalco_doc) as Rn by (vm_compute; reflexivity).
  assert (snapshot (Local.main Examples.local_feeds Examples.now Examples.fs_fine)
          = Written MoreExamples.local_doc) as Rl by (vm_compute; reflexivity).
  assert (snapshot (Psu.main Examples.quote_plus MoreExamples.psu_two_sources
                             Examples.now Examples.fs_fine)
          = Written MoreExamples.psu_two_sources_doc) as Rp by (vm_compute; reflexivity).
  exact (conj (conj Rn (Hn _ _ _ Rn))
          (conj (conj Rl (Hl _ _ _ _ Rl)) (conj Rp (Hp _ _ _ _ _ Rp)))).
Defined.

(** ** The feed scripts *)

(** X12: in [fetch_local_news.py] an entry with a new link whose
    [published_parsed] is there but is [None] ends the run with a
    [TypeError], and nothing is written: [hasattr] alone decides that
    the attribute is sliced. *)
Theorem local_none_date_ends_the_run parse now fs pre e post l :
  Local.entries parse = pre ++ e :: post ->
  Forall Local.well_formed pre ->
  link e = Some l ->
  (forall y, y ∈ pre -> link y <> Some l) ->
  published_parsed e = IsNone ->
  Local.main parse now fs
  = {| stdout := []; snapshot := Untouched; raised := Some TypeError |}.
Proof.
  intros E Hpre Hl Hnew Hp. unfold Local.main, Local.run.
  change (Local.gather (returning parse) now) with (Local.collect parse now).
  by rewrite (LocalMore.local_none_date_raises parse now pre e post l).
Qed.

Lemma local_none_date_ends_the_run_witness :
  Local.entries MoreExamples.feed_with_unreadable_date
  = [Examples.story_a] ++ MoreExamples.unreadable_date :: []
  /\ Forall Local.well_formed [Examples.story_a]
  /\ Local.main MoreExamples.feed_with_unreadable_date Examples.now Examples.fs_fine
     = {| stdout := []; snapshot := Untouched; raised := Some TypeError |}.
Proof.
  assert (Local.entries MoreExamples.feed_with_unreadable_date
          = [Examples.story_a] ++ MoreExamples.unreadable_date :: [])
    as E by (vm_compute; reflexivity).
  assert (Forall Local.well_formed [Examples.story_a]) as W.
  { repeat constructor; eexists; reflexivity. }
  assert (forall y, y ∈ [Examples.story_a]
                    -> link y <> Some (lit "https://news.example/d")) as Hnew.
  { intros y [->|[]%elem_of_nil]%elem_of_cons H. vm_compute in H. discriminate H. }
  exact (conj E (conj W
           (local_none_date_ends_the_run _ Examples.now Examples.fs_fine
              _ _ _ _ E W eq_refl Hnew eq_refl))).
Defined.

(** X18: in [fetch_local_news.py] an entry whose link is already stored
    is skipped before its title and its date are looked at: a later
    duplicate without title and with an unreadable date neither raises
    nor changes what is collected. *)
Theorem late_duplicate_is_not_inspected parse now pre e l d :
  Local.entries parse = pre ++ [e] ->
  for_each (Local.entry_step now) pre [] = Ok d ->
  link e = Some l ->
  (exists y, y ∈ pre /\ link y = Some l) ->
  Local.collect parse now = Ok d.
Proof.
  intros E Hd Hl (y & Hy & Hyl).
  rewrite LocalFacts.collect_entries, E, for_each_app.
  rewrite (for_each_ext _ (first_wins_step Local.entry_key (Local.entry_item now)))
    in Hd by apply LocalFacts.local_entry_step_first_wins.
  rewrite Hd. simpl.
  apply first_wins_from_empty in Hd as (_ & _ & Hall).
  destruct (Hall y Hy) as (k & Hk & Hin).
  unfold Local.entry_key in Hk. rewrite Hyl in Hk. injection Hk as <-.
  unfold first_wins_step, Local.entry_key. rewrite Hl. simpl.
  apply dict_has_true in Hin. by rewrite Hin.
Qed.

Lemma late_duplicate_is_not_inspected_witness :
  Local.entries MoreExamples.feed_with_broken_duplicate
  = [Examples.story_a] ++ [MoreExamples.broken_duplicate]
  /\ for_each (Local.entry_step Examples.now) [Examples.story_a] []
     = Ok MoreExamples.local_dict_a
  /\ Local.collect MoreExamples.feed_with_broken_duplicate Examples.now
     = Ok MoreExamples.local_dict_a.
Proof.
  assert (Local.entries MoreExamples.feed_with_broken_duplicate
          = [Examples.story_a] ++ [MoreExamples.broken_duplicate])
    as E by (vm_compute; reflexivity).
  assert (for_each (Local.entry_step Examples.now) [Examples.story_a] []
          = Ok MoreExamples.local_dict_a) as Hd by (vm_compute; reflexivity).
  assert (exists y, y ∈ [Examples.story_a]
                    /\ link y = Some (lit "https://news.example/a")) as Hy.
  { exists Examples.story_a. split; [apply list_elem_of_here|reflexivity]. }
  exact (conj E (conj Hd
           (late_duplicate_is_not_inspected _ Examples.now _ _ _ _ E Hd eq_refl Hy))).
Defined.

(** X14: going through all the feeds once more, with the same answers,
    adds nothing to the dictionary a run collected and changes nothing in
    it. *)
Theorem reading_feeds_again_changes_nothing :
  (forall parse now d,
      Local.collect parse now = Ok d ->
      for_each (Local.keyword_step parse now) Local.KEYWORDS d = Ok d)
  /\ (forall quote_plus parse now d,
        Psu.collect quote_plus parse now = Ok d ->
        for_each (Psu.google_category_step quote_plus parse now) Psu.GOOGLE_FEEDS d
          ≫= for_each (Psu.official_category_step parse now) Psu.OFFICIAL_RSS
        = Ok d).
Proof.
  split.
  - apply LocalMore.local_collect_again.
  - apply PsuMore2.psu_collect_again.
Qed.

Lemma reading_feeds_again_changes_nothing_witness :
  (Local.collect Examples.local_feeds Examples.now = Ok Examples.local_dict
   /\ for_each (Local.keyword_step Examples.local_feeds Examples.now)
               Local.KEYWORDS Examples.local_dict
      = Ok Examples.local_dict)
  /\ (Psu.collect Examples.quote_plus Examples.psu_feeds Examples.now
      = Ok Examples.psu_dict
      /\ for_each (Psu.google_category_step Examples.quote_plus Examples.psu_feeds
                                            Examples.now)
                  Psu.GOOGLE_FEEDS Examples.psu_dict
           ≫= for_each (Psu.official_category_step Examples.psu_feeds Examples.now)
                       Psu.OFFICIAL_RSS
         = Ok Examples.psu_dict).
Proof.
  destruct reading_feeds_again_changes_nothing as (Hl & Hp).
  assert (Local.collect Examples.local_feeds Examples.now = Ok Examples.local_dict)
    as Rl by (vm_compute; reflexivity).
  assert (Psu.collect Examples.quote_plus Examples.psu_feeds Examples.now
          = Ok Examples.psu_dict) as Rp by (vm_compute; reflexivity).
  exact (conj (conj Rl (Hl _ _ _ Rl)) (conj Rp (Hp _ _ _ _ Rp))).
Defined.

(** X13: every item [fetch_psu_news.py] writes carries the provenance of
    its configuration, not of the feed: it is a Google item (source
    ["Google News"], type ["google"]) of one of the four configured
    categories, or an official item (type ["official"]) with one of the
    three configured pairs of category and source name. *)
Theorem psu_provenance_from_configuration quote_plus parse now fs doc it :
  snapshot (Psu.main quote_plus parse now fs) = Written doc ->
  it ∈ Psu.items doc ->
  (Psu.source_type it = lit "google" /\ Psu.source it = lit "Google News"
   /\ Psu.category it ∈ PsuMore.google_categories)
  \/ (Psu.source_type it = lit "official"
      /\ (Psu.category it, Psu.source it) ∈ PsuMore.official_sources).
Proof.
  intros (d & Hd & ->)%PsuRun.psu_main_written Hit.
  assert (it ∈ dict_values d) as Hv
    by (eapply elem_of_submseteq; [exact Hit|apply ranked_submseteq]).
  destruct (PsuMore2.psu_item_candidate _ _ _ _ _ Hd Hv) as (c & Hc & _ & Hb).
  apply PsuProvenance.candidate_item_provenance in Hb as (-> & -> & ->).
  unfold Psu.candidates in Hc. apply elem_of_app in Hc as [Hg|Ho].
  - left. destruct (PsuProvenance.google_candidates_provenance _ _ _ Hg) as [-> ->].
    split_and!; [done..|]. by eapply PsuMore2.google_candidates_category.
  - right. by apply PsuMore2.official_candidates_provenance in Ho.
Qed.

Lemma psu_provenance_from_configuration_witness :
  snapshot (Psu.main Examples.quote_plus MoreExamples.psu_two_sources
                     Examples.now Examples.fs_fine)
  = Written MoreExamples.psu_two_sources_doc
  /\ MoreExamples.psu_item_pib ∈ Psu.items MoreExamples.psu_two_sources_doc
  /\ ((Psu.source_type MoreExamples.psu_item_pib = lit "google"
       /\ Psu.source MoreExamples.psu_item_pib = lit "Google News"
       /\ Psu.category MoreExamples.psu_item_pib ∈ PsuMore.google_categories)
      \/ (Psu.source_type MoreExamples.psu_item_pib = lit "official"
          /\ (Psu.category MoreExamples.psu_item_pib,
              Psu.source MoreExamples.psu_item_pib) ∈ PsuMore.official_sources)).
Proof.
  assert (snapshot (Psu.main Examples.quote_plus MoreExamples.psu_two_sources
                             Examples.now Examples.fs_fine)
          = Written MoreExamples.psu_two_sources_doc) as R by (vm_compute; reflexivity).
  assert (MoreExamples.psu_item_pib ∈ Psu.items MoreExamples.psu_two_sources_doc)
    as Hin by (apply list_elem_of_here).
  exact (conj R (conj Hin (psu_provenance_from_configuration _ _ _ _ _ _ R Hin))).
Defined.

(** X16: an item [fetch_psu_news.py] writes whose URL no Google entry
    carries comes from an official feed: its type is ["official"] and
    its category and source name are a configured pair. *)
Theorem official_only_url_is_official quote_plus parse now fs doc it :
  snapshot (Psu.main quote_plus parse now fs) = Written doc ->
  it ∈ Psu.items doc ->
  (forall c, c ∈ Psu.google_candidates quote_plus parse ->
             Psu.candidate_key c <> Ok (Psu.url it)) ->
  Psu.source_type it = lit "official"
  /\ (Psu.category it, Psu.source it) ∈ PsuMore.official_sources.
Proof.
  intros (d & Hd & ->)%PsuRun.psu_main_written Hit Hno.
  assert (it ∈ dict_values d) as Hv
    by (eapply elem_of_submseteq; [exact Hit|apply ranked_submseteq]).
  destruct (PsuMore2.psu_item_candidate _ _ _ _ _ Hd Hv) as (c & Hc & Hk & Hb).
  apply PsuProvenance.candidate_item_provenance in Hb as (-> & -> & ->).
  unfold Psu.candidates in Hc. apply elem_of_app in Hc as [Hg|Ho].
  - by destruct (Hno c Hg).
  - by apply PsuMore2.official_candidates_provenance in Ho.
Qed.

Lemma official_only_url_is_official_witness :
  snapshot (Psu.main Examples.quote_plus MoreExamples.psu_two_sources
                     Examples.now Examples.fs_fine)
  = Written MoreExamples.psu_two_sources_doc
  /\ MoreExamples.psu_item_pib ∈ Psu.items MoreExamples.psu_two_sources_doc
  /\ Psu.source_type MoreExamples.psu_item_pib = lit "official"
  /\ (Psu.category MoreExamples.psu_item_pib, Psu.source MoreExamples.psu_item_pib)
       ∈ PsuMore.official_sources.
Proof.
  assert (snapshot (Psu.main Examples.quote_plus MoreExamples.psu_two_sources
                             Examples.now Examples.fs_fine)
          = Written MoreExamples.psu_two_sources_doc) as R by (vm_compute; reflexivity).
  assert (MoreExamples.psu_item_pib ∈ Psu.items MoreExamples.psu_two_sources_doc)
    as Hin by (apply list_elem_of_here).
  assert (forall c, c ∈ Psu.google_candidates Examples.quote_plus
                          MoreExamples.psu_two_sources ->
                    Psu.candidate_key c <> Ok (Psu.url MoreExamples.psu_item_pib))
    as Hno.
  { intros c Hc. vm_compute in Hc.
    apply elem_of_cons in Hc as [->|[]%elem_of_nil].
    intros H. vm_compute in H. discriminate H. }
  exact (conj R (conj Hin (official_only_url_is_official _ _ _ _ _ _ R Hin Hno))).
Defined.

(** ** The order of the snapshots *)

(** X19: the items of every snapshot are in descending order of the
    sort key, compared as strings: for all adjacent pairs the earlier
    key is [>=] the later one.  The key is [date] in
    [fetch_local_news.py] and [fetch_psu_news.py], where every date is the
    ISO string of a UTC value, so that the string comparison agrees with
    the comparison of the instants.  In [fetch_nalco_news.py] the key is
    the timestamp, or the empty string when there is none, and the string
    comparison agrees with the instants for two feed timestamps of one
    UTC offset. *)
Theorem descending_by_sort_key :
  (forall L i a b,
      Nalco.ranked L !! i = Some a -> Nalco.ranked L !! S i = Some b ->
      PyStr.geb (Nalco.sort_key a) (Nalco.sort_key b) = true)
  /\ (forall d i a b,
        Local.rank d !! i = Some a -> Local.rank d !! S i = Some b ->
        PyStr.geb (Local.date a) (Local.date b) = true)
  /\ (forall d i a b,
        Psu.rank d !! i = Some a -> Psu.rank d !! S i = Some b ->
        PyStr.geb (Psu.date a) (Psu.date b) = true)
  /\ (forall parse now d a b,
        PyDate.valid now = true -> PyDate.tzoffset now = Some 0%Z ->
        Local.collect parse now = Ok d ->
        a ∈ dict_values d -> b ∈ dict_values d ->
        exists ta tb,
          PyDate.utc_stamp (Local.date a) ta /\ PyDate.utc_stamp (Local.date b) tb
          /\ PyStr.geb (Local.date a) (Local.date b)
             = (PyDate.micros_at 0 tb <=? PyDate.micros_at 0 ta)%Z)
  /\ (forall quote_plus parse now d a b,
        PyDate.valid now = true -> PyDate.tzoffset now = Some 0%Z ->
        Psu.collect quote_plus parse now = Ok d ->
        a ∈ dict_values d -> b ∈ dict_values d ->
        exists ta tb,
          PyDate.utc_stamp (Psu.date a) ta /\ PyDate.utc_stamp (Psu.date b) tb
          /\ PyStr.geb (Psu.date a) (Psu.date b)
             = (PyDate.micros_at 0 tb <=? PyDate.micros_at 0 ta)%Z)
  /\ (forall L ia ib ra rb ta tb o,
        Nalco.rss_pubDate ia = Some ra -> ra <> [] ->
        Nalco.parsedate_to_datetime L ra = Some ta ->
        Nalco.rss_pubDate ib = Some rb -> rb <> [] ->
        Nalco.parsedate_to_datetime L rb = Some tb ->
        PyDate.valid ta = true -> PyDate.valid tb = true ->
        PyDate.tzoffset ta = Some o -> PyDate.tzoffset tb = Some o ->
        PyStr.geb (Nalco.sort_key (Nalco.google_item L ia))
                  (Nalco.sort_key (Nalco.google_item L ib))
        = (PyDate.micros_at o tb <=? PyDate.micros_at o ta)%Z).
Proof.
  split_and!.
  - intros L i a b. apply ranked_adjacent.
  - intros d i a b. apply ranked_adjacent.
  - intros d i a b. apply ranked_adjacent.
  - intros parse now d a b Hv Ht Hd Ha Hb.
    destruct (LocalDates.local_dates_are_utc parse now d a Hv Ht Hd Ha) as [ta Sa].
    destruct (LocalDates.local_dates_are_utc parse now d b Hv Ht Hd Hb) as [tb Sb].
    exists ta, tb. split_and!; [done..|]. by apply utc_stamp_geb.
  - intros quote_plus parse now d a b Hv Ht Hd Ha Hb.
    destruct (PsuDates.psu_dates_are_utc quote_plus parse now d a Hv Ht Hd Ha) as [ta Sa].
    destruct (PsuDates.psu_dates_are_utc quote_plus parse now d b Hv Ht Hd Hb) as [tb Sb].
    exists ta, tb. split_and!; [done..|]. by apply utc_stamp_geb.
  - intros L ia ib ra rb ta tb o Ha Hra Hpa Hb Hrb Hpb Va Vb Ta Tb.
    rewrite (NalcoDates.google_item_sort_key L ia ra ta) by done.
    rewrite (NalcoDates.google_item_sort_key L ib rb tb) by done.
    unfold PyStr.geb. by apply PyDateFacts.isoformat_leb_instant.
Qed.

Lemma descending_by_sort_key_witness :
  (Nalco.ranked (Examples.libraries Examples.feed_of_three) !! 0
   = Some (Nalco.google_item (Examples.libraries Examples.feed_of_three)
                             Examples.india_item)
   /\ Nalco.ranked (Examples.libraries Examples.feed_of_three) !! 1
      = Some (Nalco.google_item (Examples.libraries Examples.feed_of_three)
                                Examples.utc_item)
   /\ PyStr.geb
        (Nalco.sort_key (Nalco.google_item (Examples.libraries Examples.feed_of_three)
                                           Examples.india_item))
        (Nalco.sort_key (Nalco.google_item (Examples.libraries Examples.feed_of_three)
                                           Examples.utc_item)) = true)
  /\ (Local.rank Examples.local_dict !! 0 = Some Examples.local_item_b
      /\ Local.rank Examples.local_dict !! 1 = Some Examples.local_item_a
      /\ PyStr.geb (Local.date Examples.local_item_b)
                   (Local.date Examples.local_item_a) = true)
  /\ (Psu.rank Examples.psu_dict_of_two !! 0 = Some Examples.psu_item_b
      /\ Psu.rank Examples.psu_dict_of_two !! 1 = Some Examples.psu_item
      /\ PyStr.geb (Psu.date Examples.psu_item_b)
                   (Psu.date Examples.psu_item) = true)
  /\ (PyDate.valid Examples.now = true
      /\ PyDate.tzoffset Examples.now = Some 0%Z
      /\ Local.collect Examples.local_feeds Examples.now = Ok Examples.local_dict
      /\ Examples.local_item_b ∈ dict_values Examples.local_dict
      /\ Examples.local_item_a ∈ dict_values Examples.local_dict
      /\ exists ta tb,
           PyDate.utc_stamp (Local.date Examples.local_item_b) ta
           /\ PyDate.utc_stamp (Local.date Examples.local_item_a) tb
           /\ PyStr.geb (Local.date Examples.local_item_b)
                        (Local.date Examples.local_item_a)
              = (PyDate.micros_at 0 tb <=? PyDate.micros_at 0 ta)%Z)
  /\ (Psu.collect Examples.quote_plus MoreExamples.psu_two_sources Examples.now
      = Ok MoreExamples.psu_dict_two_sources
      /\ MoreExamples.psu_item_pib ∈ dict_values MoreExamples.psu_dict_two_sources
      /\ Examples.psu_item ∈ dict_values MoreExamples.psu_dict_two_sources
      /\ exists ta tb,
           PyDate.utc_stamp (Psu.date MoreExamples.psu_item_pib) ta
           /\ PyDate.utc_stamp (Psu.date Examples.psu_item) tb
           /\ PyStr.geb (Psu.date MoreExamples.psu_item_pib)
                        (Psu.date Examples.psu_item)
              = (PyDate.micros_at 0 tb <=? PyDate.micros_at 0 ta)%Z)
  /\ (PyDate.valid Examples.early_india = true
      /\ PyDate.valid Examples.morning_india = true
      /\ PyStr.geb
           (Nalco.sort_key (Nalco.google_item (Examples.libraries Examples.feed_of_three)
                                              Examples.morning_item))
           (Nalco.sort_key (Nalco.google_item (Examples.libraries Examples.feed_of_three)
                                              Examples.india_item))
         = (PyDate.micros_at 330 Examples.early_india
            <=? PyDate.micros_at 330 Examples.morning_india)%Z).
Proof.
  destruct descending_by_sort_key as (Hn & Hl & Hp & Hlc & Hpc & Hnc).
  assert (Nalco.ranked (Examples.libraries Examples.feed_of_three) !! 0
          = Some (Nalco.google_item (Examples.libraries Examples.feed_of_three)
                                    Examples.india_item))
    as N0 by (vm_compute; reflexivity).
  assert (Nalco.ranked (Examples.libraries Examples.feed_of_three) !! 1
          = Some (Nalco.google_item (Examples.libraries Examples.feed_of_three)
                                    Examples.utc_item))
    as N1 by (vm_compute; reflexivity).
  assert (Local.rank Examples.local_dict !! 0 = Some Examples.local_item_b)
    as L0 by (vm_compute; reflexivity).
  assert (Local.rank Examples.local_dict !! 1 = Some Examples.local_item_a)
    as L1 by (vm_compute; reflexivity).
  assert (Psu.rank Examples.psu_dict_of_two !! 0 = Some Examples.psu_item_b)
    as P0 by (vm_compute; reflexivity).
  assert (Psu.rank Examples.psu_dict_of_two !! 1 = Some Examples.psu_item)
    as P1 by (vm_compute; reflexivity).
  assert (PyDate.valid Examples.now = true) as Vn by (vm_compute; reflexivity).
  assert (PyDate.tzoffset Examples.now = Some 0%Z) as Tn by reflexivity.
  assert (Local.collect Examples.local_feeds Examples.now = Ok Examples.local_dict)
    as Rl by (vm_compute; reflexivity).
  assert (Examples.local_item_b ∈ dict_values Examples.local_dict)
    as Lb by (apply list_elem_of_further, list_elem_of_here).
  assert (Examples.local_item_a ∈ dict_values Examples.local_dict)
    as La by (apply list_elem_of_here).
  assert (Psu.collect Examples.quote_plus MoreExamples.psu_two_sources Examples.now
          = Ok MoreExamples.psu_dict_two_sources) as Rp by (vm_compute; reflexivity).
  assert (MoreExamples.psu_item_pib ∈ dict_values MoreExamples.psu_dict_two_sources)
    as Pa by (apply list_elem_of_further, list_elem_of_here).
  assert (Examples.psu_item ∈ dict_values MoreExamples.psu_dict_two_sources)
    as Pb by (apply list_elem_of_here).
  assert (PyDate.valid Examples.early_india = true) as Ve by (vm_compute; reflexivity).
  assert (PyDate.valid Examples.morning_india = true) as Vm by (vm_compute; reflexivity).
  assert (lit "Fri, 05 Jan 2024 09:15:00 +0530" <> []) as Em by discriminate.
  assert (lit "Fri, 05 Jan 2024 01:00:00 +0530" <> []) as Ee by discriminate.
  refine (conj (conj N0 (conj N1 (Hn _ 0 _ _ N0 N1)))
         (conj (conj L0 (conj L1 (Hl _ 0 _ _ L0 L1)))
         (conj (conj P0 (conj P1 (Hp _ 0 _ _ P0 P1)))
         (conj (conj Vn (conj Tn (conj Rl (conj Lb (conj La
                  (Hlc _ _ _ _ _ Vn Tn Rl Lb La))))))
         (conj (conj Rp (conj Pa (conj Pb (Hpc _ _ _ _ _ _ Vn Tn Rp Pa Pb))))
               (conj Ve (conj Vm _))))))).
  exact (Hnc (Examples.libraries Examples.feed_of_three)
             Examples.morning_item Examples.india_item
             (lit "Fri, 05 Jan 2024 09:15:00 +0530")
             (lit "Fri, 05 Jan 2024 01:00:00 +0530")
             Examples.morning_india Examples.early_india 330%Z
             eq_refl Em eq_refl eq_refl Ee eq_refl Vm Ve eq_refl eq_refl).
Defined.

(** ** Keywords with a space *)

(** X20: [fetch_local_news.py] puts the keyword into the URL as it is,
    and the URL of the seventh keyword, [NALCO Damanjodi], has a space.
    With an HTTP layer that refuses such a URL the run raises and writes
    nothing, whatever the feeds hold; when the feeds of the six keywords
    before it return entries with a link, a title and a well-formed date,
    the exception is the one of that call. *)
Theorem local_run_stops_at_a_space feedparser_parse now fs :
  (forall u, 32%N ∈ u -> exists e, feedparser_parse u = Raise e) ->
  32%N ∈ Local.search_url (lit "NALCO Damanjodi")
  /\ raised (Local.run feedparser_parse now fs) <> None
  /\ snapshot (Local.run feedparser_parse now fs) = Untouched
  /\ stdout (Local.run feedparser_parse now fs) = []
  /\ (forall e,
        (forall key,
           key ∈ map lit ["Damanjodi"; "Similiguda"; "Sunabeda"; "Koraput";
                          "Jeypore"; "Pottangi"]%string ->
           exists es, feedparser_parse (Local.search_url key) = Ok es
                      /\ Forall Local.well_formed es) ->
        feedparser_parse (Local.search_url (lit "NALCO Damanjodi")) = Raise e ->
        raised (Local.run feedparser_parse now fs) = Some e).
Proof.
  intros H.
  assert (32%N ∈ Local.search_url (lit "NALCO Damanjodi")) as Hs.
  { apply (list_elem_of_lookup_2 _ 42). vm_compute. reflexivity. }
  assert (lit "NALCO Damanjodi" ∈ Local.KEYWORDS) as Hk.
  { unfold Local.KEYWORDS. do 6 apply list_elem_of_further.
    apply list_elem_of_here. }
  destruct (H _ Hs) as [e He].
  destruct (LocalScript.local_gather_call_raises feedparser_parse now _ e Hk He)
    as [e' He'].
  split_and!; [done|unfold Local.run; by rewrite He'..|].
  intros e0 Hsix He0. unfold Local.run, Local.gather.
  assert (Local.KEYWORDS
          = map lit ["Damanjodi"; "Similiguda"; "Sunabeda"; "Koraput";
                     "Jeypore"; "Pottangi"]%string
            ++ lit "NALCO Damanjodi"
               :: map lit ["HAL Sunabeda"; "LIC Koraput"; "Laxmipur Koraput";
                           "Rayagada Odisha"]%string) as -> by reflexivity.
  rewrite for_each_app.
  destruct (fetching_total (fun key => feedparser_parse (Local.search_url key))
              (fun _ => Local.entry_step now)
              (Local.fetch_step feedparser_parse now)
              (LocalScript.local_fetch_step feedparser_parse now)
              Local.well_formed
              (map lit ["Damanjodi"; "Similiguda"; "Sunabeda"; "Koraput";
                        "Jeypore"; "Pottangi"]%string) []) as [d Hd]; [|done|].
  { intros _ s x Hx. rewrite LocalFacts.local_entry_step_first_wins.
    by apply LocalFailure.well_formed_step. }
  rewrite Hd. cbn [mbind result_bind for_each].
  assert (Local.fetch_step feedparser_parse now d (lit "NALCO Damanjodi")
          = Raise e0) as -> by (unfold Local.fetch_step; by rewrite He0).
  done.
Qed.

Lemma local_run_stops_at_a_space_witness :
  (forall u, 32%N ∈ u ->
     exists e, MoreExamples.strict Examples.local_feeds u = Raise e)
  /\ Local.run (MoreExamples.strict Examples.local_feeds)
               Examples.now Examples.fs_fine
     = {| stdout := []; snapshot := Untouched; raised := Some InvalidURL |}
  /\ raised (Local.run (MoreExamples.strict Examples.local_feeds)
                       Examples.now Examples.fs_fine) <> None.
Proof.
  assert (forall u, 32%N ∈ u ->
            exists e, MoreExamples.strict Examples.local_feeds u = Raise e) as H.
  { intros u Hu. exists InvalidURL. unfold MoreExamples.strict.
    by rewrite bool_decide_eq_true_2. }
  assert (Local.run (MoreExamples.strict Examples.local_feeds)
                    Examples.now Examples.fs_fine
          = {| stdout := []; snapshot := Untouched; raised := Some InvalidURL |})
    as R by (vm_compute; reflexivity).
  exact (conj H (conj R
           (proj1 (proj2 (local_run_stops_at_a_space _ Examples.now
                            Examples.fs_fine H))))).
Defined.

(** ** Where titles and URLs are stripped *)

(** X21: every item [fetch_psu_news.py] writes has a title and a URL
    without whitespace at either end; in [fetch_nalco_news.py] every item
    written has such a title, and every item of the feed adapter such a
    URL. *)
Theorem stripped_titles_and_urls :
  (forall quote_plus feedparser_parse now fs doc it,
      snapshot (Psu.run quote_plus feedparser_parse now fs) = Written doc ->
      it ∈ Psu.items doc ->
      PyStr.trimmed (Psu.title it) /\ PyStr.trimmed (Psu.url it))
  /\ (forall L fs doc it,
        snapshot (Nalco.main L fs) = Written doc ->
        it ∈ Nalco.items doc ->
        PyStr.trimmed (Nalco.title it)
        /\ (Nalco.source it = lit "Google News" -> PyStr.trimmed (Nalco.url it))).
Proof.
  split.
  - intros quote_plus fp now fs doc it (d & Hd & Hi)%PsuScript.psu_run_written Hit.
    apply PsuScript.psu_gather_collect in Hd.
    apply (PsuTrim.psu_items_trimmed quote_plus _ now d it Hd).
    rewrite Hi in Hit. eapply elem_of_submseteq; [exact Hit|apply ranked_submseteq].
  - intros L fs doc it [Hi _]%NalcoRun.nalco_main_written Hit.
    rewrite Hi in Hit. apply NalcoTrim.ranked_fetched in Hit.
    unfold Nalco.fetched in Hit.
    destruct (Nalco.fetch_nalco_press L).1 as [a|e] eqn:Ea;
      [|by apply elem_of_nil in Hit].
    apply elem_of_app in Hit as [Hp|Hg].
    + apply (NalcoTrim.nalco_press_trimmed L a it Ea) in Hp as [Ht Hs].
      split; [done|]. rewrite Hs. intros Hne. vm_compute in Hne. discriminate Hne.
    + apply NalcoTrim.google_news_trimmed in Hg as (? & ? & _). done.
Qed.

Lemma stripped_titles_and_urls_witness :
  (snapshot (Psu.run Examples.quote_plus (returning Examples.psu_feeds)
                     Examples.now Examples.fs_fine) = Written Examples.psu_doc
   /\ Examples.psu_item ∈ Psu.items Examples.psu_doc
   /\ PyStr.trimmed (Psu.title Examples.psu_item)
   /\ PyStr.trimmed (Psu.url Examples.psu_item))
  /\ (snapshot (Nalco.main MoreExamples.untrimmed_listing Examples.fs_fine)
      = Written MoreExamples.untrimmed_press_doc
      /\ MoreExamples.india_news_item ∈ Nalco.items MoreExamples.untrimmed_press_doc
      /\ PyStr.trimmed (Nalco.title MoreExamples.india_news_item)
      /\ PyStr.trimmed (Nalco.url MoreExamples.india_news_item)).
Proof.
  destruct stripped_titles_and_urls as (Hp & Hn).
  assert (snapshot (Psu.run Examples.quote_plus
                      (returning Examples.psu_feeds)
                      Examples.now Examples.fs_fine) = Written Examples.psu_doc)
    as Rp by (vm_compute; reflexivity).
  assert (Examples.psu_item ∈ Psu.items Examples.psu_doc)
    as Ip by (apply list_elem_of_here).
  assert (snapshot (Nalco.main MoreExamples.untrimmed_listing Examples.fs_fine)
          = Written MoreExamples.untrimmed_press_doc)
    as Rn by (vm_compute; reflexivity).
  assert (MoreExamples.india_news_item ∈ Nalco.items MoreExamples.untrimmed_press_doc)
    as In_ by (apply list_elem_of_here).
  destruct (Hn _ _ _ _ Rn In_) as [Tn Un].
  exact (conj (conj Rp (conj Ip (Hp _ _ _ _ _ _ Rp Ip)))
              (conj Rn (conj In_ (conj Tn (Un eq_refl))))).
Defined.
